(** * Asset-pipeline scripts of infinite-headaches: bounds, framing and batch runs

    A shallow embedding of the Blender batch scripts

      - scripts/render-animal-portraits.py
      - scripts/render-farmer-portraits.py
      - scripts/bpy/export_farmer_models.py
      - scripts/bpy/export_farmers_from_blend.py

    The host application (bpy) is a state: the objects of the scene, the
    selection, the camera, and the lines and files the run has produced.
    What the host reads from disk (which paths exist, what an importer
    creates from a file, or the exception it raises) is a record of
    oracles, [host].  Python exceptions are the [Raise] outcome of a
    state-and-exception monad in which the state survives a raise, as the
    scene does under try/except.

    Numbers.  Coordinates stored in a file (vertices, bound-box corners,
    world matrices) are rationals.  A Python float computed by a script is a
    [pyfloat]: a rational, one of the two infinities the scripts use as
    sentinels, or NaN (inf - inf).  Arithmetic on the finite part is exact:
    binary64 rounding and overflow are outside this model. *)

From Stdlib Require Import QArith Qminmax Lia Lqa.
From stdpp Require Import base option list strings pretty.

Set Default Proof Using "Type".

(** ** Exceptions and outcomes *)

Inductive exn :=
| ZeroDivisionError
| IndexError
| ReferenceError
| TypeError (msg : string)
| RuntimeError (msg : string).

Definition exn_str (e : exn) : string :=
  match e with
  | ZeroDivisionError => "float division by zero"
  | IndexError => "list index out of range"
  | ReferenceError => "StructRNA of type Object has been removed"
  | TypeError msg => msg
  | RuntimeError msg => msg
  end.

Inductive outcome (A : Type) :=
| Ok (a : A)
| Raise (e : exn).
Arguments Ok {A} a.
Arguments Raise {A} e.

#[global] Instance outcome_ret : MRet outcome := fun A a => Ok a.
#[global] Instance outcome_bind : MBind outcome := fun A B f m =>
  match m with
  | Ok a => f a
  | Raise e => Raise e
  end.

Definition is_ok {A} (o : outcome A) : bool :=
  match o with Ok _ => true | Raise _ => false end.

(** ** Three-component vectors, indexed by axis *)

Inductive axis := AX | AY | AZ.

(** [range(3)] *)
Definition range3 : list axis := [AX; AY; AZ].

Record vec (A : Type) := Vec { vx : A; vy : A; vz : A }.
Arguments Vec {A} vx vy vz.
Arguments vx {A} v.
Arguments vy {A} v.
Arguments vz {A} v.

Definition vget {A} (v : vec A) (i : axis) : A :=
  match i with AX => vx v | AY => vy v | AZ => vz v end.

Definition vset {A} (v : vec A) (i : axis) (a : A) : vec A :=
  match i with
  | AX => Vec a (vy v) (vz v)
  | AY => Vec (vx v) a (vz v)
  | AZ => Vec (vx v) (vy v) a
  end.

(** [[a] * 3] *)
Definition vrepeat {A} (a : A) : vec A := Vec a a a.

Definition vmap {A B} (f : A -> B) (v : vec A) : vec B :=
  Vec (f (vx v)) (f (vy v)) (f (vz v)).

(** ** Python floats *)

Inductive pyfloat :=
| NaN
| NInf
| Fin (q : Q)
| PInf.

Definition Qlt_bool (a b : Q) : bool := negb (Qle_bool b a).

(** [a < b]; every comparison with NaN is false *)
Definition flt (a b : pyfloat) : bool :=
  match a, b with
  | NaN, _ | _, NaN => false
  | NInf, NInf => false
  | NInf, _ => true
  | Fin _, NInf => false
  | Fin p, Fin q => Qlt_bool p q
  | Fin _, PInf => true
  | PInf, _ => false
  end.

(** [a > b] *)
Definition fgt (a b : pyfloat) : bool := flt b a.

(** [a <= b] *)
Definition fle (a b : pyfloat) : bool :=
  match a, b with
  | NaN, _ | _, NaN => false
  | NInf, _ => true
  | Fin _, NInf => false
  | Fin p, Fin q => Qle_bool p q
  | Fin _, PInf => true
  | PInf, PInf => true
  | PInf, _ => false
  end.

(** [a == b] on floats *)
Definition feq (a b : pyfloat) : bool :=
  match a, b with
  | NInf, NInf | PInf, PInf => true
  | Fin p, Fin q => Qeq_bool p q
  | _, _ => false
  end.

(** the builtin [min(a, b)]: the first argument is kept unless the second
    compares smaller *)
Definition py_min (a b : pyfloat) : pyfloat := if flt b a then b else a.

(** the builtin [max(a, b)]: the first argument is kept unless the second
    compares greater *)
Definition py_max (a b : pyfloat) : pyfloat := if fgt b a then b else a.

(** [max(x0, x1, ...)] over a non-empty iterable, first item [x] *)
Definition py_max_of (x : pyfloat) (xs : list pyfloat) : pyfloat :=
  foldl py_max x xs.

Definition fneg (a : pyfloat) : pyfloat :=
  match a with
  | NaN => NaN
  | NInf => PInf
  | Fin q => Fin (- q)
  | PInf => NInf
  end.

Definition fadd (a b : pyfloat) : pyfloat :=
  match a, b with
  | NaN, _ | _, NaN => NaN
  | PInf, NInf | NInf, PInf => NaN
  | PInf, _ | _, PInf => PInf
  | NInf, _ | _, NInf => NInf
  | Fin p, Fin q => Fin (p + q)
  end.

Definition fsub (a b : pyfloat) : pyfloat := fadd a (fneg b).

(** an infinity times a finite factor: the sign of the factor decides *)
Definition inf_times (pos : bool) (q : Q) : pyfloat :=
  match (q ?= 0)%Q with
  | Eq => NaN
  | Gt => if pos then PInf else NInf
  | Lt => if pos then NInf else PInf
  end.

Definition fmul (a b : pyfloat) : pyfloat :=
  match a, b with
  | NaN, _ | _, NaN => NaN
  | PInf, PInf | NInf, NInf => PInf
  | PInf, NInf | NInf, PInf => NInf
  | PInf, Fin q | Fin q, PInf => inf_times true q
  | NInf, Fin q | Fin q, NInf => inf_times false q
  | Fin p, Fin q => Fin (p * q)
  end.

Definition is_zero (a : pyfloat) : bool :=
  match a with Fin q => Qeq_bool q 0 | _ => false end.

(** [a / b]: Python raises on a zero divisor, whatever the dividend *)
Definition fdiv (a b : pyfloat) : outcome pyfloat :=
  if is_zero b then Raise ZeroDivisionError
  else Ok match a, b with
          | NaN, _ | _, NaN => NaN
          | (PInf | NInf), (PInf | NInf) => NaN
          | Fin _, (PInf | NInf) => Fin 0
          | PInf, Fin q => inf_times true q
          | NInf, Fin q => inf_times false q
          | Fin p, Fin q => Fin (p / q)
          end.

Definition is_finite (a : pyfloat) : bool :=
  match a with Fin _ => true | _ => false end.

(** ** Bounding-box accumulation

    Both renderers keep two lists, [min_coords] and [max_coords], start
    them at [[inf] * 3] and [[-inf] * 3], and for every world-space vertex
    run

      for i in range(3):
          min_coords[i] = min(min_coords[i], world_vertex[i])
          max_coords[i] = max(max_coords[i], world_vertex[i])        *)

Definition bounds : Type := vec pyfloat * vec pyfloat.

Definition sentinel : bounds := (vrepeat PInf, vrepeat NInf).

(** one pass of the body of [for i in range(3)] *)
Definition update_axis (world_vertex : vec Q) (b : bounds) (i : axis) : bounds :=
  (vset b.1 i (py_min (vget b.1 i) (Fin (vget world_vertex i))),
   vset b.2 i (py_max (vget b.2 i) (Fin (vget world_vertex i)))).

(** the whole [for i in range(3)] loop for one vertex *)
Definition observe (b : bounds) (world_vertex : vec Q) : bounds :=
  foldl (update_axis world_vertex) b range3.

(** the scan over a sequence of world-space vertices, from a given pair *)
Definition accumulate (b : bounds) (vertices_world : list (vec Q)) : bounds :=
  foldl observe b vertices_world.

(** the accumulation from the two sentinel lists: what the spec calls
    compute_bounds *)
Definition compute_bounds (vertices_world : list (vec Q)) : bounds :=
  accumulate sentinel vertices_world.

(** ** Centre, size and scale factor (render-animal-portraits.py, 162-168) *)

(** [center = [(min_coords[i] + max_coords[i]) / 2 for i in range(3)]] *)
Definition center_of (b : bounds) : outcome (vec pyfloat) :=
  cx ← fdiv (fadd (vget b.1 AX) (vget b.2 AX)) (Fin 2);
  cy ← fdiv (fadd (vget b.1 AY) (vget b.2 AY)) (Fin 2);
  cz ← fdiv (fadd (vget b.1 AZ) (vget b.2 AZ)) (Fin 2);
  mret (Vec cx cy cz).

(** [max_coords[i] - min_coords[i]] *)
Definition span (b : bounds) (i : axis) : pyfloat :=
  fsub (vget b.2 i) (vget b.1 i).

(** [size = max(max_coords[i] - min_coords[i] for i in range(3))] *)
Definition size_of (b : bounds) : pyfloat :=
  py_max_of (span b AX) [span b AY; span b AZ].

(** [scale_factor = target_size / size if size > 0 else 1] *)
Definition scale_factor_of (target_size size : pyfloat) : outcome pyfloat :=
  if fgt size (Fin 0) then fdiv target_size size else Ok (Fin 1).

(** lines 162-168 as one computation *)
Definition center_and_scale (b : bounds) (target_size : pyfloat)
  : outcome (vec pyfloat * pyfloat) :=
  center ← center_of b;
  scale_factor ← scale_factor_of target_size (size_of b);
  mret (center, scale_factor).

(** ** Strings and paths *)

(** [posixpath.join(a, b)] *)
Definition ends_with_slash (s : string) : bool :=
  match String.length s with
  | O => false
  | S n => match String.get n s with
           | Some c => if Ascii.eqb c (Ascii.ascii_of_nat 47) then true else false
           | None => false
           end
  end.

Definition os_path_join (a b : string) : string :=
  if String.prefix "/" b then b
  else if bool_decide (a = "") || ends_with_slash a then a +:+ b
  else a +:+ "/" +:+ b.

(** [pat in s] on strings *)
Definition str_in (pat s : string) : bool :=
  match String.index 0 pat s with
  | Some _ => true
  | None => bool_decide (pat = "")
  end.

(** ['=' * n] *)
Fixpoint str_times (c : string) (n : nat) : string :=
  match n with
  | O => ""
  | S n => c +:+ str_times c n
  end.

(** ** The scene graph of the host *)

(** [math.radians(d)] is kept symbolic: pi is not a rational *)
Inductive angle :=
| Rad (x : Q)
| Radians (degrees : Z).

Inductive quaternion :=
| QuatIdentity
| QuatOfEuler (e : vec angle) (order : string).

Record pose_bone := PoseBone {
  bone_name : string;
  rotation_mode : string;
  rotation_quaternion : quaternion;
}.

Record shader_node := ShaderNode {
  node_type : string;
  node_location : Z * Z;
  attribute_name : string;
  input_defaults : list (string * Q);
}.

(** a link joins an output socket of one node (by index in [nodes]) to an
    input socket of another *)
Record node_link := NodeLink {
  from_node : nat; from_socket : string;
  to_node : nat; to_socket : string;
}.

Record material := Material {
  mat_name : string;
  use_nodes : bool;
  nodes : list shader_node;
  links : list node_link;
}.

Record mesh := Mesh {
  vertices : list (vec Q);
  vertex_colors : list string;
  materials : list material;
}.

Record action := Action {
  action_name : string;
  frame_range : Q * Q;
}.

Record nla_strip := NlaStrip {
  strip_name : string;
  strip_start : Z;
  strip_action : action;
}.

Record nla_track := NlaTrack {
  track_name : string;
  strips : list nla_strip;
}.

Record anim_data := AnimData {
  anim_action : option action;
  nla_tracks : list nla_track;
}.

Record camera_data := CameraData_ {
  cam_type : string;
  ortho_scale : Q;
}.

Record light_data := LightData_ {
  light_type : string;
  energy : Q;
  light_size : Q;
  color : vec Q;
}.

Inductive obj_data :=
| NoData
| MeshData (m : mesh)
| ArmatureData
| CameraData (c : camera_data)
| LightData (l : light_data).

Inductive obj_type := MESH | ARMATURE | CAMERA | LIGHT | EMPTY.

#[global] Instance obj_type_eq_dec : EqDecision obj_type.
Proof. solve_decision. Defined.

(** a 4x4 world matrix acts on a 3-vector through its first three rows *)
Record row4 := Row4 { m0 : Q; m1 : Q; m2 : Q; m3 : Q }.
Definition matrix : Type := vec row4.

Definition identity_matrix : matrix :=
  Vec (Row4 1 0 0 0) (Row4 0 1 0 0) (Row4 0 0 1 0).

(** [matrix @ vector] *)
Definition mat_apply (m : matrix) (v : vec Q) : vec Q :=
  vmap (fun r => m0 r * vx v + m1 r * vy v + m2 r * vz v + m3 r)%Q m.

(** [obj.bound_box]: always eight corners *)
Record box := Box {
  c0 : vec Q; c1 : vec Q; c2 : vec Q; c3 : vec Q;
  c4 : vec Q; c5 : vec Q; c6 : vec Q; c7 : vec Q;
}.

Definition corners (b : box) : list (vec Q) :=
  [c0 b; c1 b; c2 b; c3 b; c4 b; c5 b; c6 b; c7 b].

Definition zero_box : box :=
  let o := Vec 0%Q 0%Q 0%Q in Box o o o o o o o o.

Record object := Object {
  oid : nat;
  name : string;
  data : obj_data;
  parent : option nat;
  location : vec pyfloat;
  rotation_euler : vec angle;
  scale : vec pyfloat;
  matrix_world : matrix;
  bound_box : box;
  animation_data : option anim_data;
  pose_bones : list pose_bone;
}.

(** [obj.type]: the kind of the object's data *)
Definition type (o : object) : obj_type :=
  match data o with
  | NoData => EMPTY
  | MeshData _ => MESH
  | ArmatureData => ARMATURE
  | CameraData _ => CAMERA
  | LightData _ => LIGHT
  end.

Definition set_oid (i : nat) (p : option nat) (o : object) : object :=
  Object i (name o) (data o) p (location o) (rotation_euler o) (scale o)
         (matrix_world o) (bound_box o) (animation_data o) (pose_bones o).

Definition set_data (d : obj_data) (o : object) : object :=
  Object (oid o) (name o) d (parent o) (location o) (rotation_euler o) (scale o)
         (matrix_world o) (bound_box o) (animation_data o) (pose_bones o).

Definition set_location (l : vec pyfloat) (o : object) : object :=
  Object (oid o) (name o) (data o) (parent o) l (rotation_euler o) (scale o)
         (matrix_world o) (bound_box o) (animation_data o) (pose_bones o).

Definition set_rotation_euler (r : vec angle) (o : object) : object :=
  Object (oid o) (name o) (data o) (parent o) (location o) r (scale o)
         (matrix_world o) (bound_box o) (animation_data o) (pose_bones o).

Definition set_scale (s : vec pyfloat) (o : object) : object :=
  Object (oid o) (name o) (data o) (parent o) (location o) (rotation_euler o) s
         (matrix_world o) (bound_box o) (animation_data o) (pose_bones o).

Definition set_animation_data (a : option anim_data) (o : object) : object :=
  Object (oid o) (name o) (data o) (parent o) (location o) (rotation_euler o)
         (scale o) (matrix_world o) (bound_box o) a (pose_bones o).

Definition set_pose_bones (b : list pose_bone) (o : object) : object :=
  Object (oid o) (name o) (data o) (parent o) (location o) (rotation_euler o)
         (scale o) (matrix_world o) (bound_box o) (animation_data o) b.

(** [bpy.data.objects.new(name, data)]: at the origin, unrotated, unit scale *)
Definition new_object (i : nat) (nm : string) (d : obj_data) : object :=
  Object i nm d None (vrepeat (Fin 0)) (vrepeat (Rad 0)) (vrepeat (Fin 1))
         identity_matrix zero_box None [].

(** ** What a run leaves behind *)

Inductive event :=
| Print (line : string)
| PrintNumbers (label : string) (values : list pyfloat)
| PrintNames (label : string) (names : list string)
| MakeDirs (path : string)
| ImportGltf (filepath : string)
| ImportFbx (filepath : string) (use_anim : bool)
| OpenMainfile (filepath : string)
| RenderStill (filepath : string)
| ExportGltf (filepath : string) (selection : list object).

(** an event that writes an output artifact: a rendered image or a
    packaged model *)
Definition is_output (e : event) : bool :=
  match e with
  | RenderStill _ | ExportGltf _ _ => true
  | _ => false
  end.

Record render_settings := RenderSettings {
  engine : string;
  samples : nat;
  use_denoising : bool;
  resolution_x : nat;
  resolution_y : nat;
  resolution_percentage : nat;
  film_transparent : bool;
  file_format : string;
  color_mode : string;
  compression : nat;
  compute_device_type : string;
  device : string;
  filepath : string;
}.

Definition set_filepath (p : string) (r : render_settings) : render_settings :=
  RenderSettings (engine r) (samples r) (use_denoising r) (resolution_x r)
    (resolution_y r) (resolution_percentage r) (film_transparent r)
    (file_format r) (color_mode r) (compression r) (compute_device_type r)
    (device r) p.

Record world := World {
  objects : list object;        (* bpy.data.objects, in iteration order *)
  selected : list nat;          (* bpy.context.selected_objects *)
  active : option nat;          (* bpy.context.view_layer.objects.active *)
  mode : string;                (* OBJECT or POSE *)
  camera : option nat;          (* bpy.context.scene.camera *)
  render : render_settings;     (* bpy.context.scene.render and cycles *)
  next_oid : nat;               (* identity of the next object created *)
  trace : list event;           (* oldest first *)
}.

Definition set_objects (l : list object) (w : world) : world :=
  World l (selected w) (active w) (mode w) (camera w) (render w) (next_oid w) (trace w).
Definition set_selected (l : list nat) (w : world) : world :=
  World (objects w) l (active w) (mode w) (camera w) (render w) (next_oid w) (trace w).
Definition set_active (a : option nat) (w : world) : world :=
  World (objects w) (selected w) a (mode w) (camera w) (render w) (next_oid w) (trace w).
Definition set_mode (m : string) (w : world) : world :=
  World (objects w) (selected w) (active w) m (camera w) (render w) (next_oid w) (trace w).
Definition set_camera (c : option nat) (w : world) : world :=
  World (objects w) (selected w) (active w) (mode w) c (render w) (next_oid w) (trace w).
Definition set_render (r : render_settings) (w : world) : world :=
  World (objects w) (selected w) (active w) (mode w) (camera w) r (next_oid w) (trace w).
Definition set_next_oid (n : nat) (w : world) : world :=
  World (objects w) (selected w) (active w) (mode w) (camera w) (render w) n (trace w).
Definition emit (e : event) (w : world) : world :=
  World (objects w) (selected w) (active w) (mode w) (camera w) (render w)
        (next_oid w) (trace w ++ [e]).

(** ** What the host reads from outside the run *)

Record host := Host {
  project_root : string;
  (* os.path.exists *)
  path_exists : string -> bool;
  (* the objects the glTF importer creates from a file, or its exception *)
  gltf_file : string -> outcome (list object);
  (* the same for the FBX importer, with and without animation *)
  fbx_file : string -> bool -> outcome (list object);
  (* the objects of a .blend file and its active object *)
  blend_file : string -> outcome (list object * option nat);
  (* obj.evaluated_get(depsgraph): the object as deformed by the scene *)
  evaluated_get : list object -> object -> object;
  (* preferences of the cycles add-on: absent, or whether METAL is accepted *)
  cycles_prefs : option bool;
}.

(** ** The script monad: state that survives a raise *)

Definition M (A : Type) : Type := world -> outcome A * world.

#[global] Instance M_ret : MRet M := fun A a w => (Ok a, w).
#[global] Instance M_bind : MBind M := fun A B f m w =>
  match m w with
  | (Ok a, w') => f a w'
  | (Raise e, w') => (Raise e, w')
  end.

Definition raise {A} (e : exn) : M A := fun w => (Raise e, w).
Definition lift {A} (o : outcome A) : M A := fun w => (o, w).
Definition get_world : M world := fun w => (Ok w, w).
Definition modify (f : world -> world) : M unit := fun w => (Ok tt, f w).

(** [try: body except Exception as e: handler(e)] *)
Definition try_except {A} (body : M A) (handler : exn -> M A) : M A := fun w =>
  match body w with
  | (Ok a, w') => (Ok a, w')
  | (Raise e, w') => handler e w'
  end.

(** [for x in l: body(x)] *)
Fixpoint for_each {A} (l : list A) (body : A -> M unit) : M unit :=
  match l with
  | [] => mret tt
  | x :: l => body x ;; for_each l body
  end.

(** a loop that appends one value per item to a list *)
Fixpoint for_append {A B} (l : list A) (acc : list B) (body : A -> M B) : M (list B) :=
  match l with
  | [] => mret acc
  | x :: l => b ← body x; for_append l (acc ++ [b]) body
  end.

Definition print (line : string) : M unit := modify (emit (Print line)).

(** ** Object references *)

Definition find_object (i : nat) (l : list object) : option object :=
  snd <$> list_find (fun o => oid o = i) l.

(** reading through a reference; a reference to a removed object raises *)
Definition deref (i : nat) : M object := fun w =>
  match find_object i (objects w) with
  | Some o => (Ok o, w)
  | None => (Raise ReferenceError, w)
  end.

Definition alter_object (f : object -> object) (i : nat) (l : list object) : list object :=
  (fun o => if decide (oid o = i) then f o else o) <$> l.

(** writing through a reference *)
Definition update (i : nat) (f : object -> object) : M unit :=
  _ ← deref i; modify (fun w => set_objects (alter_object f i (objects w)) w).

(** [bpy.data.objects.remove(obj)] *)
Definition remove_object (i : nat) (w : world) : world :=
  set_selected (filter (fun j => j ≠ i) (selected w))
    (set_objects (filter (fun o => oid o ≠ i) (objects w)) w).

(** objects created together get consecutive identities; a parent inside
    the file is given by position *)
Definition instantiate (base : nat) (l : list object) : list object :=
  imap (fun k o => set_oid (base + k) ((fun p => base + p) <$> parent o) o) l.

(** an importer adds the objects of the file to the scene and leaves
    exactly them selected *)
Definition add_imported (l : list object) (w : world) : world :=
  let new := instantiate (next_oid w) l in
  set_next_oid (next_oid w + length l)
    (set_selected (oid <$> new) (set_objects (objects w ++ new) w)).

(** [bpy.data.objects.new] followed by [collection.objects.link] *)
Definition create_object (nm : string) (d : obj_data) : M nat := fun w =>
  (Ok (next_oid w),
   set_next_oid (S (next_oid w))
     (set_objects (objects w ++ [new_object (next_oid w) nm d]) w)).

(** [obj.children] *)
Definition children (i : nat) (l : list object) : list object :=
  filter (fun o => parent o = Some i) l.

(** a loop that threads a local variable through its iterations *)
Fixpoint for_fold {A B} (l : list A) (acc : B) (body : B -> A -> M B) : M B :=
  match l with
  | [] => mret acc
  | x :: l => acc' ← body acc x; for_fold l acc' body
  end.

(** [bpy.context.selected_objects]: the selected objects, in scene order *)
Definition selected_objects (w : world) : list object :=
  filter (fun o => oid o ∈ selected w) (objects w).

(** the line feed inside a printed string *)
Definition nl : string := String (Ascii.ascii_of_nat 10) "".

(** [os.path.join(root, "public", "assets", dir)] *)
Definition assets_dir (h : host) (sub : list string) : string :=
  foldl os_path_join (project_root h) ("public" :: "assets" :: sub).

(** the output settings both renderers write to the scene *)
Definition output_settings (n x y : nat) (r : render_settings) : render_settings :=
  RenderSettings "CYCLES" n true x y 100 true "PNG" "RGBA" 15
    (compute_device_type r) (device r) (filepath r).

Definition set_compute_device_type (d : string) (w : world) : world :=
  let r := render w in
  set_render (RenderSettings (engine r) (samples r) (use_denoising r)
    (resolution_x r) (resolution_y r) (resolution_percentage r)
    (film_transparent r) (file_format r) (color_mode r) (compression r)
    d (device r) (filepath r)) w.

Definition set_device (d : string) (w : world) : world :=
  let r := render w in
  set_render (RenderSettings (engine r) (samples r) (use_denoising r)
    (resolution_x r) (resolution_y r) (resolution_percentage r)
    (film_transparent r) (file_format r) (color_mode r) (compression r)
    (compute_device_type r) d (filepath r)) w.

(** [prefs.preferences.compute_device_type = 'METAL']: an enum the build
    does not offer is a TypeError *)
Definition assign_metal (accepted : bool) : M unit :=
  if accepted then modify (set_compute_device_type "METAL")
  else raise (TypeError "enum METAL not found").

(** [bpy.ops.object.select_all(action='SELECT')] then
    [bpy.ops.object.delete(...)]: every object goes, and with it the
    selection, the active object and the scene camera.  Orphan data blocks
    have no separate existence here: an object carries its data. *)
Definition delete_all (w : world) : world :=
  set_camera None (set_active None (set_selected [] (set_objects [] w))).

(** [bpy.ops.render.render(write_still=True)]: the image goes to
    [scene.render.filepath] *)
Definition render_still : M unit :=
  modify (fun w => emit (RenderStill (filepath (render w))) w).

(** one area light of either renderer: [bpy.data.lights.new], its energy,
    size and colour, [bpy.data.objects.new], the link to the scene, then
    the location and the rotation *)
Definition add_light (nm : string) (l : light_data)
    (loc : vec pyfloat) (rot : vec angle) : M unit :=
  obj ← create_object nm (LightData l);
  update obj (set_location loc);;
  update obj (set_rotation_euler rot).

(** * scripts/render-animal-portraits.py *)

Module RenderAnimalPortraits.
Section Script.
Variable h : host.

Definition MODELS_DIR : string := assets_dir h ["models"].
Definition OUTPUT_DIR : string := assets_dir h ["sprites"].

Definition ANIMALS : list (string * string) :=
  [("cow", "cow_portrait.png");
   ("pig", "pig_portrait.png");
   ("chicken", "chicken_portrait.png");
   ("duck", "duck_portrait.png");
   ("sheep", "sheep_portrait.png")].

Definition RENDER_SIZE : nat := 512.
Definition SAMPLES : nat := 64.

Definition clear_scene : M unit := modify delete_all.

Definition setup_render_settings : M unit :=
  modify (fun w => set_render (output_settings SAMPLES RENDER_SIZE RENDER_SIZE (render w)) w);;
  match cycles_prefs h with
  | Some accepted => assign_metal accepted;; modify (set_device "GPU")
  | None => mret tt
  end.

Definition setup_camera : M nat :=
  cam_obj ← create_object "PortraitCamera" (CameraData (CameraData_ "ORTHO" (5 # 2)));
  update cam_obj (set_location (Vec (Fin 0) (Fin (-5)) (Fin (1 # 2))));;
  update cam_obj (set_rotation_euler (Vec (Radians 90) (Rad 0) (Rad 0)));;
  modify (set_camera (Some cam_obj));;
  mret cam_obj.

Definition setup_lighting : M unit :=
  add_light "KeyLight" (LightData_ "AREA" 500 3 (Vec 1%Q (95 # 100) (9 # 10)))
    (Vec (Fin 2) (Fin (-3)) (Fin 2)) (Vec (Radians 60) (Rad 0) (Radians 30));;
  add_light "FillLight" (LightData_ "AREA" 200 4 (Vec (9 # 10) (95 # 100) 1%Q))
    (Vec (Fin (-2)) (Fin (-2)) (Fin 1)) (Vec (Radians 70) (Rad 0) (Radians (-20)));;
  add_light "RimLight" (LightData_ "AREA" 300 2 (Vec 1%Q 1%Q 1%Q))
    (Vec (Fin 0) (Fin 3) (Fin 2)) (Vec (Radians 120) (Rad 0) (Radians 180)).

Definition load_glb (filepath : string) : M (list nat) :=
  modify (emit (ImportGltf filepath));;
  l ← lift (gltf_file h filepath);
  modify (add_imported l);;
  w ← get_world;
  mret (oid <$> filter (fun obj => type obj = MESH) (selected_objects w)).

(** the bounds loop over the eight corners of each object's box *)
Definition scan_objects (objs : list nat) : M bounds :=
  for_fold objs sentinel (fun b obj =>
    o ← deref obj;
    mret (accumulate b (mat_apply (matrix_world o) <$> corners (bound_box o)))).

Definition target_size : pyfloat := Fin (18 # 10).

Definition center_and_scale_model (objs : list nat) : M unit :=
  match objs with
  | [] => mret tt
  | _ =>
    b ← scan_objects objs;
    cs ← lift (center_and_scale b target_size);
    let '(center, scale_factor) := cs in
    for_each objs (fun obj =>
      update obj (fun o => set_location
        (vset (location o) AX (fsub (vx (location o)) (vx center))) o);;
      update obj (fun o => set_location
        (vset (location o) AY (fsub (vy (location o)) (vy center))) o);;
      update obj (fun o => set_location
        (vset (location o) AZ (fsub (vz (location o)) (vz center))) o);;
      update obj (fun o => set_scale
        (vmap (fun s => fmul s scale_factor) (scale o)) o))
  end.

Definition render_portrait (model_name output_filename : string) : M bool :=
  print (nl +:+ str_times "=" 50);;
  print ("Rendering: " +:+ model_name);;
  print (str_times "=" 50);;
  clear_scene;;
  setup_lighting;;
  _ ← setup_camera;
  let model_path := os_path_join MODELS_DIR (model_name +:+ ".glb") in
  if negb (path_exists h model_path) then
    print ("ERROR: Model not found: " +:+ model_path);;
    mret false
  else
    objs ← load_glb model_path;
    match objs with
    | [] =>
      print ("ERROR: No mesh objects imported from " +:+ model_path);;
      mret false
    | _ =>
      print ("Loaded " +:+ pretty (length objs) +:+ " mesh objects");;
      center_and_scale_model objs;;
      let output_path := os_path_join OUTPUT_DIR output_filename in
      modify (fun w => set_render (set_filepath output_path (render w)) w);;
      print ("Rendering to: " +:+ output_path);;
      render_still;;
      print ("SUCCESS: " +:+ output_filename);;
      mret true
    end.

(** [main], over the name map it iterates *)
Definition main_over (animals : list (string * string)) : M unit :=
  print (nl +:+ str_times "=" 60);;
  print "Homestead Headaches - Animal Portrait Renderer";;
  print (str_times "=" 60);;
  modify (emit (MakeDirs OUTPUT_DIR));;
  print ("Output directory: " +:+ OUTPUT_DIR);;
  setup_render_settings;;
  results ← for_append animals [] (fun '(model_name, output_filename) =>
    success ← render_portrait model_name output_filename;
    mret (model_name, success));
  print (nl +:+ str_times "=" 60);;
  print "RENDER SUMMARY";;
  print (str_times "=" 60);;
  for_each results (fun '(nm, success) =>
    let status := if (success : bool) then "SUCCESS" else "FAILED" in
    print ("  " +:+ nm +:+ ": " +:+ status));;
  let successful := length (filter (fun r => snd r = true) results) in
  print (nl +:+ "Completed: " +:+ pretty successful +:+ "/"
         +:+ pretty (length results) +:+ " portraits");;
  print ("Output: " +:+ OUTPUT_DIR).

Definition main : M unit := main_over ANIMALS.
End Script.
End RenderAnimalPortraits.

(** * scripts/render-farmer-portraits.py *)

Module RenderFarmerPortraits.

Record farmer_config := FarmerConfig {
  farmer_id : string;
  glb : string;
  output : string;
  label : string;
}.

Section Script.
Variable h : host.

Definition MODELS_DIR : string := assets_dir h ["models"; "farmers"].
Definition OUTPUT_DIR : string := assets_dir h ["sprites"].

Definition FARMERS : list farmer_config :=
  [FarmerConfig "john" (os_path_join MODELS_DIR "john.glb")
     "farmer_john_portrait.png" "Farmer John";
   FarmerConfig "mary" (os_path_join MODELS_DIR "mary.glb")
     "farmer_mary_portrait.png" "Farmer Mary"].

Definition RENDER_WIDTH : nat := 512.
Definition RENDER_HEIGHT : nat := 640.
Definition SAMPLES : nat := 128.
Definition CAMERA_ORTHO_SCALE : Q := 11 # 10.

Definition clear_scene : M unit := modify delete_all.

Definition setup_render : M unit :=
  modify (fun w => set_render (output_settings SAMPLES RENDER_WIDTH RENDER_HEIGHT (render w)) w);;
  match cycles_prefs h with
  | Some accepted =>
    try_except (assign_metal accepted;; modify (set_device "GPU"))
               (fun _ => mret tt)
  | None => mret tt
  end.

Definition setup_camera (center_y center_z : pyfloat) : M nat :=
  cam_obj ← create_object "PortraitCam" (CameraData (CameraData_ "ORTHO" CAMERA_ORTHO_SCALE));
  update cam_obj (set_location (Vec (Fin 0) (Fin (-4)) center_z));;
  update cam_obj (set_rotation_euler (Vec (Radians 90) (Rad 0) (Rad 0)));;
  modify (set_camera (Some cam_obj));;
  mret cam_obj.

Definition setup_lighting : M unit :=
  add_light "Key" (LightData_ "AREA" 600 3 (Vec 1%Q (95 # 100) (9 # 10)))
    (Vec (Fin (3 # 2)) (Fin (-3)) (Fin (5 # 2)))
    (Vec (Radians 55) (Rad 0) (Radians 25));;
  add_light "Fill" (LightData_ "AREA" 250 4 (Vec (9 # 10) (95 # 100) 1%Q))
    (Vec (Fin (-3 # 2)) (Fin (-5 # 2)) (Fin (3 # 2)))
    (Vec (Radians 65) (Rad 0) (Radians (-20)));;
  add_light "Rim" (LightData_ "AREA" 350 2 (Vec 1%Q 1%Q 1%Q))
    (Vec (Fin 0) (Fin 3) (Fin (5 # 2)))
    (Vec (Radians 120) (Rad 0) (Radians 180)).

(** the loop over the selection: the last armature wins, meshes are
    collected in order *)
Definition split_selection (sel : list object) : option nat * list nat :=
  foldl (fun '(armature, meshes) obj =>
           match type obj with
           | ARMATURE => (Some (oid obj), meshes)
           | MESH => (armature, meshes ++ [oid obj])
           | _ => (armature, meshes)
           end) (None, []) sel.

(** the loop over [armature.children] *)
Definition add_children (kids : list object) (meshes : list nat) : list nat :=
  foldl (fun meshes child =>
           if bool_decide (type child = MESH) && bool_decide (oid child ∉ meshes)
           then meshes ++ [oid child] else meshes) meshes kids.

Definition load_farmer_glb (filepath : string) : M (option nat * list nat) :=
  modify (emit (ImportGltf filepath));;
  l ← lift (gltf_file h filepath);
  modify (add_imported l);;
  w ← get_world;
  let '(armature, meshes) := split_selection (selected_objects w) in
  match armature with
  | Some a => mret (armature, add_children (children a (objects w)) meshes)
  | None => mret (armature, meshes)
  end.

(** the vertices one object contributes to the bounds, in world space *)
Definition world_cos (w : world) (obj : object) : list (vec Q) :=
  let eval_obj := evaluated_get h (objects w) obj in
  match data eval_obj with
  | MeshData m => mat_apply (matrix_world eval_obj) <$> vertices m
  | _ => mat_apply (matrix_world obj) <$> corners (bound_box obj)
  end.

Definition get_model_bounds (objs : list nat) : M bounds :=
  for_fold objs sentinel (fun b obj =>
    o ← deref obj;
    w ← get_world;
    mret (accumulate b (world_cos w o))).

Definition arm_rotations : list (string * quaternion) :=
  [("mixamorig:LeftArm", QuatOfEuler (Vec (Rad 0) (Rad 0) (Radians 68)) "XYZ");
   ("mixamorig:RightArm", QuatOfEuler (Vec (Rad 0) (Rad 0) (Radians (-68))) "XYZ");
   ("mixamorig:LeftShoulder", QuatOfEuler (Vec (Rad 0) (Rad 0) (Radians 8)) "XYZ");
   ("mixamorig:RightShoulder", QuatOfEuler (Vec (Rad 0) (Rad 0) (Radians (-8))) "XYZ");
   ("mixamorig:LeftForeArm", QuatOfEuler (Vec (Rad 0) (Radians (-25)) (Rad 0)) "XYZ");
   ("mixamorig:RightForeArm", QuatOfEuler (Vec (Rad 0) (Radians 25) (Rad 0)) "XYZ")].

(** [bone = pose.bones.get(bone_name)] and, when found, the two
    assignments to it *)
Fixpoint pose_bone_set (nm : string) (q : quaternion) (bs : list pose_bone)
  : list pose_bone :=
  match bs with
  | [] => []
  | b :: bs =>
    if bool_decide (bone_name b = nm)
    then PoseBone (bone_name b) "QUATERNION" q :: bs
    else b :: pose_bone_set nm q bs
  end.

Definition pose_idle (armature : option nat) : M unit :=
  match armature with
  | None => mret tt
  | Some a =>
    o ← deref a;
    if bool_decide (type o ≠ ARMATURE) then mret tt
    else
      modify (set_active (Some a));;
      modify (set_mode "POSE");;
      for_each arm_rotations (fun '(nm, q) =>
        update a (fun o => set_pose_bones (pose_bone_set nm q (pose_bones o)) o));;
      modify (set_mode "OBJECT")
  end.

(** lines 256-274: load the model and pose it; [None] stands for the
    two early [return False] *)
Definition load_and_pose (farmer_config : farmer_config)
  : M (option (option nat * list nat)) :=
  let glb_path := glb farmer_config in
  if negb (path_exists h glb_path) then
    print ("  ERROR: GLB not found: " +:+ glb_path);;
    mret None
  else
    clear_scene;;
    setup_lighting;;
    am ← load_farmer_glb glb_path;
    let '(armature, meshes) := am in
    match meshes with
    | [] =>
      print ("  ERROR: No mesh objects imported from " +:+ glb_path);;
      mret None
    | _ =>
      armature_name ← match armature with
                      | Some a => o ← deref a; mret (name o)
                      | None => mret "None"
                      end;
      print ("  Armature: " +:+ armature_name);;
      mesh_names ← for_append meshes [] (fun m => o ← deref m; mret (name o));
      modify (emit (PrintNames "  Meshes: " mesh_names));;
      pose_idle armature;;
      mret (Some (armature, meshes))
    end.

(** lines 290-295: centre the model on the X axis under the camera *)
Definition center_on_x (armature : option nat) (meshes : list nat)
    (center_x : pyfloat) : M unit :=
  match armature with
  | Some a =>
    update a (fun o => set_location
      (vset (location o) AX (fsub (vx (location o)) center_x)) o)
  | None =>
    for_each meshes (fun m =>
      update m (fun o => set_location
        (vset (location o) AX (fsub (vx (location o)) center_x)) o))
  end.

(** [portrait_center_z = min_co[2] + height * 0.75] with
    [height = max_co[2] - min_co[2]] *)
Definition portrait_center_z_of (b : bounds) : pyfloat :=
  let '(min_co, max_co) := b in
  let height := fsub (vz max_co) (vz min_co) in
  fadd (vz min_co) (fmul height (Fin (3 # 4))).

(** lines 276-304: bounds of the posed model, camera, centring, render *)
Definition frame_and_render (farmer_config : farmer_config)
    (armature : option nat) (meshes : list nat) : M bool :=
  let output_name := output farmer_config in
  b ← get_model_bounds meshes;
  let '(min_co, max_co) := b in
  let height := fsub (vz max_co) (vz min_co) in
  center_x ← lift (fdiv (fadd (vx min_co) (vx max_co)) (Fin 2));
  center_z ← lift (fdiv (fadd (vz min_co) (vz max_co)) (Fin 2));
  modify (emit (PrintNumbers "  Model height: " [height]));;
  modify (emit (PrintNumbers "  Center: " [center_x; center_z]));;
  _ ← setup_camera (Fin 0) (portrait_center_z_of b);
  center_on_x armature meshes center_x;;
  let output_path := os_path_join OUTPUT_DIR output_name in
  modify (fun w => set_render (set_filepath output_path (render w)) w);;
  print ("  Rendering to: " +:+ output_path);;
  render_still;;
  print ("  Done: " +:+ output_name);;
  mret true.

Definition render_farmer (farmer_config : farmer_config) : M bool :=
  print (nl +:+ str_times "=" 50);;
  print ("Rendering: " +:+ label farmer_config);;
  print (str_times "=" 50);;
  posed ← load_and_pose farmer_config;
  match posed with
  | None => mret false
  | Some (armature, meshes) => frame_and_render farmer_config armature meshes
  end.

Definition main_over (farmers : list farmer_config) : M unit :=
  print (nl +:+ str_times "=" 60);;
  print "Homestead Headaches - Farmer Portrait Renderer";;
  print (str_times "=" 60);;
  modify (emit (MakeDirs OUTPUT_DIR));;
  setup_render;;
  results ← for_append farmers [] (fun farmer =>
    ok ← render_farmer farmer;
    mret (label farmer, ok));
  print (nl +:+ str_times "=" 60);;
  print "SUMMARY";;
  print (str_times "=" 60);;
  for_each results (fun '(lbl, ok) =>
    print ("  " +:+ lbl +:+ ": " +:+ (if (ok : bool) then "OK" else "FAILED")));;
  let ok_count := length (filter (fun r => snd r = true) results) in
  print (nl +:+ "  " +:+ pretty ok_count +:+ "/" +:+ pretty (length results)
         +:+ " portraits rendered");;
  print ("  Output: " +:+ OUTPUT_DIR).

Definition main : M unit := main_over FARMERS.
End Script.
End RenderFarmerPortraits.

(** ** Operators shared by the two export scripts *)

Definition factory_render : render_settings :=
  RenderSettings "BLENDER_EEVEE" 64 true 1920 1080 100 false "PNG" "RGBA" 15
    "NONE" "CPU" "/tmp/".

(** [bpy.ops.wm.read_factory_settings(use_empty=True)]: an empty scene with
    factory settings *)
Definition factory_reset (w : world) : world :=
  World [] [] None "OBJECT" None factory_render (next_oid w) (trace w).

(** [bpy.ops.import_scene.fbx(filepath=..., use_anim=...)] *)
Definition import_fbx (h : host) (filepath : string) (use_anim : bool) : M unit :=
  modify (emit (ImportFbx filepath use_anim));;
  l ← lift (fbx_file h filepath use_anim);
  modify (add_imported l).

(** [armature.animation_data_create()] when there is none yet *)
Definition ensure_animation_data (o : object) : object :=
  match animation_data o with
  | Some _ => o
  | None => set_animation_data (Some (AnimData None [])) o
  end.

(** [int(x)] on a float: truncation towards zero *)
Definition py_int (x : Q) : Z := Z.quot (Qnum x) (Zpos (Qden x)).

(** [obj.select_set(True)] *)
Definition select_set (i : nat) (w : world) : world :=
  if bool_decide (i ∈ selected w) then w else set_selected (selected w ++ [i]) w.

(** [bpy.ops.export_scene.gltf(filepath=..., use_selection=True, ...)]:
    the packaged file holds the selected objects as they are now *)
Definition export_selection (filepath : string) : M unit :=
  modify (fun w => emit (ExportGltf filepath (selected_objects w)) w).

(** * scripts/bpy/export_farmer_models.py *)

Module ExportFarmerModels.

Record config := Config {
  fbx : string;
  mesh_name : string;
  animations : list (string * string);
}.

Definition ASSETS_ROOT : string := "/Users/jbogaty/assets/Farmers_Family".
Definition OUTPUT_DIR : string :=
  "/Users/jbogaty/src/arcade-cabinet/infinite-headaches/public/assets/models/players".

Definition CHARACTERS : list (string * config) :=
  [("john",
    Config (os_path_join ASSETS_ROOT "George_Meshes/Farmer_George.fbx")
      "Farmer_George"
      [("idle", os_path_join ASSETS_ROOT "George_Meshes/DemoAnimationsFromMixamo/Idle.fbx");
       ("walk", os_path_join ASSETS_ROOT "George_Meshes/DemoAnimationsFromMixamo/Walk.fbx")]);
   ("mary",
    Config (os_path_join ASSETS_ROOT "Martha_Meshes/Farmer_Martha.fbx")
      "Farmer_Martha"
      [("idle", os_path_join ASSETS_ROOT "Martha_Meshes/DemoAnimationsFromMixamo/Idle.fbx");
       ("walk", os_path_join ASSETS_ROOT "Martha_Meshes/DemoAnimationsFromMixamo/Walk.fbx")])].

(** the node tree [setup_material_vertex_color] leaves in a material: a
    Principled BSDF (node 0), an output (node 1) and an attribute node
    reading the colour layer Col (node 2) *)
Definition vertex_color_material (mat : material) : material :=
  Material (mat_name mat) true
    [ShaderNode "ShaderNodeBsdfPrincipled" (0, 0)%Z ""
       [("Metallic", 0%Q); ("Roughness", 8 # 10)];
     ShaderNode "ShaderNodeOutputMaterial" (300, 0)%Z "" [];
     ShaderNode "ShaderNodeAttribute" (-300, 0)%Z "Col" []]
    [NodeLink 0 "BSDF" 1 "Surface";
     NodeLink 2 "Color" 0 "Base Color"].

(** the two loops over [bpy.data.objects]: the last armature and the last
    mesh whose name contains [mesh_name] *)
Definition find_rig (mesh_nm : string) (l : list object) : option nat * option nat :=
  foldl (fun '(armature, mesh_obj) obj =>
           if bool_decide (type obj = ARMATURE) then (Some (oid obj), mesh_obj)
           else if bool_decide (type obj = MESH) && str_in mesh_nm (name obj)
                then (armature, Some (oid obj))
                else (armature, mesh_obj)) (None, None) l.

(** [bpy.ops.object.transform_apply(location=True, rotation=True,
    scale=True)]: the selected objects end at the origin, unrotated, at
    unit scale; the host bakes the old transform into their data *)
Definition transform_apply (w : world) : world :=
  set_objects
    ((fun o => if bool_decide (oid o ∈ selected w)
               then set_scale (vrepeat (Fin 1))
                      (set_rotation_euler (vrepeat (Rad 0))
                         (set_location (vrepeat (Fin 0)) o))
               else o) <$> objects w) w.

(** lines 80-82: the first colour layer is renamed to Col when no layer
    has that name *)
Definition rename_first_layer (m : mesh) : mesh :=
  match vertex_colors m with
  | [] => m
  | first :: rest =>
    if bool_decide ("Col" ∈ vertex_colors m) then m
    else Mesh (vertices m) ("Col" :: rest) (materials m)
  end.

Definition on_mesh (f : mesh -> mesh) (o : object) : object :=
  match data o with
  | MeshData m => set_data (MeshData (f m)) o
  | _ => o
  end.

Definition mesh_materials (o : object) : list material :=
  match data o with
  | MeshData m => materials m
  | _ => []
  end.

(** [track = nla_tracks.new(); track.name = n; track.strips.new(n, start, action)] *)
Definition add_track (anim_name : string) (act : action) (o : object) : object :=
  match animation_data o with
  | Some ad =>
    set_animation_data
      (Some (AnimData (anim_action ad)
         (nla_tracks ad ++
          [NlaTrack anim_name
             [NlaStrip anim_name (py_int (fst (frame_range act))) act]]))) o
  | None => o
  end.

Section Script.
Variable h : host.

Definition setup_material_vertex_color (k : nat) (mat : material) (mesh_obj : nat)
  : M unit :=
  print ("  Setting up VColor material: " +:+ mat_name mat);;
  update mesh_obj (on_mesh (fun m =>
    Mesh (vertices m) (vertex_colors m)
         (alter vertex_color_material k (materials m)))).

(** the body of the try block for one clip *)
Definition import_animation (armature : nat) (anim_name anim_path : string) : M unit :=
  import_fbx h anim_path true;;
  w ← get_world;
  match selected_objects w with
  | [] => raise IndexError
  | imported_armature :: _ =>
    match animation_data imported_armature with
    | Some (AnimData (Some act) _) =>
      let act := Action anim_name (frame_range act) in
      update armature (add_track anim_name act)
    | _ => mret tt
    end;;
    modify (remove_object (oid imported_armature))
  end.

(** lines 76-90: move the rig to the origin, apply transforms, name the
    colour layer, rewire the materials, make room for animation data *)
Definition prepare_rig (armature mesh_obj : nat) : M unit :=
  update armature (set_location (vrepeat (Fin 0)));;
  modify (set_active (Some armature));;
  modify transform_apply;;
  update mesh_obj (on_mesh rename_first_layer);;
  print "  Processing Materials...";;
  m ← deref mesh_obj;
  for_each (imap (fun k mat => (k, mat)) (mesh_materials m)) (fun '(k, mat) =>
    setup_material_vertex_color k mat mesh_obj);;
  print "  Importing Animations...";;
  update armature ensure_animation_data.

(** lines 92-105: one try block per clip *)
Definition import_animations (armature : nat) (animations : list (string * string))
  : M unit :=
  for_each animations (fun '(anim_name, anim_path) =>
    print ("    - " +:+ anim_name +:+ "...");;
    try_except (import_animation armature anim_name anim_path)
      (fun e => print ("    - ERROR: " +:+ exn_str e))).

(** lines 107-128: select the rig and the mesh, export them *)
Definition export_character (char_key : string) (armature mesh_obj : nat) : M unit :=
  let output_path := os_path_join OUTPUT_DIR (char_key +:+ ".glb") in
  print ("  Exporting to " +:+ output_path);;
  modify (set_selected []);;
  modify (select_set armature);;
  modify (select_set mesh_obj);;
  export_selection output_path;;
  print "  Done.".

Definition process_character (char_key : string) (config : config) : M unit :=
  print (nl +:+ "Processing " +:+ char_key +:+ "...");;
  modify factory_reset;;
  print ("  Importing FBX: " +:+ fbx config);;
  import_fbx h (fbx config) false;;
  w ← get_world;
  match find_rig (mesh_name config) (objects w) with
  | (Some armature, Some mesh_obj) =>
    prepare_rig armature mesh_obj;;
    import_animations armature (animations config);;
    export_character char_key armature mesh_obj
  | _ =>
    print "  ERROR: Missing Armature or Mesh"
  end.

(** the module body: make the output directory, then every character *)
Definition main_over (characters : list (string * config)) : M unit :=
  modify (emit (MakeDirs OUTPUT_DIR));;
  for_each characters (fun '(key, conf) => process_character key conf).

Definition main : M unit := main_over CHARACTERS.
End Script.
End ExportFarmerModels.

(** * scripts/bpy/export_farmers_from_blend.py *)

Module ExportFarmersFromBlend.

Record config := Config {
  blend : string;
  obj_name : string;
  animations : list (string * string);
}.

Definition ASSETS_ROOT : string := "/Users/jbogaty/assets/Farmers_Family".
Definition OUTPUT_DIR : string :=
  "/Users/jbogaty/src/arcade-cabinet/infinite-headaches/public/assets/models/players".

Definition CHARACTERS : list (string * config) :=
  [("john",
    Config (os_path_join ASSETS_ROOT "Farmer_George.blend") "Farmer_George"
      [("idle", os_path_join ASSETS_ROOT "George_Meshes/DemoAnimationsFromMixamo/Idle.fbx");
       ("walk", os_path_join ASSETS_ROOT "George_Meshes/DemoAnimationsFromMixamo/Walk.fbx")]);
   ("mary",
    Config (os_path_join ASSETS_ROOT "Farmer_Martha.blend") "Farmer_Martha"
      [("idle", os_path_join ASSETS_ROOT "Martha_Meshes/DemoAnimationsFromMixamo/Idle.fbx");
       ("walk", os_path_join ASSETS_ROOT "Martha_Meshes/DemoAnimationsFromMixamo/Walk.fbx")])].

(** [bpy.ops.wm.open_mainfile]: the scene becomes the content of the file *)
Definition load_mainfile (l : list object) (act : option nat) (w : world) : world :=
  let new := instantiate (next_oid w) l in
  World new [] ((fun a => next_oid w + a) <$> act) "OBJECT" None factory_render
        (next_oid w + length l) (trace w).

(** the first armature whose name contains Rig, else the first armature *)
Definition find_armature (l : list object) : option nat :=
  match list_find (fun o => type o = ARMATURE ∧ str_in "Rig" (name o) = true) l with
  | Some (_, o) => Some (oid o)
  | None => (fun p => oid (snd p)) <$> list_find (fun o => type o = ARMATURE) l
  end.

Section Script.
Variable h : host.

(** lines 76-103: the clip loop; its try block imports the file and ends
    in [pass] *)
Definition import_animations (animations : list (string * string)) : M unit :=
  for_each animations (fun '(anim_name, anim_path) =>
    print ("    - " +:+ anim_name +:+ "...");;
    try_except (import_fbx h anim_path true)
      (fun e => print ("    - ERROR: " +:+ exn_str e))).

Definition process_character (char_key : string) (config : config) : M unit :=
  print (nl +:+ "Processing " +:+ char_key +:+ " from .blend...");;
  modify (emit (OpenMainfile (blend config)));;
  f ← lift (blend_file h (blend config));
  modify (load_mainfile (fst f) (snd f));;
  w ← get_world;
  let mesh_obj := (fun p => oid (snd p)) <$>
                  list_find (fun o => name o = obj_name config) (objects w) in
  let armature := find_armature (objects w) in
  match mesh_obj, armature with
  | Some mesh_obj, Some armature =>
    m ← deref mesh_obj;
    a ← deref armature;
    print ("  Found Mesh: " +:+ name m);;
    print ("  Found Armature: " +:+ name a);;
    (if bool_decide (is_Some (active w)) then modify (set_mode "OBJECT") else mret tt);;
    for_each (objects w) (fun obj =>
      if bool_decide (oid obj ≠ mesh_obj) && bool_decide (oid obj ≠ armature)
      then modify (remove_object (oid obj)) else mret tt);;
    print "  Importing Animations...";;
    update armature ensure_animation_data;;
    import_animations (animations config)
  | _, _ =>
    print ("  ERROR: Could not find mesh " +:+ obj_name config +:+ " or Armature")
  end.

(** the module body: imports, two constants and one function definition;
    no statement calls [process_character] *)
Definition main : M unit := mret tt.
End Script.
End ExportFarmersFromBlend.

(** * Vocabulary of the statements

    Predicates on scenes and traces, the traces the scripts are expected
    to leave, and sample hosts and scenes on which the statements are
    evaluated. *)

(** both lists hold numbers and [min_co[i] <= max_co[i]] on every axis *)
Definition ordered (b : bounds) : Prop :=
  forall i, fle (vget b.1 i) (vget b.2 i) = true.

Definition no_nan (b : bounds) : Prop :=
  forall i, vget b.1 i <> NaN /\ vget b.2 i <> NaN.

(** a reference is alive when the scene holds an object of that identity *)
Definition alive (i : nat) (l : list object) : Prop := i ∈ oid <$> l.

(** the scene after differs from the scene before only inside objects, and
    there only as far as [R] allows *)
Definition frame (R : object -> object -> Prop) (w w' : world) : Prop :=
  Forall2 R (objects w) (objects w') /\
  selected w' = selected w /\ active w' = active w /\ mode w' = mode w /\
  camera w' = camera w /\ render w' = render w /\
  next_oid w' = next_oid w /\ trace w' = trace w.

(** a relation between the two states of one object: identity is kept *)
Class ObjRel (R : object -> object -> Prop) := {
  objrel_refl : forall o, R o o;
  objrel_trans : forall o1 o2 o3, R o1 o2 -> R o2 o3 -> R o1 o3;
  objrel_oid : forall o o', R o o' -> oid o' = oid o;
}.

(** identity is all that is kept *)
Definition same_oid (o o' : object) : Prop := oid o' = oid o.

Definition wf (w : world) : Prop :=
  Forall (fun o => oid o < next_oid w) (objects w).

(** the scene with one more object *)
Definition with_new (w : world) (o : object) : world :=
  set_next_oid (S (next_oid w)) (set_objects (objects w ++ [o]) w).

(** a step that keeps the scene well formed and prints nothing *)
Definition silent (w w' : world) : Prop :=
  wf w' /\ trace w' = trace w /\ render w' = render w.

(** the mesh objects a file holds *)
Definition meshes_of (l : list object) : list object :=
  filter (fun o => type o = MESH) l.

Definition model_path (h : host) (model_name : string) : string :=
  os_path_join (RenderAnimalPortraits.MODELS_DIR h) (model_name +:+ ".glb").

Definition output_path (h : host) (output_filename : string) : string :=
  os_path_join (RenderAnimalPortraits.OUTPUT_DIR h) output_filename.

(** the asset is rendered: its file is present and the importer creates
    at least one mesh object from it *)
Definition rendered (h : host) (model_name : string) : bool :=
  path_exists h (model_path h model_name) &&
  match gltf_file h (model_path h model_name) with
  | Ok l => bool_decide (meshes_of l <> [])
  | Raise _ => false
  end.

(** the importer does not raise on the file of a present asset *)
Definition importable (h : host) (model_name : string) : Prop :=
  path_exists h (model_path h model_name) = true ->
  is_ok (gltf_file h (model_path h model_name)) = true.

(** what [render_portrait] adds to the trace *)
Definition portrait_events (h : host) (model_name output_filename : string)
  : list event :=
  [Print (nl +:+ str_times "=" 50);
   Print ("Rendering: " +:+ model_name);
   Print (str_times "=" 50)] ++
  if negb (path_exists h (model_path h model_name))
  then [Print ("ERROR: Model not found: " +:+ model_path h model_name)]
  else ImportGltf (model_path h model_name) ::
       match gltf_file h (model_path h model_name) with
       | Raise _ => []
       | Ok l =>
         match meshes_of l with
         | [] => [Print ("ERROR: No mesh objects imported from "
                         +:+ model_path h model_name)]
         | ms => [Print ("Loaded " +:+ pretty (length ms) +:+ " mesh objects");
                  Print ("Rendering to: " +:+ output_path h output_filename);
                  RenderStill (output_path h output_filename);
                  Print ("SUCCESS: " +:+ output_filename)]
         end
       end.

Definition results_of (h : host) (animals : list (string * string))
  : list (string * bool) :=
  (fun a => (a.1, rendered h a.1)) <$> animals.

Definition status_line (r : string * bool) : event :=
  Print ("  " +:+ r.1 +:+ ": " +:+ (if r.2 then "SUCCESS" else "FAILED")).

Definition summary_line (successful total : nat) : event :=
  Print (nl +:+ "Completed: " +:+ pretty successful +:+ "/"
         +:+ pretty total +:+ " portraits").

(** the files the run has written *)
Definition outputs (t : list event) : list event :=
  filter (fun e => is_output e = true) t.

(** the whole trace of [main] *)
Definition main_events (h : host) (animals : list (string * string)) : list event :=
  [Print (nl +:+ str_times "=" 60);
   Print "Homestead Headaches - Animal Portrait Renderer";
   Print (str_times "=" 60);
   MakeDirs (RenderAnimalPortraits.OUTPUT_DIR h);
   Print ("Output directory: " +:+ RenderAnimalPortraits.OUTPUT_DIR h)] ++
  (animals ≫= fun a => portrait_events h a.1 a.2) ++
  [Print (nl +:+ str_times "=" 60);
   Print "RENDER SUMMARY";
   Print (str_times "=" 60)] ++
  (status_line <$> results_of h animals) ++
  [summary_line (length (filter (fun a => rendered h a.1 = true) animals))
                (length animals);
   Print ("Output: " +:+ RenderAnimalPortraits.OUTPUT_DIR h)].

(** the assets whose source file is absent *)
Definition absent (h : host) (animals : list (string * string))
  : list (string * string) :=
  filter (fun a => path_exists h (model_path h a.1) = false) animals.

Definition unit_box : box :=
  Box (Vec (-1) (-1) (-1))%Q (Vec (-1) (-1) 1)%Q (Vec (-1) 1 (-1))%Q (Vec (-1) 1 1)%Q
      (Vec 1 (-1) (-1))%Q (Vec 1 (-1) 1)%Q (Vec 1 1 (-1))%Q (Vec 1 1 1)%Q.

(** a mesh object as an importer would create it *)
Definition sample_mesh (nm : string) (vs : list (vec Q)) : object :=
  Object 0 nm (MeshData (Mesh vs ["Col"] [Material "Skin" false [] []])) None
         (vrepeat (Fin 0)) (vrepeat (Rad 0)) (vrepeat (Fin 1))
         identity_matrix unit_box None [].

Definition sample_armature (nm : string) (a : option anim_data) : object :=
  Object 0 nm ArmatureData None
         (vrepeat (Fin 0)) (vrepeat (Rad 0)) (vrepeat (Fin 1))
         identity_matrix unit_box a [PoseBone "mixamorig:LeftArm" "XYZ" QuatIdentity].

(** the scene of a freshly started host *)
Definition initial_world : world :=
  World [] [] None "OBJECT" None factory_render 0 [].

(** a project in which every animal model is on disk except the duck, and
    every model file holds one mesh *)
Definition farm_host : host :=
  Host "/repo"
       (fun p => negb (String.eqb p "/repo/public/assets/models/duck.glb"))
       (fun _ => Ok [sample_mesh "Body" [Vec 0 0 0; Vec 1 2 3]%Q])
       (fun _ _ => Ok [])
       (fun _ => Raise (RuntimeError "not a blend file"))
       (fun _ o => o)
       None.

(** a project whose model files are all present but hold a rig and no mesh *)
Definition rig_only_host : host :=
  Host "/repo"
       (fun _ => true)
       (fun _ => Ok [sample_armature "Armature" None])
       (fun _ _ => Ok [])
       (fun _ => Raise (RuntimeError "not a blend file"))
       (fun _ o => o)
       None.

(** a project whose cow model is not on disk, and whose other model files
    are present but hold a rig and no mesh *)
Definition cow_absent_host : host :=
  Host "/repo"
       (fun p => negb (String.eqb p "/repo/public/assets/models/cow.glb"))
       (fun _ => Ok [sample_armature "Armature" None])
       (fun _ _ => Ok [])
       (fun _ => Raise (RuntimeError "not a blend file"))
       (fun _ o => o)
       None.

Definition cow_and_pig : list (string * string) :=
  [("cow", "cow_portrait.png"); ("pig", "pig_portrait.png")].

(** the claim as the spec words it: when some source file of the asset map
    is absent, the summary counts one success for every asset whose source
    file is present, the absent ones making up the rest *)
Definition counts_every_present_asset (h : host)
    (animals : list (string * string)) (w : world) : Prop :=
  absent h animals <> [] ->
  summary_line
    (length (filter (fun a => path_exists h (model_path h a.1) = true) animals))
    (length animals)
  ∈ trace (RenderAnimalPortraits.main_over h animals w).2.

(** [o'] is [o], or [o] is one of the targets and only the x component of
    its location differs *)
Definition only_x (targets : list nat) (o o' : object) : Prop :=
  o' = o \/
  (oid o ∈ targets /\ exists x, o' = set_location (vset (location o) AX x) o).

(** the objects [center_on_x] writes to *)
Definition centering_targets (armature : option nat) (meshes : list nat) : list nat :=
  match armature with
  | Some a => [a]
  | None => meshes
  end.

(** [obj.location.x -= center_x] *)
Definition shift_x (center_x : pyfloat) (o : object) : object :=
  set_location (vset (location o) AX (fsub (vx (location o)) center_x)) o.

(** the camera object [setup_camera] leaves in the scene *)
Definition portrait_camera (i : nat) (center_z : pyfloat) : object :=
  set_rotation_euler (Vec (Radians 90) (Rad 0) (Rad 0))
    (set_location (Vec (Fin 0) (Fin (-4)) center_z)
       (new_object i "PortraitCam"
          (CameraData (CameraData_ "ORTHO" RenderFarmerPortraits.CAMERA_ORTHO_SCALE)))).

(** what [frame_and_render] prints and writes *)
Definition framing_events (h : host) (farmer_config : RenderFarmerPortraits.farmer_config)
    (b : bounds) : list event :=
  let out := os_path_join (RenderFarmerPortraits.OUTPUT_DIR h)
                          (RenderFarmerPortraits.output farmer_config) in
  [PrintNumbers "  Model height: " [fsub (vz b.2) (vz b.1)];
   PrintNumbers "  Center: "
     [match fdiv (fadd (vx b.1) (vx b.2)) (Fin 2) with Ok c => c | Raise _ => NaN end;
      match fdiv (fadd (vz b.1) (vz b.2)) (Fin 2) with Ok c => c | Raise _ => NaN end];
   Print ("  Rendering to: " +:+ out);
   RenderStill out;
   Print ("  Done: " +:+ RenderFarmerPortraits.output farmer_config)].

(** a loaded farmer: a mesh of two vertices bound to a rig, and the host's
    evaluation leaves objects as they are *)
Definition posed_world : world :=
  World [set_oid 0 None (sample_armature "Armature" None);
         set_oid 1 (Some 0) (sample_mesh "Farmer" [Vec (-1) 0 0; Vec 3 1 2]%Q)]
        [0; 1] None "OBJECT" None factory_render 2 [].

Definition john : RenderFarmerPortraits.farmer_config :=
  RenderFarmerPortraits.FarmerConfig "john" "/repo/public/assets/models/farmers/john.glb"
    "farmer_john_portrait.png" "Farmer John".

Definition no_output {A} (m : M A) : Prop :=
  forall w, outputs (trace (m w).2) = outputs (trace w).

(** a mesh whose name contains the expected name *)
Definition named_mesh (nm : string) (o : object) : Prop :=
  type o = MESH /\ str_in nm (name o) = true.

Definition tracks_of (o : object) : list nla_track :=
  match animation_data o with
  | Some ad => nla_tracks ad
  | None => []
  end.

(** identity, kind, name and animation tracks are kept *)
Definition kept (o o' : object) : Prop :=
  oid o' = oid o /\ type o' = type o /\ name o' = name o /\
  tracks_of o' = tracks_of o.

(** the scene after holds the same objects, each kept, and the run has
    only printed *)
Definition prepared (w w' : world) : Prop :=
  Forall2 kept (objects w) (objects w') /\
  next_oid w' = next_oid w /\
  exists ps, trace w' = trace w ++ (Print <$> ps).

(** the action a clip file brings: that of the first object the importer
    creates from it *)
Definition clip_action (h : host) (anim_path : string) : option action :=
  match fbx_file h anim_path true with
  | Ok (o :: _) =>
    match animation_data o with
    | Some (AnimData (Some act) _) => Some act
    | _ => None
    end
  | _ => None
  end.

(** the track [import_animation] adds for a clip *)
Definition clip_track (h : host) (c : string * string) : option nla_track :=
  (fun act => NlaTrack c.1
     [NlaStrip c.1 (py_int (frame_range act).1) (Action c.1 (frame_range act))])
  <$> clip_action h c.2.

(** the exception the try block of a clip raises, if any *)
Definition clip_error (h : host) (c : string * string) : option exn :=
  match fbx_file h c.2 true with
  | Raise e => Some e
  | Ok [] => Some IndexError
  | Ok _ => None
  end.

Definition clip_events (h : host) (c : string * string) : list event :=
  [Print ("    - " +:+ c.1 +:+ "..."); ImportFbx c.2 true] ++
  match clip_error h c with
  | Some e => [Print ("    - ERROR: " +:+ exn_str e)]
  | None => []
  end.

(** the rig stands in a well-formed scene with its animation data and
    tracks [ts] *)
Definition rigged (a : nat) (ts : list nla_track) (w : world) : Prop :=
  wf w /\
  exists ao, find_object a (objects w) = Some ao /\ type ao = ARMATURE /\
             is_Some (animation_data ao) /\ tracks_of ao = ts.

Definition holds_mesh (m : nat) (nm : string) (w : world) : Prop :=
  exists mo, find_object m (objects w) = Some mo /\ named_mesh nm mo.

(** the tracks the clip loop adds, in clip order *)
Definition imported_tracks (h : host) (animations : list (string * string))
  : list nla_track :=
  omap (clip_track h) animations.

Definition has_armature (l : list object) : Prop :=
  Exists (fun o => type o = ARMATURE) l.

Definition has_named_mesh (nm : string) (l : list object) : Prop :=
  Exists (named_mesh nm) l.

Definition idle_action : action := Action "mixamo.com" (1, 60)%Q.

(** the first import brings a rig and the farmer mesh; the Idle clip
    brings a rig with an action; every other file cannot be opened *)
Definition clip_host : host :=
  Host "/repo"
       (fun _ => true)
       (fun _ => Ok [])
       (fun p use_anim =>
          if String.eqb p "/assets/George.fbx"
          then Ok [sample_armature "Armature" None;
                   sample_mesh "Farmer_George" [Vec 0 0 0]%Q]
          else if String.eqb p "/assets/Idle.fbx"
               then Ok [sample_armature "Armature"
                          (Some (AnimData (Some idle_action) []))]
               else Raise (RuntimeError ("Error: Couldn't open file " +:+ p)))
       (fun _ => Raise (RuntimeError "not a blend file"))
       (fun _ o => o)
       None.

Definition george : ExportFarmerModels.config :=
  ExportFarmerModels.Config "/assets/George.fbx" "Farmer_George"
    [("idle", "/assets/Idle.fbx"); ("walk", "/assets/Missing.fbx")].

Definition no_mesh (l : list object) : Prop := Forall (fun o => type o <> MESH) l.

(** a character whose file holds a rig and no mesh of the expected name *)
Definition rig_only_character : ExportFarmerModels.config :=
  ExportFarmerModels.Config "/assets/Idle.fbx" "Farmer_George" [].

(** only the pose bones differ *)
Definition posed (o o' : object) : Prop :=
  exists bs, o' = set_pose_bones bs o.

(** a farm whose farmer files hold a rig and a mesh bound to it *)
Definition farmer_host : host :=
  Host "/repo"
       (fun _ => true)
       (fun _ => Ok [sample_armature "Armature" None;
                     Object 0 "Farmer" (MeshData (Mesh [Vec (-1) 0 0; Vec 3 1 2]%Q [] []))
                       (Some 0) (vrepeat (Fin 0)) (vrepeat (Rad 0)) (vrepeat (Fin 2))
                       identity_matrix unit_box None []])
       (fun _ _ => Ok [])
       (fun _ => Raise (RuntimeError "not a blend file"))
       (fun _ o => o)
       None.

(** ** More vocabulary: scenes after a step, batches, files written *)

(** the two pairs hold equal numbers, in the sense of [==] on floats *)
Definition same_bounds (b1 b2 : bounds) : Prop :=
  forall i, feq (vget b1.1 i) (vget b2.1 i) = true /\
            feq (vget b1.2 i) (vget b2.2 i) = true.

(** the box around two boxes: [min] of the lower corners, [max] of the
    upper ones *)
Definition merge_bounds (b1 b2 : bounds) : bounds :=
  (Vec (py_min (vx b1.1) (vx b2.1)) (py_min (vy b1.1) (vy b2.1))
       (py_min (vz b1.1) (vz b2.1)),
   Vec (py_max (vx b1.2) (vx b2.2)) (py_max (vy b1.2) (vy b2.2))
       (py_max (vz b1.2) (vz b2.2))).

(** a build with the Cycles add-on whose device list has no METAL entry *)
Definition no_metal_host : host :=
  Host "/repo"
       (fun _ => true)
       (fun _ => Ok [sample_mesh "Body" [Vec 0 0 0; Vec 1 2 3]%Q])
       (fun _ _ => Ok [])
       (fun _ => Raise (RuntimeError "not a blend file"))
       (fun _ o => o)
       (Some false).

(** an object made by [bpy.data.objects.new], then placed and turned *)
Definition placed (i : nat) (nm : string) (d : obj_data)
    (loc : vec pyfloat) (rot : vec angle) : object :=
  set_rotation_euler rot (set_location loc (new_object i nm d)).

(** the three lights and the camera of the animal renderer, created from
    identity [n] on *)
Definition animal_studio (n : nat) : list object :=
  [placed n "KeyLight"
     (LightData (LightData_ "AREA" 500 3 (Vec 1%Q (95 # 100) (9 # 10))))
     (Vec (Fin 2) (Fin (-3)) (Fin 2)) (Vec (Radians 60) (Rad 0) (Radians 30));
   placed (1 + n) "FillLight"
     (LightData (LightData_ "AREA" 200 4 (Vec (9 # 10) (95 # 100) 1%Q)))
     (Vec (Fin (-2)) (Fin (-2)) (Fin 1)) (Vec (Radians 70) (Rad 0) (Radians (-20)));
   placed (2 + n) "RimLight"
     (LightData (LightData_ "AREA" 300 2 (Vec 1%Q 1%Q 1%Q)))
     (Vec (Fin 0) (Fin 3) (Fin 2)) (Vec (Radians 120) (Rad 0) (Radians 180));
   placed (3 + n) "PortraitCamera" (CameraData (CameraData_ "ORTHO" (5 # 2)))
     (Vec (Fin 0) (Fin (-5)) (Fin (1 # 2))) (Vec (Radians 90) (Rad 0) (Rad 0))].

(** the scene with more lines printed *)
Definition printed (lines : list string) (w : world) : world :=
  World (objects w) (selected w) (active w) (mode w) (camera w) (render w)
        (next_oid w) (trace w ++ (Print <$> lines)).

(** a project without any model file *)
Definition bare_host : host :=
  Host "/repo"
       (fun _ => false)
       (fun _ => Raise (RuntimeError "no such file"))
       (fun _ _ => Raise (RuntimeError "no such file"))
       (fun _ => Raise (RuntimeError "no such file"))
       (fun _ o => o)
       None.

(** what lines 173-178 do to one object: the centre is subtracted from
    its location and each component of its scale is multiplied by the
    factor *)
Definition recentred (center : vec pyfloat) (scale_factor : pyfloat) (o : object)
  : object :=
  set_scale (vmap (fun s => fmul s scale_factor) (scale o))
    (set_location (Vec (fsub (vx (location o)) (vx center))
                       (fsub (vy (location o)) (vy center))
                       (fsub (vz (location o)) (vz center))) o).

(** the eight corners of an object's box in world space *)
Definition box_corners (o : object) : list (vec Q) :=
  mat_apply (matrix_world o) <$> corners (bound_box o).

(** [f] applied to the objects whose identity is in [targets] *)
Definition on_targets (targets : list nat) (f : object -> object) (o : object)
  : object :=
  if bool_decide (oid o ∈ targets) then f o else o.

(** a model of two parts: a body box from 0 to 2 on every axis and a hat
    with a box of its own, both at unit scale *)
Definition two_part_world : world :=
  World [Object 0 "Body" (MeshData (Mesh [] [] [])) None
           (vrepeat (Fin 0)) (vrepeat (Rad 0)) (vrepeat (Fin 1)) identity_matrix
           (Box (Vec 0 0 0)%Q (Vec 0 0 2)%Q (Vec 0 2 0)%Q (Vec 0 2 2)%Q
                (Vec 2 0 0)%Q (Vec 2 0 2)%Q (Vec 2 2 0)%Q (Vec 2 2 2)%Q) None [];
         Object 1 "Hat" (MeshData (Mesh [] [] [])) None
           (Vec (Fin 1) (Fin 1) (Fin 2)) (vrepeat (Rad 0)) (vrepeat (Fin 1))
           identity_matrix unit_box None [];
         Object 2 "Lamp" (LightData (LightData_ "AREA" 500 3 (Vec 1 1 1)%Q)) None
           (vrepeat (Fin 5)) (vrepeat (Rad 0)) (vrepeat (Fin 1)) identity_matrix
           unit_box None []]
        [0; 1] None "OBJECT" None factory_render 3 [].

(** [f] applied to the mesh objects *)
Definition on_meshes (f : object -> object) (o : object) : object :=
  if bool_decide (type o = MESH) then f o else o.

(** the fields of an object that only a script writes: identity, name,
    data, parent, location, rotation and scale.  (World matrix and box are
    the host's to recompute when it evaluates the scene.) *)
Definition channels (o : object)
  : nat * string * obj_data * option nat * vec pyfloat * vec angle * vec pyfloat :=
  (oid o, name o, data o, parent o, location o, rotation_euler o, scale o).

(** a project whose pig model is on disk and cannot be read *)
Definition corrupt_pig_host : host :=
  Host "/repo"
       (fun _ => true)
       (fun p => if String.eqb p "/repo/public/assets/models/pig.glb"
                 then Raise (RuntimeError "Error: not a glTF file")
                 else Ok [sample_mesh "Body" [Vec 0 0 0; Vec 1 2 3]%Q])
       (fun _ _ => Ok [])
       (fun _ => Raise (RuntimeError "not a blend file"))
       (fun _ o => o)
       None.

(** the armatures among some objects *)
Definition armatures_of (l : list object) : list object :=
  filter (fun o => type o = ARMATURE) l.


(** [table.get(nm)] on a list of pairs *)
Fixpoint assoc {A} (nm : string) (table : list (string * A)) : option A :=
  match table with
  | [] => None
  | (k, v) :: table => if bool_decide (k = nm) then Some v else assoc nm table
  end.

(** a bone after [pose_idle]: in quaternion mode with the rotation the
    table gives its name, or untouched when the table does not name it *)
Definition idle_bone (b : pose_bone) : pose_bone :=
  match assoc (bone_name b) RenderFarmerPortraits.arm_rotations with
  | Some q => PoseBone (bone_name b) "QUATERNION" q
  | None => b
  end.

(** a rig with a spine, a left arm and a left hand *)
Definition rig_world : world :=
  World [Object 0 "Armature" ArmatureData None
           (vrepeat (Fin 0)) (vrepeat (Rad 0)) (vrepeat (Fin 1)) identity_matrix
           unit_box None
           [PoseBone "mixamorig:Spine" "XYZ" QuatIdentity;
            PoseBone "mixamorig:LeftArm" "XYZ" QuatIdentity;
            PoseBone "mixamorig:LeftHand" "XYZ" QuatIdentity]]
        [0] None "OBJECT" None factory_render 1 [].

(** the farmer is rendered: its file is present and holds a mesh object *)
Definition farmer_rendered (h : host) (f : RenderFarmerPortraits.farmer_config)
  : bool :=
  path_exists h (RenderFarmerPortraits.glb f) &&
  match gltf_file h (RenderFarmerPortraits.glb f) with
  | Ok l => bool_decide (meshes_of l <> [])
  | Raise _ => false
  end.

(** the importer does not raise on the file of a present farmer *)
Definition farmer_importable (h : host) (f : RenderFarmerPortraits.farmer_config)
  : Prop :=
  path_exists h (RenderFarmerPortraits.glb f) = true ->
  is_ok (gltf_file h (RenderFarmerPortraits.glb f)) = true.

Definition farmer_image (h : host) (f : RenderFarmerPortraits.farmer_config)
  : event :=
  RenderStill (os_path_join (RenderFarmerPortraits.OUTPUT_DIR h)
                 (RenderFarmerPortraits.output f)).

Definition farmer_status (h : host) (f : RenderFarmerPortraits.farmer_config)
  : event :=
  Print ("  " +:+ RenderFarmerPortraits.label f +:+ ": " +:+
         (if farmer_rendered h f then "OK" else "FAILED")).

(** a farm where the file of John holds a rig and a mesh, the file of
    Mary is missing, and the Cycles add-on rejects METAL *)
Definition john_only_host : host :=
  Host "/repo"
       (fun p => String.eqb p "/repo/public/assets/models/farmers/john.glb")
       (fun _ => Ok [sample_armature "Armature" None;
                     Object 0 "Farmer" (MeshData (Mesh [Vec (-1) 0 0; Vec 3 1 2]%Q [] []))
                       (Some 0) (vrepeat (Fin 0)) (vrepeat (Rad 0)) (vrepeat (Fin 2))
                       identity_matrix unit_box None []])
       (fun _ _ => Ok [])
       (fun _ => Raise (RuntimeError "not a blend file"))
       (fun _ o => o)
       (Some false).

(** a scene with one mesh that has no vertex *)
Definition hollow_world : world :=
  World [set_oid 0 None (sample_mesh "Ghost" [])]
        [0] None "OBJECT" None factory_render 1 [].

(** identities in the scene are distinct and below the next one *)
Definition distinct (w : world) : Prop :=
  wf w /\ NoDup (oid <$> objects w).

(** a computation that keeps an invariant of the scene, whether it returns
    or raises *)
Definition preserves (I : world -> Prop) {A} (m : M A) : Prop :=
  forall w, I w -> I (m w).2.

(** the Idle clip file brings a rig with an action and a prop beside it *)
Definition prop_clip_host : host :=
  Host "/repo"
       (fun _ => true)
       (fun _ => Ok [])
       (fun p use_anim =>
          if String.eqb p "/assets/George.fbx"
          then Ok [sample_armature "Armature" None;
                   sample_mesh "Farmer_George" [Vec 0 0 0]%Q]
          else if String.eqb p "/assets/Idle.fbx"
               then Ok [sample_armature "Armature"
                          (Some (AnimData (Some idle_action) []));
                        sample_mesh "Farmer_George_Prop" [Vec 1 1 1]%Q]
               else Raise (RuntimeError ("Error: Couldn't open file " +:+ p)))
       (fun _ => Raise (RuntimeError "not a blend file"))
       (fun _ o => o)
       None.

(** the object behind reference [i] is a mesh object with mesh [me] *)
Definition mesh_at (i : nat) (me : mesh) (w : world) : Prop :=
  exists o, find_object i (objects w) = Some o /\ data o = MeshData me.

(** the line [setup_material_vertex_color] prints for a material *)
Definition material_line (mat : material) : string :=
  "  Setting up VColor material: " +:+ mat_name mat.

(** a character just imported: a rig and a mesh with a colour layer named
    by the modelling tool and two materials *)
Definition imported_world : world :=
  World [set_oid 0 None (sample_armature "Armature" None);
         Object 1 "Farmer_George"
           (MeshData (Mesh [Vec 0 0 0]%Q ["Color"; "Mask"]
                        [Material "Skin" false [] []; Material "Cloth" true [] []]))
           (Some 0) (vrepeat (Fin 0)) (vrepeat (Rad 0)) (vrepeat (Fin 1))
           identity_matrix unit_box None []]
        [0; 1] None "OBJECT" None factory_render 2 [].

(** the file an event writes, if it writes one *)
Definition written_path (e : event) : option string :=
  match e with
  | RenderStill p | ExportGltf p _ => Some p
  | _ => None
  end.

(** the files a run has written, oldest first *)
Definition written (t : list event) : list string := omap written_path t.

(** the character's file imports with a rig and a mesh of its name *)
Definition complete (h : host) (c : ExportFarmerModels.config) : Prop :=
  match fbx_file h (ExportFarmerModels.fbx c) false with
  | Ok l => has_armature l /\ has_named_mesh (ExportFarmerModels.mesh_name c) l
  | Raise _ => False
  end.

(** the George file holds a rig and the mesh, the Martha file a rig alone *)
Definition martha_rig_only_host : host :=
  Host "/repo"
       (fun _ => true)
       (fun _ => Ok [])
       (fun p use_anim =>
          if String.eqb p "/assets/George.fbx"
          then Ok [sample_armature "Armature" None;
                   sample_mesh "Farmer_George" [Vec 0 0 0]%Q]
          else Ok [sample_armature "Armature" None])
       (fun _ => Raise (RuntimeError "not a blend file"))
       (fun _ o => o)
       None.

(** a .blend file with the mesh under a suffixed name *)
Definition suffixed_blend_host : host :=
  Host "/repo"
       (fun _ => true)
       (fun _ => Ok [])
       (fun _ _ => Ok [])
       (fun _ => Ok ([sample_armature "Farmer_George_Rig" None;
                      sample_mesh "Farmer_George.001" [Vec 0 0 0]%Q], None))
       (fun _ o => o)
       None.

(** where an object stands: its identity and its three transform channels *)
Definition placing (o : object) : nat * vec pyfloat * vec angle * vec pyfloat :=
  (oid o, location o, rotation_euler o, scale o).

(** where [prepare_rig] leaves an object: a selected object at the origin,
    unrotated, at unit scale; the rig, when it is not selected, at the
    origin; any other object where it was *)
Definition prepared_placing (armature : nat) (sel : list nat) (o : object)
  : nat * vec pyfloat * vec angle * vec pyfloat :=
  if bool_decide (oid o ∈ sel)
  then (oid o, vrepeat (Fin 0), vrepeat (Rad 0), vrepeat (Fin 1))
  else if bool_decide (oid o = armature)
       then (oid o, vrepeat (Fin 0), rotation_euler o, scale o)
       else placing o.

(** a character imported off centre and scaled, with a lamp that is not
    part of the selection *)
Definition offset_world : world :=
  World [Object 0 "Armature" ArmatureData None
           (Vec (Fin 3) (Fin 0) (Fin 1)) (Vec (Radians 90) (Rad 0) (Rad 0))
           (vrepeat (Fin (1 # 100))) identity_matrix unit_box None [];
         Object 1 "Farmer_George" (MeshData (Mesh [Vec 0 0 0]%Q [] [])) (Some 0)
           (vrepeat (Fin 0)) (vrepeat (Rad 0)) (vrepeat (Fin 100))
           identity_matrix unit_box None [];
         Object 2 "Lamp" (LightData (LightData_ "POINT" 10 1 (Vec 1 1 1)%Q)) None
           (vrepeat (Fin 5)) (vrepeat (Rad 0)) (vrepeat (Fin 1))
           identity_matrix unit_box None []]
        [0; 1] None "OBJECT" None factory_render 3 [].

(** the point lies in the box, bounds included *)
Definition inside (b : bounds) (v : vec Q) : Prop :=
  forall i, fle (vget b.1 i) (Fin (vget v i)) = true /\
            fle (Fin (vget v i)) (vget b.2 i) = true.


(** ** The sentinel pair and the farmer's framing *)

(** the claim as the spec words it: a caller that gets the two sentinels
    back from the scan takes them for no geometry and skips the framing,
    so that no camera is placed and no image is written *)
Definition sentinel_skips_framing (h : host)
    (farmer_config : RenderFarmerPortraits.farmer_config)
    (armature : option nat) (meshes : list nat) (w : world) : Prop :=
  RenderFarmerPortraits.get_model_bounds h meshes w = (Ok sentinel, w) ->
  camera (RenderFarmerPortraits.frame_and_render h farmer_config armature meshes w).2
    = camera w /\
  outputs (trace (RenderFarmerPortraits.frame_and_render h farmer_config
                    armature meshes w).2)
    = outputs (trace w).

(** ** Clips that import without an action on the first object *)

(** the names of the animation tracks on the objects a run has exported *)
Definition exported_track_names (t : list event) : list string :=
  t ≫= fun e =>
    match e with
    | ExportGltf _ selection => selection ≫= fun o => track_name <$> tracks_of o
    | _ => []
    end.

(** the claim as the spec words it: when the try block of some clip of the
    character raises, the export still includes every clip whose try block
    raised nothing, as a track of that clip's name *)
Definition exports_every_imported_clip (h : host) (char_key : string)
    (config : ExportFarmerModels.config) (w : world) : Prop :=
  (exists c, c ∈ ExportFarmerModels.animations config /\ is_Some (clip_error h c)) ->
  forall c, c ∈ ExportFarmerModels.animations config ->
            clip_error h c = None ->
            c.1 ∈ exported_track_names
                    (trace (ExportFarmerModels.process_character h char_key config w).2).

(** the Idle clip file opens and lists a prop before the rig that carries
    the action *)
Definition mesh_first_clip_host : host :=
  Host "/repo"
       (fun _ => true)
       (fun _ => Ok [])
       (fun p use_anim =>
          if String.eqb p "/assets/George.fbx"
          then Ok [sample_armature "Armature" None;
                   sample_mesh "Farmer_George" [Vec 0 0 0]%Q]
          else if String.eqb p "/assets/Idle.fbx"
               then Ok [sample_mesh "Prop" [Vec 1 1 1]%Q;
                        sample_armature "Armature"
                          (Some (AnimData (Some idle_action) []))]
               else Raise (RuntimeError ("Error: Couldn't open file " +:+ p)))
       (fun _ => Raise (RuntimeError "not a blend file"))
       (fun _ o => o)
       None.

(** * Properties *)

(** ** Concrete inputs *)

Example os_path_join_relative : os_path_join "/repo/public" "assets" = "/repo/public/assets".
Proof. reflexivity. Qed.

Example os_path_join_absolute : os_path_join "/repo" "/tmp/x.glb" = "/tmp/x.glb".
Proof. reflexivity. Qed.

Example os_path_join_slash : os_path_join "/repo/" "x.glb" = "/repo/x.glb".
Proof. reflexivity. Qed.

Example models_dir_of_repo :
  RenderAnimalPortraits.MODELS_DIR farm_host = "/repo/public/assets/models".
Proof. reflexivity. Qed.

Example str_in_rig : str_in "Rig" "Farmer_George_Rig" = true.
Proof. reflexivity. Qed.

Example str_in_missing : str_in "Rig" "Armature" = false.
Proof. reflexivity. Qed.

Example str_in_empty : str_in "" "Armature" = true.
Proof. reflexivity. Qed.

Example py_int_truncates : py_int (-7 # 2) = (-3)%Z /\ py_int (7 # 2) = 3%Z.
Proof. split; reflexivity. Qed.

Example py_min_keeps_first_on_nan : py_min PInf NaN = PInf /\ py_max NInf NaN = NInf.
Proof. split; reflexivity. Qed.

Example fdiv_by_zero : fdiv (Fin 1) (Fin 0) = Raise ZeroDivisionError.
Proof. reflexivity. Qed.

Example sentinel_arithmetic :
  fsub NInf PInf = NInf /\ fadd PInf NInf = NaN /\
  size_of sentinel = NInf /\ scale_factor_of (Fin (18 # 10)) (size_of sentinel) = Ok (Fin 1).
Proof. repeat split; reflexivity. Qed.

Example compute_bounds_three :
  compute_bounds [Vec 1 5 (-2); Vec (-3) 7 0; Vec 2 6 (-1)]%Q
  = (Vec (Fin (-3)) (Fin 5) (Fin (-2)), Vec (Fin 2) (Fin 7) (Fin 0)).
Proof. reflexivity. Qed.

Example center_and_scale_unit_cube :
  center_and_scale (Vec (Fin (-1)) (Fin (-1)) (Fin (-1)), Vec (Fin 1) (Fin 1) (Fin 1)) (Fin 2)
  = Ok (Vec (Fin ((-1 + 1) / 2)) (Fin ((-1 + 1) / 2)) (Fin ((-1 + 1) / 2)),
        Fin (2 / (1 - -1))).
Proof. reflexivity. Qed.

(** ** Comparisons of rationals and floats *)

Lemma Qlt_bool_true (a b : Q) : Qlt_bool a b = true <-> (a < b)%Q.
Proof.
  unfold Qlt_bool. rewrite negb_true_iff, <- not_true_iff_false, Qle_bool_iff.
  split; [apply Qnot_le_lt | apply Qlt_not_le].
Qed.

Lemma Qlt_bool_false (a b : Q) : Qlt_bool a b = false <-> (b <= a)%Q.
Proof.
  unfold Qlt_bool. rewrite negb_false_iff. apply Qle_bool_iff.
Qed.

Lemma fle_fin (p q : Q) : fle (Fin p) (Fin q) = true <-> (p <= q)%Q.
Proof. apply Qle_bool_iff. Qed.

Lemma py_min_fin (p q : Q) :
  py_min (Fin p) (Fin q) = Fin (if Qlt_bool q p then q else p).
Proof. unfold py_min; simpl. by destruct (Qlt_bool q p). Qed.

Lemma py_max_fin (p q : Q) :
  py_max (Fin p) (Fin q) = Fin (if Qlt_bool p q then q else p).
Proof. unfold py_max, fgt; simpl. by destruct (Qlt_bool p q). Qed.

Lemma py_min_sentinel (q : Q) : py_min PInf (Fin q) = Fin q.
Proof. reflexivity. Qed.

Lemma py_max_sentinel (q : Q) : py_max NInf (Fin q) = Fin q.
Proof. reflexivity. Qed.

(** [min] and [max] return one of their arguments *)
Lemma py_min_cases (a b : pyfloat) : py_min a b = a \/ py_min a b = b.
Proof. unfold py_min. destruct (flt b a); auto. Qed.

Lemma py_max_cases (a b : pyfloat) : py_max a b = a \/ py_max a b = b.
Proof. unfold py_max. destruct (fgt b a); auto. Qed.

Lemma fle_trans (a b c : pyfloat) :
  fle a b = true -> fle b c = true -> fle a c = true.
Proof.
  destruct a, b, c; simpl; try done.
  rewrite !Qle_bool_iff. apply Qle_trans.
Qed.

(** case analysis on every rational comparison in the goal *)
Ltac split_compare :=
  repeat match goal with
         | |- context [Qlt_bool ?a ?b] =>
           let E := fresh "E" in
           destruct (Qlt_bool a b) eqn:E;
           [apply Qlt_bool_true in E | apply Qlt_bool_false in E]; simpl
         end;
  try done; try (apply Qle_bool_iff; lra).

Lemma py_min_le_l (a : pyfloat) (q : Q) :
  a <> NaN -> fle (py_min a (Fin q)) a = true.
Proof. intros Ha. unfold py_min. destruct a; simpl; split_compare. Qed.

Lemma py_min_le_r (a : pyfloat) (q : Q) :
  a <> NaN -> fle (py_min a (Fin q)) (Fin q) = true.
Proof. intros Ha. unfold py_min. destruct a; simpl; split_compare. Qed.

Lemma py_max_ge_l (a : pyfloat) (q : Q) :
  a <> NaN -> fle a (py_max a (Fin q)) = true.
Proof. intros Ha. unfold py_max, fgt. destruct a; simpl; split_compare. Qed.

Lemma py_max_ge_r (a : pyfloat) (q : Q) :
  a <> NaN -> fle (Fin q) (py_max a (Fin q)) = true.
Proof. intros Ha. unfold py_max, fgt. destruct a; simpl; split_compare. Qed.

Lemma py_min_not_nan (a : pyfloat) (q : Q) : a <> NaN -> py_min a (Fin q) <> NaN.
Proof. intros Ha. destruct (py_min_cases a (Fin q)) as [-> | ->]; done. Qed.

Lemma py_max_not_nan (a : pyfloat) (q : Q) : a <> NaN -> py_max a (Fin q) <> NaN.
Proof. intros Ha. destruct (py_max_cases a (Fin q)) as [-> | ->]; done. Qed.

(** ** One vertex, axis by axis *)

Lemma observe_min (b : bounds) (v : vec Q) (i : axis) :
  vget (observe b v).1 i = py_min (vget b.1 i) (Fin (vget v i)).
Proof. destruct b as [[] []], i; reflexivity. Qed.

Lemma observe_max (b : bounds) (v : vec Q) (i : axis) :
  vget (observe b v).2 i = py_max (vget b.2 i) (Fin (vget v i)).
Proof. destruct b as [[] []], i; reflexivity. Qed.

Lemma vec_ext {A} (u v : vec A) : (forall i, vget u i = vget v i) -> u = v.
Proof.
  intros H. destruct u, v.
  pose proof (H AX). pose proof (H AY). pose proof (H AZ). simpl in *. congruence.
Qed.

Lemma vget_vmap {A B} (f : A -> B) (v : vec A) (i : axis) :
  vget (vmap f v) i = f (vget v i).
Proof. by destruct i. Qed.

Lemma observe_sentinel (v : vec Q) : observe sentinel v = (vmap Fin v, vmap Fin v).
Proof. by destruct v. Qed.

Lemma accumulate_app (b : bounds) (l1 l2 : list (vec Q)) :
  accumulate b (l1 ++ l2) = accumulate (accumulate b l1) l2.
Proof. apply foldl_app. Qed.

Lemma accumulate_cons (b : bounds) (v : vec Q) (l : list (vec Q)) :
  accumulate b (v :: l) = accumulate (observe b v) l.
Proof. reflexivity. Qed.

Lemma accumulate_snoc (b : bounds) (l : list (vec Q)) (v : vec Q) :
  accumulate b (l ++ [v]) = observe (accumulate b l) v.
Proof. by rewrite accumulate_app. Qed.

(** ** The scan invariant *)

Lemma fle_not_nan (a b : pyfloat) : fle a b = true -> a <> NaN /\ b <> NaN.
Proof. destruct a, b; simpl; try done. Qed.

Lemma fle_refl_fin (q : Q) : fle (Fin q) (Fin q) = true.
Proof. apply Qle_bool_iff. lra. Qed.

Lemma ordered_first (v : vec Q) : ordered (observe sentinel v).
Proof.
  intros i. rewrite observe_sentinel. simpl. rewrite vget_vmap. apply fle_refl_fin.
Qed.

Lemma ordered_observe (b : bounds) (v : vec Q) :
  ordered b -> ordered (observe b v).
Proof.
  intros Hb i. rewrite observe_min, observe_max.
  destruct (fle_not_nan _ _ (Hb i)) as [Hmin Hmax].
  eapply fle_trans; [by apply py_min_le_l|].
  eapply fle_trans; [apply Hb|]. by apply py_max_ge_l.
Qed.

Lemma ordered_accumulate (b : bounds) (l : list (vec Q)) :
  ordered b -> ordered (accumulate b l).
Proof.
  revert b. induction l as [|v l IH]; intros b Hb; [done|].
  simpl. apply IH. by apply ordered_observe.
Qed.

Lemma ordered_nonempty (v : vec Q) (l : list (vec Q)) :
  ordered (compute_bounds (v :: l)).
Proof.
  change (ordered (accumulate (observe sentinel v) l)).
  apply ordered_accumulate, ordered_first.
Qed.

(** ** The scan returns the component-wise extrema *)

Lemma no_nan_observe (b : bounds) (v : vec Q) : no_nan b -> no_nan (observe b v).
Proof.
  intros Hb i. rewrite observe_min, observe_max. destruct (Hb i).
  split; [by apply py_min_not_nan | by apply py_max_not_nan].
Qed.

Lemma no_nan_sentinel : no_nan sentinel.
Proof. intros []; by split. Qed.

Lemma accumulate_shrinks (b : bounds) (l : list (vec Q)) (i : axis) :
  no_nan b ->
  fle (vget (accumulate b l).1 i) (vget b.1 i) = true /\
  fle (vget b.2 i) (vget (accumulate b l).2 i) = true /\
  no_nan (accumulate b l).
Proof.
  revert b. induction l as [|v l IH]; intros b Hb.
  - destruct (Hb i) as [H1 H2]. simpl. split_and!; [| |done].
    + destruct (vget b.1 i); simpl; try done. apply Qle_bool_iff; lra.
    + destruct (vget b.2 i); simpl; try done. apply Qle_bool_iff; lra.
  - simpl. destruct (IH (observe b v) (no_nan_observe _ _ Hb)) as (H1 & H2 & H3).
    destruct (Hb i) as [Hmin Hmax]. split_and!; [| |done].
    + eapply fle_trans; [apply H1|]. rewrite observe_min. by apply py_min_le_l.
    + eapply fle_trans; [|apply H2]. rewrite observe_max. by apply py_max_ge_l.
Qed.

Lemma accumulate_lower (b : bounds) (l : list (vec Q)) (i : axis) :
  no_nan b ->
  Forall (fun u => fle (vget (accumulate b l).1 i) (Fin (vget u i)) = true) l /\
  Forall (fun u => fle (Fin (vget u i)) (vget (accumulate b l).2 i) = true) l.
Proof.
  revert b. induction l as [|v l IH]; intros b Hb; [by split|].
  rewrite accumulate_cons. pose proof (no_nan_observe _ v Hb) as Hb'.
  destruct (IH _ Hb') as [H1 H2].
  destruct (accumulate_shrinks (observe b v) l i Hb') as (S1 & S2 & _).
  destruct (Hb i) as [Hmin Hmax].
  split; constructor; try done.
  - eapply fle_trans; [apply S1|]. rewrite observe_min. by apply py_min_le_r.
  - eapply fle_trans; [|apply S2]. rewrite observe_max. by apply py_max_ge_r.
Qed.

Lemma accumulate_attained (b : bounds) (l : list (vec Q)) (i : axis) :
  (vget (accumulate b l).1 i = vget b.1 i \/
   Exists (fun u => vget (accumulate b l).1 i = Fin (vget u i)) l) /\
  (vget (accumulate b l).2 i = vget b.2 i \/
   Exists (fun u => vget (accumulate b l).2 i = Fin (vget u i)) l).
Proof.
  revert b. induction l as [|v l IH]; intros b; [by split; left|].
  rewrite accumulate_cons. destruct (IH (observe b v)) as [H1 H2]. split.
  - destruct H1 as [H1 | H1]; [|by right; apply Exists_cons_tl].
    rewrite observe_min in H1.
    destruct (py_min_cases (vget b.1 i) (Fin (vget v i))) as [E | E];
      rewrite E in H1; [by left|].
    right. by apply Exists_cons_hd.
  - destruct H2 as [H2 | H2]; [|by right; apply Exists_cons_tl].
    rewrite observe_max in H2.
    destruct (py_max_cases (vget b.2 i) (Fin (vget v i))) as [E | E];
      rewrite E in H2; [by left|].
    right. by apply Exists_cons_hd.
Qed.

Lemma compute_bounds_attained (v : vec Q) (l : list (vec Q)) (i : axis) :
  Exists (fun u => vget (compute_bounds (v :: l)).1 i = Fin (vget u i)) (v :: l) /\
  Exists (fun u => vget (compute_bounds (v :: l)).2 i = Fin (vget u i)) (v :: l).
Proof.
  unfold compute_bounds. rewrite accumulate_cons.
  destruct (accumulate_attained (observe sentinel v) l i) as [H1 H2].
  rewrite observe_sentinel in *. simpl in H1, H2. rewrite !vget_vmap in *.
  split.
  - destruct H1 as [H1 | H1]; [by apply Exists_cons_hd | by apply Exists_cons_tl].
  - destruct H2 as [H2 | H2]; [by apply Exists_cons_hd | by apply Exists_cons_tl].
Qed.

(** ** Centre and scale on finite bounds *)

Lemma Qlt_bool_compare (e : Q) :
  Qlt_bool 0 e = match (e ?= 0)%Q with Gt => true | _ => false end.
Proof.
  destruct (e ?= 0)%Q eqn:E.
  - apply Qeq_alt in E. apply Qlt_bool_false. lra.
  - apply Qlt_alt in E. apply Qlt_bool_false. lra.
  - apply Qgt_alt in E. by apply Qlt_bool_true.
Qed.

Lemma fdiv_fin (p q : Q) : ~ (q == 0)%Q -> fdiv (Fin p) (Fin q) = Ok (Fin (p / q)%Q).
Proof.
  intros Hq. unfold fdiv, is_zero.
  destruct (Qeq_bool q 0) eqn:E; [|done].
  by apply Qeq_bool_iff in E.
Qed.

Lemma fdiv_two (a : pyfloat) : exists c, fdiv a (Fin 2) = Ok c.
Proof. unfold fdiv. simpl. eauto. Qed.

Lemma center_of_total (b : bounds) : exists c, center_of b = Ok c.
Proof.
  unfold center_of.
  destruct (fdiv_two (fadd (vget b.1 AX) (vget b.2 AX))) as [cx ->].
  destruct (fdiv_two (fadd (vget b.1 AY) (vget b.2 AY))) as [cy ->].
  destruct (fdiv_two (fadd (vget b.1 AZ) (vget b.2 AZ))) as [cz ->].
  simpl. eauto.
Qed.

Lemma center_of_fin (mn mx : vec Q) :
  center_of (vmap Fin mn, vmap Fin mx) =
  Ok (vmap Fin (Vec ((vx mn + vx mx) / 2)%Q ((vy mn + vy mx) / 2)%Q ((vz mn + vz mx) / 2)%Q)).
Proof. reflexivity. Qed.

Lemma span_fin (mn mx : vec Q) (i : axis) :
  span (vmap Fin mn, vmap Fin mx) i = Fin (vget mx i - vget mn i)%Q.
Proof. by destruct i. Qed.

(** the largest of three rationals, as the left-to-right [max] finds it *)
Lemma py_max_of_fin (a b c : Q) :
  exists e, py_max_of (Fin a) [Fin b; Fin c] = Fin e /\
            (e = a \/ e = b \/ e = c) /\ (a <= e /\ b <= e /\ c <= e)%Q.
Proof.
  unfold py_max_of. simpl. rewrite py_max_fin.
  destruct (Qlt_bool a b) eqn:E1; rewrite py_max_fin;
    [destruct (Qlt_bool b c) eqn:E2 | destruct (Qlt_bool a c) eqn:E2];
    eexists; (split; [reflexivity|]);
    repeat match goal with
           | H : Qlt_bool _ _ = true |- _ => apply Qlt_bool_true in H
           | H : Qlt_bool _ _ = false |- _ => apply Qlt_bool_false in H
           end;
    (split; [tauto | lra]).
Qed.

Lemma scale_factor_fin (t e : Q) :
  scale_factor_of (Fin t) (Fin e) =
  Ok (match (e ?= 0)%Q with Gt => Fin (t / e)%Q | _ => Fin 1 end).
Proof.
  unfold scale_factor_of, fgt. simpl. rewrite Qlt_bool_compare.
  destruct (e ?= 0)%Q eqn:E; try done.
  apply fdiv_fin. apply Qgt_alt in E. lra.
Qed.

(** whatever the bounds, a finite target gives a finite scale factor and
    no exception *)
Lemma scale_factor_finite (t : Q) (size : pyfloat) :
  exists s, scale_factor_of (Fin t) size = Ok (Fin s).
Proof.
  unfold scale_factor_of, fgt.
  destruct size as [| |e|]; simpl; eauto.
  rewrite Qlt_bool_compare. destruct (e ?= 0)%Q eqn:E; eauto.
  rewrite fdiv_fin; eauto. apply Qgt_alt in E. lra.
Qed.

(** C1: on every pair of coordinate vectors and every target size,
    lines 162-168 of [center_and_scale_model] return
    [center[i] = (min[i] + max[i]) / 2] on each axis and a scale factor
    computed from [extent], the largest of the three spans
    [max[i] - min[i]]: [target_size / extent] when the extent is positive
    and 1 when it is zero (or negative).  On the bounds of a single point
    the scale is 1 and the centre is that point.  No bounds at all, finite
    or not, make the computation raise, and a finite target never gives a
    NaN or infinite scale. *)
Theorem center_and_scale_correct :
  (forall (mn mx : vec Q) (target_size : Q),
     exists center scale extent,
       center_and_scale (vmap Fin mn, vmap Fin mx) (Fin target_size)
         = Ok (center, scale) /\
       Forall (fun i => vget center i = Fin ((vget mn i + vget mx i) / 2)%Q) range3 /\
       size_of (vmap Fin mn, vmap Fin mx) = Fin extent /\
       Exists (fun i => extent = (vget mx i - vget mn i)%Q) range3 /\
       Forall (fun i => (vget mx i - vget mn i <= extent)%Q) range3 /\
       scale = match (extent ?= 0)%Q with
               | Gt => Fin (target_size / extent)%Q
               | _ => Fin 1
               end) /\
  (forall (p : vec Q) (target_size : Q),
     exists center,
       center_and_scale (vmap Fin p, vmap Fin p) (Fin target_size)
         = Ok (center, Fin 1) /\
       Forall (fun i => exists q, vget center i = Fin q /\ (q == vget p i)%Q) range3) /\
  (forall (b : bounds) (target_size : Q),
     exists center scale,
       center_and_scale b (Fin target_size) = Ok (center, Fin scale)).
Proof.
  split_and!.
  - intros mn mx t.
    destruct (py_max_of_fin (vx mx - vx mn)%Q (vy mx - vy mn)%Q (vz mx - vz mn)%Q)
      as (e & He & Hin & Hle).
    assert (Hsize : size_of (vmap Fin mn, vmap Fin mx) = Fin e).
    { unfold size_of. by rewrite !span_fin. }
    eexists _, _, e. unfold center_and_scale.
    rewrite center_of_fin, Hsize, scale_factor_fin. simpl.
    split_and!; try done.
    + repeat constructor.
    + destruct Hin as [-> | [-> | ->]].
      * by apply Exists_cons_hd.
      * by apply Exists_cons_tl, Exists_cons_hd.
      * by apply Exists_cons_tl, Exists_cons_tl, Exists_cons_hd.
    + repeat constructor; simpl; tauto.
  - intros p t.
    destruct (py_max_of_fin (vx p - vx p)%Q (vy p - vy p)%Q (vz p - vz p)%Q)
      as (e & He & Hin & Hle).
    assert (Hsize : size_of (vmap Fin p, vmap Fin p) = Fin e).
    { unfold size_of. by rewrite !span_fin. }
    assert (He0 : (e ?= 0)%Q = Eq).
    { apply Qeq_alt. destruct Hin as [-> | [-> | ->]]; lra. }
    eexists. unfold center_and_scale.
    rewrite center_of_fin, Hsize, scale_factor_fin, He0. simpl.
    split; [reflexivity|].
    repeat constructor; simpl; eexists; (split; [reflexivity|]); field.
  - intros b t.
    destruct (center_of_total b) as [c Hc].
    destruct (scale_factor_finite t (size_of b)) as [s Hs].
    exists c, s. unfold center_and_scale. by rewrite Hc, Hs.
Qed.

(** C5: on a non-empty sequence of points the scan returns the
    component-wise minimum and maximum: each is below (above) every input
    coordinate on its axis and is one of them; a single point [p] gives
    [(p, p)]; for two points [a], [b] the result has [min[i] <= max[i]] and
    both are among [a[i]], [b[i]]. *)
Theorem compute_bounds_extrema :
  (forall p : vec Q, compute_bounds [p] = (vmap Fin p, vmap Fin p)) /\
  (forall (a b : vec Q) (i : axis),
     let r := compute_bounds [a; b] in
     fle (vget r.1 i) (vget r.2 i) = true /\
     (vget r.1 i = Fin (vget a i) \/ vget r.1 i = Fin (vget b i)) /\
     (vget r.2 i = Fin (vget a i) \/ vget r.2 i = Fin (vget b i))) /\
  (forall (v : vec Q) (l : list (vec Q)) (i : axis),
     let r := compute_bounds (v :: l) in
     Forall (fun u => fle (vget r.1 i) (Fin (vget u i)) = true) (v :: l) /\
     Exists (fun u => vget r.1 i = Fin (vget u i)) (v :: l) /\
     Forall (fun u => fle (Fin (vget u i)) (vget r.2 i) = true) (v :: l) /\
     Exists (fun u => vget r.2 i = Fin (vget u i)) (v :: l)).
Proof.
  split_and!.
  - intros p. apply observe_sentinel.
  - intros a b i r. subst r. split; [apply ordered_nonempty|].
    destruct (compute_bounds_attained a [b] i) as [H1 H2].
    rewrite !Exists_cons, Exists_nil in H1, H2. tauto.
  - intros v l i r. subst r.
    destruct (accumulate_lower sentinel (v :: l) i no_nan_sentinel) as [H1 H2].
    destruct (compute_bounds_attained v l i) as [H3 H4].
    by split_and!.
Qed.

(** ** The scan inside [get_model_bounds] *)

Lemma bind_unfold {A B} (m : M A) (f : A -> M B) (w : world) :
  (m ≫= f) w = match m w with
               | (Ok a, w') => f a w'
               | (Raise e, w') => (Raise e, w')
               end.
Proof. reflexivity. Qed.

Lemma ret_unfold {A} (a : A) (w : world) : (mret a : M A) w = (Ok a, w).
Proof. reflexivity. Qed.

Lemma for_fold_scan (h : host) (objs : list nat) (b : bounds) (w : world) :
  for_fold objs b (fun b obj =>
      o ← deref obj;
      w ← get_world;
      mret (accumulate b (RenderFarmerPortraits.world_cos h w o))) w =
  match mapM (fun i => find_object i (objects w)) objs with
  | Some os => (Ok (accumulate b (os ≫= RenderFarmerPortraits.world_cos h w)), w)
  | None => (Raise ReferenceError, w)
  end.
Proof.
  revert b. induction objs as [|i objs IH]; intros b; [done|].
  cbn [for_fold mapM]. rewrite !bind_unfold. unfold deref at 1.
  destruct (find_object i (objects w)) as [o|] eqn:Ho; [|done].
  rewrite bind_unfold. unfold get_world at 1. rewrite ret_unfold, IH.
  cbn [mbind option_bind].
  destruct (mapM _ objs) as [os|]; [|done].
  cbn [mret option_ret mbind option_bind list_bind].
  by rewrite accumulate_app.
Qed.

Lemma get_model_bounds_scan (h : host) (objs : list nat) (w : world) :
  RenderFarmerPortraits.get_model_bounds h objs w =
  match mapM (fun i => find_object i (objects w)) objs with
  | Some os => (Ok (compute_bounds (os ≫= RenderFarmerPortraits.world_cos h w)), w)
  | None => (Raise ReferenceError, w)
  end.
Proof. apply for_fold_scan. Qed.

(** C6: the scan keeps [min[i] <= max[i]] on every axis from the first
    vertex on: the pair reached right after any vertex is processed is
    ordered, whatever was seen before it and whatever follows (the rest of
    the scan starts from that pair); with no vertex the pair is the two
    sentinels.  [get_model_bounds] is this scan over the vertices of its
    objects, one object after the other. *)
Theorem bounds_scan_invariant :
  compute_bounds [] = sentinel /\
  (forall (seen : list (vec Q)) (v : vec Q) (i : axis),
     let b := compute_bounds (seen ++ [v]) in
     fle (vget b.1 i) (vget b.2 i) = true) /\
  (forall (seen rest : list (vec Q)) (v : vec Q),
     compute_bounds (seen ++ v :: rest)
       = accumulate (compute_bounds (seen ++ [v])) rest) /\
  (forall (h : host) (objs : list nat) (w : world),
     RenderFarmerPortraits.get_model_bounds h objs w =
     match mapM (fun i => find_object i (objects w)) objs with
     | Some os =>
       (Ok (compute_bounds (os ≫= RenderFarmerPortraits.world_cos h w)), w)
     | None => (Raise ReferenceError, w)
     end).
Proof.
  split_and!.
  - reflexivity.
  - intros seen v i b. subst b. destruct seen as [|u seen].
    + apply ordered_nonempty.
    + apply (ordered_nonempty u (seen ++ [v])).
  - intros seen rest v. unfold compute_bounds.
    by rewrite <- accumulate_app, <- app_assoc.
  - apply get_model_bounds_scan.
Qed.

(** ** Running the script monad *)

Lemma modify_unfold (f : world -> world) (w : world) : modify f w = (Ok tt, f w).
Proof. reflexivity. Qed.

Lemma print_unfold (s : string) (w : world) : print s w = (Ok tt, emit (Print s) w).
Proof. reflexivity. Qed.

Lemma lift_unfold {A} (o : outcome A) (w : world) : lift o w = (o, w).
Proof. reflexivity. Qed.

Lemma get_world_unfold (w : world) : get_world w = (Ok w, w).
Proof. reflexivity. Qed.

Lemma try_except_unfold {A} (body : M A) (handler : exn -> M A) (w : world) :
  try_except body handler w = match body w with
                              | (Ok a, w') => (Ok a, w')
                              | (Raise e, w') => handler e w'
                              end.
Proof. reflexivity. Qed.

Lemma update_unfold (i : nat) (f : object -> object) (w : world) :
  update i f w = match find_object i (objects w) with
                 | Some _ => (Ok tt, set_objects (alter_object f i (objects w)) w)
                 | None => (Raise ReferenceError, w)
                 end.
Proof.
  unfold update. rewrite bind_unfold. unfold deref.
  by destruct (find_object i (objects w)).
Qed.

(** symbolic execution up to the first call that is not a primitive *)
Ltac mstep :=
  repeat (first [ rewrite bind_unfold | rewrite ret_unfold
                | rewrite modify_unfold | rewrite print_unfold
                | rewrite lift_unfold | rewrite get_world_unfold ];
          cbv beta iota).

(** ** References that are alive *)

Lemma find_object_alive (i : nat) (l : list object) :
  alive i l <-> is_Some (find_object i l).
Proof.
  unfold alive, find_object. rewrite list_elem_of_fmap. split.
  - intros (o & -> & Ho).
    destruct (list_find_elem_of (fun o' => oid o' = oid o) l o Ho eq_refl) as [x ->].
    by eexists.
  - intros [o Ho]. destruct (list_find _ l) as [[k o']|] eqn:E; [|done].
    apply list_find_Some in E as (Hk & Hoid & _).
    exists o'. split; [done|]. by eapply list_elem_of_lookup_2.
Qed.

Lemma find_object_oid (i : nat) (l : list object) (o : object) :
  find_object i l = Some o -> oid o = i /\ o ∈ l.
Proof.
  unfold find_object. destruct (list_find _ l) as [[k o']|] eqn:E; [|done].
  intros [= <-]. apply list_find_Some in E as (Hk & Hoid & _).
  split; [done|]. by eapply list_elem_of_lookup_2.
Qed.

Lemma update_alive (i : nat) (f : object -> object) (w : world) :
  alive i (objects w) ->
  update i f w = (Ok tt, set_objects (alter_object f i (objects w)) w).
Proof.
  intros H. rewrite update_unfold.
  apply find_object_alive in H as [o ->]. done.
Qed.

(** ** Frames: what an update leaves alone *)

Lemma frame_refl R `{!ObjRel R} (w : world) : frame R w w.
Proof.
  split_and!; try done. apply Forall2_same_length_lookup_2; [done|].
  intros k o o' H1 H2. rewrite H1 in H2. injection H2 as <-. apply objrel_refl.
Qed.

Lemma frame_trans R `{!ObjRel R} (w1 w2 w3 : world) :
  frame R w1 w2 -> frame R w2 w3 -> frame R w1 w3.
Proof.
  intros (F1 & ? & ? & ? & ? & ? & ? & ?) (F2 & ? & ? & ? & ? & ? & ? & ?).
  split_and!; try congruence.
  eapply Forall2_trans; [|exact F1|exact F2].
  intros o1 o2 o3. apply objrel_trans.
Qed.

Lemma frame_oids R `{!ObjRel R} (w w' : world) :
  frame R w w' -> oid <$> objects w' = oid <$> objects w.
Proof.
  intros (F & _). induction F as [|o o' l l' Hoo' F IH]; [done|].
  cbn. f_equal; [by apply objrel_oid | done].
Qed.

Lemma frame_alive R `{!ObjRel R} (w w' : world) (i : nat) :
  frame R w w' -> alive i (objects w) -> alive i (objects w').
Proof. intros F. unfold alive. by rewrite (frame_oids R w w' F). Qed.

Lemma alter_object_rel R `{!ObjRel R} (f : object -> object) (i : nat) (l : list object) :
  (forall o, R o (f o)) -> Forall2 R l (alter_object f i l).
Proof.
  intros Hf. unfold alter_object. apply Forall2_fmap_r.
  apply Forall2_same_length_lookup_2; [done|].
  intros k o o' H1 H2. rewrite H1 in H2. injection H2 as <-.
  unfold compose. case_decide; [apply Hf | apply objrel_refl].
Qed.

Lemma update_frame R `{!ObjRel R} (i : nat) (f : object -> object) (w : world) :
  (forall o, R o (f o)) -> alive i (objects w) ->
  exists w', update i f w = (Ok tt, w') /\ frame R w w'.
Proof.
  intros Hf Hi. rewrite (update_alive i f w Hi). eexists. split; [done|].
  split_and!; try done. by apply alter_object_rel.
Qed.

(** a loop whose body stays inside a frame stays inside it *)
Lemma for_each_frame R `{!ObjRel R} {A} (P : A -> world -> Prop)
    (body : A -> M unit) (l : list A) (w : world) :
  (forall x w w', P x w -> frame R w w' -> P x w') ->
  (forall x w, P x w -> exists w', body x w = (Ok tt, w') /\ frame R w w') ->
  Forall (fun x => P x w) l ->
  exists w', for_each l body w = (Ok tt, w') /\ frame R w w'.
Proof.
  intros HP Hbody. revert w. induction l as [|x l IH]; intros w Hl.
  - exists w. split; [done|]. apply (frame_refl R).
  - inversion Hl as [|? ? Hx Hl']; subst.
    destruct (Hbody x w Hx) as (w1 & E1 & F1).
    destruct (IH w1) as (w2 & E2 & F2).
    { eapply Forall_impl; [exact Hl'|]. intros y Hy. exact (HP y w w1 Hy F1). }
    exists w2. split; [|by apply (frame_trans R w w1 w2)].
    cbn [for_each]. rewrite bind_unfold, E1. exact E2.
Qed.

#[global] Instance same_oid_rel : ObjRel same_oid.
Proof. split; unfold same_oid; intros; congruence. Qed.

(** ** Well-formed scenes: identities are fresh *)

Lemma wf_delete_all (w : world) : wf (delete_all w).
Proof. constructor. Qed.

Lemma wf_with_new (w : world) (o : object) :
  wf w -> oid o = next_oid w -> wf (with_new w o).
Proof.
  intros Hw Ho. unfold wf, with_new. simpl. apply Forall_app. split.
  - eapply Forall_impl; [exact Hw|]. simpl. lia.
  - constructor; [lia|constructor].
Qed.

Lemma alter_object_old (f : object -> object) (i : nat) (l : list object) :
  Forall (fun o => oid o < i) l -> alter_object f i l = l.
Proof.
  intros H. unfold alter_object. induction H as [|o l Ho _ IH]; [done|].
  cbn. rewrite IH. case_decide; [lia|done].
Qed.

Lemma create_object_run (nm : string) (d : obj_data) (w : world) :
  create_object nm d w = (Ok (next_oid w), with_new w (new_object (next_oid w) nm d)).
Proof. reflexivity. Qed.

Lemma update_new (f : object -> object) (w : world) (o : object) :
  wf w -> oid o = next_oid w ->
  update (next_oid w) f (with_new w o) = (Ok tt, with_new w (f o)).
Proof.
  intros Hw Ho. rewrite update_alive.
  - unfold with_new. simpl. unfold alter_object. rewrite fmap_app.
    fold (alter_object f (next_oid w) (objects w)).
    rewrite (alter_object_old f _ _ Hw). cbn. by rewrite decide_True.
  - unfold alive, with_new. simpl. rewrite fmap_app, elem_of_app. right.
    cbn. rewrite Ho. apply list_elem_of_here.
Qed.

Lemma add_light_run (nm : string) (l : light_data) (loc : vec pyfloat)
    (rot : vec angle) (w : world) :
  wf w ->
  add_light nm l loc rot w =
  (Ok tt, with_new w (set_rotation_euler rot
            (set_location loc (new_object (next_oid w) nm (LightData l))))).
Proof.
  intros Hw. unfold add_light. rewrite bind_unfold, create_object_run.
  cbv beta iota. rewrite bind_unfold, update_new by done.
  cbv beta iota. by rewrite update_new.
Qed.

(** ** What an importer leaves in the scene *)

Lemma instantiate_lookup (base : nat) (l : list object) (k : nat) :
  instantiate base l !! k =
  (fun o => set_oid (base + k) ((fun p => base + p) <$> parent o) o) <$> l !! k.
Proof. unfold instantiate. apply list_lookup_imap. Qed.

Lemma instantiate_oids (base : nat) (l : list object) :
  oid <$> instantiate base l = seq base (length l).
Proof.
  apply list_eq. intros k.
  rewrite list_lookup_fmap, instantiate_lookup.
  destruct (l !! k) as [o|] eqn:E; simpl.
  - symmetry. apply lookup_seq. split; [done|]. by eapply lookup_lt_Some.
  - symmetry. apply lookup_seq_ge. by apply lookup_ge_None.
Qed.

Lemma instantiate_length (base : nat) (l : list object) :
  length (instantiate base l) = length l.
Proof. apply length_imap. Qed.

Lemma wf_add_imported (l : list object) (w : world) : wf w -> wf (add_imported l w).
Proof.
  intros Hw. unfold wf, add_imported. simpl. apply Forall_app. split.
  - eapply Forall_impl; [exact Hw|]. simpl. lia.
  - apply Forall_forall. intros o Ho.
    apply (list_elem_of_fmap_2 oid) in Ho. rewrite instantiate_oids in Ho.
    apply elem_of_seq in Ho. simpl. lia.
Qed.

Lemma filter_none {A} (P : A -> Prop) `{!forall x, Decision (P x)} (l : list A) :
  Forall (fun x => ~ P x) l -> filter P l = [].
Proof.
  induction 1 as [|x l Hx _ IH]; [done|]. by rewrite filter_cons_False.
Qed.

Lemma filter_all {A} (P : A -> Prop) `{!forall x, Decision (P x)} (l : list A) :
  Forall P l -> filter P l = l.
Proof.
  induction 1 as [|x l Hx _ IH]; [done|]. rewrite filter_cons_True by done.
  by rewrite IH.
Qed.

Lemma selected_after_import (l : list object) (w : world) :
  wf w -> selected_objects (add_imported l w) = instantiate (next_oid w) l.
Proof.
  intros Hw. unfold selected_objects, add_imported. simpl.
  rewrite filter_app, instantiate_oids.
  rewrite filter_none, filter_all; [done| |].
  - apply Forall_forall. intros o Ho. rewrite <- (instantiate_oids _ l).
    by apply list_elem_of_fmap_2.
  - eapply Forall_impl; [exact Hw|]. simpl. intros o Ho Hin.
    apply elem_of_seq in Hin. lia.
Qed.

(** ** Building the studio *)

Lemma silent_refl (w : world) : wf w -> silent w w.
Proof. by unfold silent. Qed.

Lemma silent_trans (w1 w2 w3 : world) : silent w1 w2 -> silent w2 w3 -> silent w1 w3.
Proof. unfold silent. intros (? & ? & ?) (? & ? & ?). split_and!; congruence. Qed.

Lemma silent_with_new (w : world) (o : object) :
  wf w -> oid o = next_oid w -> silent w (with_new w o).
Proof. intros Hw Ho. unfold silent. split_and!; [by apply wf_with_new|done|done]. Qed.

Lemma add_light_silent (nm : string) (l : light_data) (loc : vec pyfloat)
    (rot : vec angle) (w : world) :
  wf w -> exists w', add_light nm l loc rot w = (Ok tt, w') /\ silent w w'.
Proof.
  intros Hw. rewrite add_light_run by done. eexists. split; [done|].
  by apply silent_with_new.
Qed.

(** three lights in a row *)
Lemma three_lights_silent (n1 n2 n3 : string) (l1 l2 l3 : light_data)
    (p1 p2 p3 : vec pyfloat) (r1 r2 r3 : vec angle) (w : world) :
  wf w ->
  exists w', (add_light n1 l1 p1 r1;; add_light n2 l2 p2 r2;; add_light n3 l3 p3 r3) w
             = (Ok tt, w') /\ silent w w'.
Proof.
  intros Hw.
  destruct (add_light_silent n1 l1 p1 r1 w Hw) as (w1 & E1 & S1).
  destruct (add_light_silent n2 l2 p2 r2 w1 (proj1 S1)) as (w2 & E2 & S2).
  destruct (add_light_silent n3 l3 p3 r3 w2 (proj1 S2)) as (w3 & E3 & S3).
  exists w3. split.
  - rewrite bind_unfold, E1. cbv beta iota. by rewrite bind_unfold, E2.
  - eauto using silent_trans.
Qed.

Lemma animal_setup_lighting (w : world) :
  wf w -> exists w', RenderAnimalPortraits.setup_lighting w = (Ok tt, w') /\ silent w w'.
Proof. apply three_lights_silent. Qed.

Lemma animal_setup_camera (w : world) :
  wf w -> exists cam w', RenderAnimalPortraits.setup_camera w = (Ok cam, w') /\ silent w w'.
Proof.
  intros Hw. unfold RenderAnimalPortraits.setup_camera.
  rewrite bind_unfold, create_object_run. cbv beta iota.
  rewrite bind_unfold, update_new by done. cbv beta iota.
  rewrite bind_unfold, update_new by done. cbv beta iota.
  mstep. do 2 eexists. split; [done|].
  unfold silent. split_and!; [|done|done]. by apply (wf_with_new w).
Qed.

(** ** Loading a model and scaling it *)

Lemma wf_emit (e : event) (w : world) : wf w -> wf (emit e w).
Proof. done. Qed.

Lemma elem_alive (o : object) (l : list object) : o ∈ l -> alive (oid o) l.
Proof. intros H. unfold alive. by apply list_elem_of_fmap_2. Qed.

Lemma load_glb_ok (h : host) (filepath : string) (l : list object) (w : world) :
  wf w -> gltf_file h filepath = Ok l ->
  exists w',
    RenderAnimalPortraits.load_glb h filepath w
      = (Ok (oid <$> meshes_of (instantiate (next_oid w) l)), w') /\
    wf w' /\ trace w' = trace w ++ [ImportGltf filepath] /\
    Forall (fun i => alive i (objects w')) (oid <$> meshes_of (instantiate (next_oid w) l)).
Proof.
  intros Hw Hl. unfold RenderAnimalPortraits.load_glb.
  mstep. rewrite Hl. mstep.
  rewrite selected_after_import by done.
  eexists. split; [reflexivity|]. split_and!.
  - by apply wf_add_imported.
  - done.
  - apply Forall_fmap, Forall_forall. intros o Ho. simpl.
    apply elem_alive. apply list_elem_of_filter in Ho as [_ Ho].
    simpl. apply elem_of_app. by right.
Qed.

Lemma load_glb_raise (h : host) (filepath : string) (e : exn) (w : world) :
  gltf_file h filepath = Raise e ->
  RenderAnimalPortraits.load_glb h filepath w = (Raise e, emit (ImportGltf filepath) w).
Proof.
  intros Hl. unfold RenderAnimalPortraits.load_glb. mstep. by rewrite Hl.
Qed.

Lemma instantiate_types (base : nat) (l : list object) :
  type <$> instantiate base l = type <$> l.
Proof.
  apply list_eq. intros k. rewrite !list_lookup_fmap, instantiate_lookup.
  by destruct (l !! k).
Qed.

Lemma meshes_of_types (l1 l2 : list object) :
  type <$> l1 = type <$> l2 -> length (meshes_of l1) = length (meshes_of l2).
Proof.
  unfold meshes_of. revert l2. induction l1 as [|x l1 IH]; intros [|y l2]; try done.
  intros [= Hxy Hl]. rewrite !filter_cons, Hxy.
  case_decide; simpl; auto.
Qed.

Lemma meshes_of_instantiate_length (base : nat) (l : list object) :
  length (meshes_of (instantiate base l)) = length (meshes_of l).
Proof. apply meshes_of_types, instantiate_types. Qed.

Lemma scan_objects_alive (objs : list nat) (w : world) :
  Forall (fun i => alive i (objects w)) objs ->
  exists b, RenderAnimalPortraits.scan_objects objs w = (Ok b, w).
Proof.
  unfold RenderAnimalPortraits.scan_objects. generalize sentinel.
  induction objs as [|i objs IH]; intros b Hl; [by eexists|].
  inversion Hl as [|? ? Hi Hl']; subst.
  apply find_object_alive in Hi as [o Ho].
  cbn [for_fold]. rewrite !bind_unfold. unfold deref at 1. rewrite Ho.
  rewrite ret_unfold. by apply IH.
Qed.

Lemma same_oid_setters (o : object) (l : vec pyfloat) (s : vec pyfloat) :
  same_oid o (set_location l o) /\ same_oid o (set_scale s o).
Proof. done. Qed.

(** four updates of one live object *)
Lemma update4_frame (i : nat) (f1 f2 f3 f4 : object -> object) (w : world) :
  (forall o, same_oid o (f1 o)) -> (forall o, same_oid o (f2 o)) ->
  (forall o, same_oid o (f3 o)) -> (forall o, same_oid o (f4 o)) ->
  alive i (objects w) ->
  exists w', (update i f1;; update i f2;; update i f3;; update i f4) w = (Ok tt, w') /\
             frame same_oid w w'.
Proof.
  intros H1 H2 H3 H4 Hi.
  destruct (update_frame same_oid i f1 w H1 Hi) as (w1 & E1 & F1).
  pose proof (frame_alive same_oid _ _ i F1 Hi) as Hi1.
  destruct (update_frame same_oid i f2 w1 H2 Hi1) as (w2 & E2 & F2).
  pose proof (frame_alive same_oid _ _ i F2 Hi1) as Hi2.
  destruct (update_frame same_oid i f3 w2 H3 Hi2) as (w3 & E3 & F3).
  pose proof (frame_alive same_oid _ _ i F3 Hi2) as Hi3.
  destruct (update_frame same_oid i f4 w3 H4 Hi3) as (w4 & E4 & F4).
  exists w4. split.
  - rewrite bind_unfold, E1. cbv beta iota. rewrite bind_unfold, E2.
    cbv beta iota. by rewrite bind_unfold, E3.
  - apply (frame_trans same_oid w w1 w4 F1).
    apply (frame_trans same_oid w1 w2 w4 F2).
    by apply (frame_trans same_oid w2 w3 w4 F3).
Qed.

Lemma center_and_scale_model_frame (objs : list nat) (w : world) :
  Forall (fun i => alive i (objects w)) objs ->
  exists w', RenderAnimalPortraits.center_and_scale_model objs w = (Ok tt, w') /\
             frame same_oid w w'.
Proof.
  intros Hl. destruct objs as [|i objs].
  { exists w. split; [done|]. apply (frame_refl same_oid). }
  unfold RenderAnimalPortraits.center_and_scale_model.
  destruct (scan_objects_alive _ w Hl) as [b Hb].
  rewrite bind_unfold, Hb. cbv beta iota.
  destruct (center_of_total b) as [c Hc].
  destruct (scale_factor_finite (18 # 10) (size_of b)) as [s Hs].
  mstep. unfold center_and_scale, RenderAnimalPortraits.target_size.
  rewrite Hc, Hs. cbn [mbind outcome_bind mret outcome_ret].
  apply (for_each_frame same_oid (fun i w => alive i (objects w))); [| |done].
  - intros x w1 w2 Hx F. by apply (frame_alive same_oid w1 w2).
  - intros x w1 Hx. by apply update4_frame.
Qed.

(** ** One portrait *)

Lemma render_portrait_run (h : host) (model_name output_filename : string) (w : world) :
  importable h model_name ->
  exists w',
    RenderAnimalPortraits.render_portrait h model_name output_filename w
      = (Ok (rendered h model_name), w') /\
    trace w' = trace w ++ portrait_events h model_name output_filename.
Proof.
  intros Himp. unfold RenderAnimalPortraits.render_portrait,
    RenderAnimalPortraits.clear_scene.
  cbv zeta. fold (model_path h model_name). fold (output_path h output_filename).
  unfold rendered, portrait_events.
  mstep.
  match goal with |- context [RenderAnimalPortraits.setup_lighting ?w0] =>
    destruct (animal_setup_lighting w0 (wf_delete_all _)) as (w1 & E1 & Hw1 & T1 & _)
  end.
  rewrite E1. mstep.
  destruct (animal_setup_camera w1 Hw1) as (cam & w2 & E2 & Hw2 & T2 & _).
  rewrite E2. mstep.
  destruct (path_exists h (model_path h model_name)) eqn:Hex; cbn [negb]; cbv iota.
  2:{ mstep. eexists. split; [reflexivity|].
      simpl. rewrite T2, T1. simpl. by rewrite <- !app_assoc. }
  specialize (Himp Hex).
  destruct (gltf_file h (model_path h model_name)) as [l|e] eqn:Hl; [|done].
  destruct (load_glb_ok h _ l w2 Hw2 Hl) as (w3 & E3 & Hw3 & T3 & Hal).
  rewrite bind_unfold, E3. cbv beta iota.
  pose proof (meshes_of_instantiate_length (next_oid w2) l) as Hlen.
  destruct (meshes_of l) as [|m ms] eqn:Hms.
  - destruct (meshes_of (instantiate (next_oid w2) l)); [|done].
    cbn [fmap list_fmap]. mstep. eexists. split; [reflexivity|].
    simpl. rewrite T3, T2, T1. simpl. by rewrite <- !app_assoc.
  - destruct (meshes_of (instantiate (next_oid w2) l)) as [|m' ms'] eqn:Hms';
      [done|].
    cbn [fmap list_fmap] in *. mstep.
    match goal with |- context [RenderAnimalPortraits.center_and_scale_model ?o ?w0] =>
      destruct (center_and_scale_model_frame o w0) as (w4 & E4 & F4)
    end.
    { exact Hal. }
    rewrite E4. mstep. unfold render_still. mstep.
    eexists. split; [reflexivity|].
    destruct F4 as (_ & _ & _ & _ & _ & _ & _ & T4).
    simpl. rewrite T4. simpl. rewrite T3, T2, T1. simpl.
    rewrite <- !app_assoc. simpl. rewrite !length_fmap.
    simpl in Hlen. by rewrite Hlen.
Qed.

(** ** The batch *)

Lemma animal_setup_render_settings (h : host) (w : world) :
  cycles_prefs h <> Some false ->
  exists w', RenderAnimalPortraits.setup_render_settings h w = (Ok tt, w') /\
             trace w' = trace w.
Proof.
  intros Hc. unfold RenderAnimalPortraits.setup_render_settings. mstep.
  destruct (cycles_prefs h) as [[|]|]; [| done |].
  - unfold assign_metal. mstep. by eexists.
  - mstep. by eexists.
Qed.

Lemma render_loop_run (h : host) (animals : list (string * string))
    (acc : list (string * bool)) (w : world) :
  Forall (fun a => importable h a.1) animals ->
  exists w',
    for_append animals acc (fun '(model_name, output_filename) =>
      success ← RenderAnimalPortraits.render_portrait h model_name output_filename;
      mret (model_name, success)) w
      = (Ok (acc ++ results_of h animals), w') /\
    trace w' = trace w ++ (animals ≫= fun a => portrait_events h a.1 a.2).
Proof.
  revert acc w. induction animals as [|[nm out] animals IH]; intros acc w Hl.
  - exists w. cbn. by rewrite !app_nil_r.
  - inversion Hl as [|? ? Ha Hl']; subst.
    destruct (render_portrait_run h nm out w Ha) as (w1 & E1 & T1).
    destruct (IH (acc ++ [(nm, rendered h nm)]) w1 Hl') as (w2 & E2 & T2).
    exists w2. split.
    + cbn [for_append]. rewrite !bind_unfold, E1. mstep. rewrite E2.
      cbn. by rewrite <- app_assoc.
    + rewrite T2, T1. cbn. by rewrite <- app_assoc.
Qed.

Lemma status_loop_run (results : list (string * bool)) (w : world) :
  exists w',
    for_each results (fun '(nm, success) =>
      print ("  " +:+ nm +:+ ": " +:+
             (if (success : bool) then "SUCCESS" else "FAILED"))) w = (Ok tt, w') /\
    trace w' = trace w ++ (status_line <$> results).
Proof.
  revert w. induction results as [|[nm s] results IH]; intros w.
  - exists w. cbn. by rewrite app_nil_r.
  - destruct (IH (emit (status_line (nm, s)) w)) as (w2 & E2 & T2).
    exists w2. split.
    + cbn [for_each]. mstep. exact E2.
    + rewrite T2. cbn. by rewrite <- app_assoc.
Qed.

Lemma results_of_length (h : host) (animals : list (string * string)) :
  length (results_of h animals) = length animals.
Proof. apply length_fmap. Qed.

Lemma results_of_successes (h : host) (animals : list (string * string)) :
  length (filter (fun r : string * bool => r.2 = true) (results_of h animals)) =
  length (filter (fun a : string * string => rendered h a.1 = true) animals).
Proof.
  induction animals as [|a animals IH]; [done|].
  cbn [results_of fmap list_fmap]. rewrite !filter_cons. simpl.
  fold (results_of h animals).
  case_decide; simpl; by rewrite IH.
Qed.

Lemma main_over_run (h : host) (animals : list (string * string)) (w : world) :
  cycles_prefs h <> Some false ->
  Forall (fun a => importable h a.1) animals ->
  exists w', RenderAnimalPortraits.main_over h animals w = (Ok tt, w') /\
             trace w' = trace w ++ main_events h animals.
Proof.
  intros Hc Hl. unfold RenderAnimalPortraits.main_over. mstep.
  match goal with |- context [RenderAnimalPortraits.setup_render_settings h ?w0] =>
    destruct (animal_setup_render_settings h w0 Hc) as (w1 & E1 & T1)
  end.
  rewrite E1. mstep.
  destruct (render_loop_run h animals [] w1 Hl) as (w2 & E2 & T2).
  rewrite E2. rewrite app_nil_l. mstep.
  match goal with |- context [for_each _ _ ?w0] =>
    destruct (status_loop_run (results_of h animals) w0) as (w3 & E3 & T3)
  end.
  rewrite E3. cbv zeta. mstep.
  eexists. split; [reflexivity|].
  simpl. rewrite T3. simpl. rewrite T2, T1. simpl.
  rewrite results_of_length, results_of_successes.
  unfold main_events, summary_line. simpl.
  by rewrite <- !app_assoc.
Qed.

(** ** What the trace of the batch says *)

Lemma outputs_app (t1 t2 : list event) : outputs (t1 ++ t2) = outputs t1 ++ outputs t2.
Proof. apply filter_app. Qed.

Lemma outputs_portrait (h : host) (model_name output_filename : string) :
  outputs (portrait_events h model_name output_filename) =
  if rendered h model_name then [RenderStill (output_path h output_filename)] else [].
Proof.
  unfold portrait_events, rendered.
  destruct (path_exists h (model_path h model_name)); [|done].
  simpl. destruct (gltf_file h (model_path h model_name)) as [l|]; [|done].
  destruct (meshes_of l); done.
Qed.

Lemma outputs_portraits (h : host) (animals : list (string * string)) :
  outputs (animals ≫= fun a => portrait_events h a.1 a.2) =
  (fun a => RenderStill (output_path h a.2)) <$>
    filter (fun a => rendered h a.1 = true) animals.
Proof.
  induction animals as [|a animals IH]; [done|].
  cbn [mbind list_bind]. rewrite outputs_app, outputs_portrait, IH, filter_cons.
  destruct (rendered h a.1); by case_decide.
Qed.

Lemma outputs_status (results : list (string * bool)) :
  outputs (status_line <$> results) = [].
Proof. induction results as [|r results IH]; [done|]. exact IH. Qed.

Lemma outputs_main (h : host) (animals : list (string * string)) :
  outputs (main_events h animals) =
  (fun a => RenderStill (output_path h a.2)) <$>
    filter (fun a => rendered h a.1 = true) animals.
Proof.
  unfold main_events. rewrite !outputs_app, outputs_portraits, outputs_status.
  cbn. by rewrite app_nil_r.
Qed.

Lemma portrait_missing_logged (h : host) (model_name output_filename : string) :
  path_exists h (model_path h model_name) = false ->
  Print ("ERROR: Model not found: " +:+ model_path h model_name)
    ∈ portrait_events h model_name output_filename.
Proof.
  intros H. unfold portrait_events. rewrite H. cbn.
  do 3 apply list_elem_of_further. apply list_elem_of_here.
Qed.

Lemma missing_logged (h : host) (animals : list (string * string)) :
  Forall (fun a => Print ("ERROR: Model not found: " +:+ model_path h a.1)
                     ∈ main_events h animals) (absent h animals).
Proof.
  apply Forall_forall. intros a Ha. apply list_elem_of_filter in Ha as [Hex Ha].
  unfold main_events. apply elem_of_app. right. apply elem_of_app. left.
  apply list_elem_of_bind. exists a. split; [|done].
  by apply portrait_missing_logged.
Qed.

Lemma status_logged (h : host) (animals : list (string * string)) :
  Forall (fun a => status_line (a.1, rendered h a.1) ∈ main_events h animals) animals.
Proof.
  apply Forall_forall. intros a Ha. unfold main_events.
  do 3 (apply elem_of_app; right). apply elem_of_app. left.
  apply list_elem_of_fmap. exists (a.1, rendered h a.1). split; [done|].
  unfold results_of. apply list_elem_of_fmap. by exists a.
Qed.

Lemma summary_logged (h : host) (animals : list (string * string)) :
  summary_line (length (filter (fun a => rendered h a.1 = true) animals))
               (length animals) ∈ main_events h animals.
Proof.
  unfold main_events. do 4 (apply elem_of_app; right). apply list_elem_of_here.
Qed.

(** ** The batch on sample hosts *)

(** refute membership in a concrete trace *)
Ltac not_in_trace H :=
  repeat (apply elem_of_cons in H as [H|H]; [discriminate H|]);
  by apply elem_of_nil in H.

(** C3, amended: on a host whose render setup and importers do not raise,
    the batch logs every absent file, runs to its summary, writes one image
    for each asset whose file is present and holds at least one mesh object
    and none for any other asset, prints one status line per asset, and
    counts exactly those assets as successes. *)
Theorem batch_skips_missing_assets (h : host) (animals : list (string * string))
    (w : world) :
  cycles_prefs h <> Some false ->
  Forall (fun a => importable h a.1) animals ->
  exists w',
    RenderAnimalPortraits.main_over h animals w = (Ok tt, w') /\
    trace w' = trace w ++ main_events h animals /\
    Forall (fun a => rendered h a.1 = false /\
                     Print ("ERROR: Model not found: " +:+ model_path h a.1) ∈ trace w')
           (absent h animals) /\
    outputs (trace w') =
      outputs (trace w) ++
      ((fun a => RenderStill (output_path h a.2)) <$>
         filter (fun a => rendered h a.1 = true) animals) /\
    Forall (fun a => status_line (a.1, rendered h a.1) ∈ trace w') animals /\
    summary_line (length (filter (fun a => rendered h a.1 = true) animals))
                 (length animals) ∈ trace w'.
Proof.
  intros Hc Hl. destruct (main_over_run h animals w Hc Hl) as (w' & E & T).
  exists w'. rewrite T. split_and!; try done.
  - pose proof (missing_logged h animals) as Hm.
    apply Forall_forall. intros a Ha.
    pose proof (proj1 (Forall_forall _ _) Hm a Ha) as Hin.
    split; [|apply elem_of_app; by right].
    apply list_elem_of_filter in Ha as [Hex _].
    unfold rendered. by rewrite Hex.
  - by rewrite outputs_app, outputs_main.
  - apply Forall_forall. intros a Ha. apply elem_of_app. right.
    exact (proj1 (Forall_forall _ _) (status_logged h animals) a Ha).
  - apply elem_of_app. right. apply summary_logged.
Qed.

(** the scenario of the spec: five assets, the duck absent *)
Lemma batch_skips_missing_assets_witness :
  cycles_prefs farm_host <> Some false /\
  Forall (fun a => importable farm_host a.1) RenderAnimalPortraits.ANIMALS /\
  exists w',
    RenderAnimalPortraits.main farm_host initial_world = (Ok tt, w') /\
    summary_line 4 5 ∈ trace w' /\
    length (outputs (trace w')) = 4.
Proof.
  assert (H1 : cycles_prefs farm_host <> Some false) by done.
  assert (H2 : Forall (fun a => importable farm_host a.1) RenderAnimalPortraits.ANIMALS).
  { repeat constructor. }
  split; [exact H1|]. split; [exact H2|].
  destruct (batch_skips_missing_assets farm_host RenderAnimalPortraits.ANIMALS
              initial_world H1 H2) as (w' & E & _ & _ & Hout & _ & Hsum).
  exists w'. split; [exact E|]. split; [exact Hsum|].
  rewrite Hout. reflexivity.
Defined.

(** of the two assets the cow has no file and the pig has one, which holds
    no mesh object *)
Lemma cow_absent_pig_present :
  absent cow_absent_host cow_and_pig = [("cow", "cow_portrait.png")] /\
  filter (fun a => path_exists cow_absent_host (model_path cow_absent_host a.1) = true)
         cow_and_pig = [("pig", "pig_portrait.png")] /\
  rendered cow_absent_host "pig" = false.
Proof. by vm_compute. Qed.

(** one file absent, one present: the summary reports no success out of
    two, where the claim counts one for the present file *)
Lemma batch_claim_counterexample :
  ~ counts_every_present_asset cow_absent_host cow_and_pig initial_world.
Proof.
  intros H.
  assert (Ha : absent cow_absent_host cow_and_pig <> []).
  { by rewrite (proj1 cow_absent_pig_present). }
  specialize (H Ha). vm_compute in H. not_in_trace H.
Qed.

(** ** Moving objects along X *)

#[global] Instance only_x_rel (targets : list nat) : ObjRel (only_x targets).
Proof.
  split.
  - intros o. by left.
  - intros o1 o2 o3 [-> | (H1 & x & ->)] [-> | (H2 & y & ->)].
    + by left.
    + right. eauto.
    + right. eauto.
    + right. split; [done|]. exists y. by destruct o1.
  - intros o o' [-> | (_ & x & ->)]; done.
Qed.

Lemma only_x_fields (targets : list nat) (o o' : object) :
  only_x targets o o' ->
  oid o' = oid o /\ name o' = name o /\ data o' = data o /\ parent o' = parent o /\
  vy (location o') = vy (location o) /\ vz (location o') = vz (location o) /\
  rotation_euler o' = rotation_euler o /\ scale o' = scale o /\
  matrix_world o' = matrix_world o /\ bound_box o' = bound_box o /\
  animation_data o' = animation_data o /\ pose_bones o' = pose_bones o.
Proof. intros [-> | (_ & x & ->)]; by split_and!. Qed.

Lemma shift_x_only_x (targets : list nat) (i : nat) (center_x : pyfloat) (o : object) :
  i ∈ targets ->
  only_x targets o (if decide (oid o = i) then shift_x center_x o else o).
Proof.
  intros Hi. case_decide; [|by left]. right. subst i. split; [done|].
  by eexists.
Qed.

(** an update of a target by [shift_x] stays inside the frame *)
Lemma update_shift_frame (targets : list nat) (i : nat) (center_x : pyfloat)
    (w : world) :
  i ∈ targets -> alive i (objects w) ->
  exists w', update i (shift_x center_x) w = (Ok tt, w') /\
             frame (only_x targets) w w'.
Proof.
  intros Hi Ha. rewrite (update_alive _ _ _ Ha). eexists. split; [done|].
  unfold frame. split_and!; try done. simpl.
  unfold alter_object. apply Forall2_fmap_r.
  apply Forall2_same_length_lookup_2; [done|].
  intros k o o' H1 H2. rewrite H1 in H2. injection H2 as <-.
  unfold compose. by apply shift_x_only_x.
Qed.

Lemma center_on_x_frame (armature : option nat) (meshes : list nat)
    (center_x : pyfloat) (w : world) :
  Forall (fun i => alive i (objects w)) (centering_targets armature meshes) ->
  exists w',
    RenderFarmerPortraits.center_on_x armature meshes center_x w = (Ok tt, w') /\
    frame (only_x (centering_targets armature meshes)) w w'.
Proof.
  intros Hal. destruct armature as [a|]; simpl in *.
  - inversion Hal; subst.
    apply (update_shift_frame [a] a center_x w); [apply list_elem_of_here | done].
  - apply (for_each_frame (only_x meshes)
             (fun i w => i ∈ meshes /\ alive i (objects w))).
    + intros x w1 w2 [Hx Ha] F. split; [done|].
      by apply (frame_alive (only_x meshes) w1 w2).
    + intros x w1 [Hx Ha]. by apply update_shift_frame.
    + apply Forall_forall. intros i Hi. split; [done|].
      by apply (proj1 (Forall_forall _ _) Hal).
Qed.

(** ** Framing a posed farmer *)

Lemma farmer_setup_camera_run (center_y center_z : pyfloat) (w : world) :
  wf w ->
  RenderFarmerPortraits.setup_camera center_y center_z w =
  (Ok (next_oid w),
   set_camera (Some (next_oid w)) (with_new w (portrait_camera (next_oid w) center_z))).
Proof.
  intros Hw. unfold RenderFarmerPortraits.setup_camera.
  rewrite bind_unfold, create_object_run. cbv beta iota.
  rewrite bind_unfold, update_new by done. cbv beta iota.
  rewrite bind_unfold, update_new by done. cbv beta iota.
  by mstep.
Qed.

Lemma alive_lt (i : nat) (w : world) : wf w -> alive i (objects w) -> i < next_oid w.
Proof.
  intros Hw Hi. unfold alive in Hi. apply list_elem_of_fmap in Hi as (o & -> & Ho).
  by apply (proj1 (Forall_forall _ _) Hw).
Qed.

Lemma mapM_find_alive (objs : list nat) (os : list object) (l : list object) :
  mapM (fun i => find_object i l) objs = Some os ->
  Forall (fun i => alive i l) objs.
Proof.
  revert os. induction objs as [|i objs IH]; intros os H; [constructor|].
  cbn [mapM] in H. destruct (find_object i l) as [o|] eqn:Ho; [|done].
  cbn [mbind option_bind] in H.
  destruct (mapM _ objs) as [os'|] eqn:E; [|done].
  constructor; [|by eapply IH].
  apply find_object_alive. by eexists.
Qed.

Lemma get_model_bounds_alive (h : host) (meshes : list nat) (b : bounds) (w w1 : world) :
  RenderFarmerPortraits.get_model_bounds h meshes w = (Ok b, w1) ->
  w1 = w /\ Forall (fun i => alive i (objects w)) meshes.
Proof.
  rewrite get_model_bounds_scan.
  destruct (mapM _ meshes) as [os|] eqn:E; [|done].
  intros [= _ <-]. split; [done|]. by eapply mapM_find_alive.
Qed.

Lemma frame_and_render_run (h : host)
    (farmer_config : RenderFarmerPortraits.farmer_config)
    (armature : option nat) (meshes : list nat) (b : bounds) (w : world) :
  wf w ->
  RenderFarmerPortraits.get_model_bounds h meshes w = (Ok b, w) ->
  Forall (fun i => alive i (objects w)) (centering_targets armature meshes) ->
  exists w' objs',
    RenderFarmerPortraits.frame_and_render h farmer_config armature meshes w
      = (Ok true, w') /\
    objects w' = objs' ++
      [portrait_camera (next_oid w) (RenderFarmerPortraits.portrait_center_z_of b)] /\
    Forall2 (only_x (centering_targets armature meshes)) (objects w) objs' /\
    camera w' = Some (next_oid w) /\
    trace w' = trace w ++ framing_events h farmer_config b.
Proof.
  intros Hw Hb Hal. unfold RenderFarmerPortraits.frame_and_render.
  rewrite bind_unfold, Hb. cbv beta iota. destruct b as [min_co max_co].
  destruct (fdiv_two (fadd (vx min_co) (vx max_co))) as [center_x Hx].
  destruct (fdiv_two (fadd (vz min_co) (vz max_co))) as [center_z Hz].
  unfold framing_events. cbn [fst snd]. rewrite !Hx, !Hz.
  cbv zeta. mstep.
  rewrite farmer_setup_camera_run by done. mstep.
  match goal with |- context [RenderFarmerPortraits.center_on_x _ _ _ ?w0] =>
    destruct (center_on_x_frame armature meshes center_x w0) as (w2 & E2 & F2)
  end.
  { simpl. eapply Forall_impl; [exact Hal|]. intros i Hi. simpl in *.
    unfold alive in *. rewrite fmap_app. apply elem_of_app. by left. }
  rewrite E2. mstep. unfold render_still. mstep.
  destruct F2 as (F2 & _ & _ & _ & Hcam & _ & _ & T2). simpl in F2, Hcam, T2.
  apply Forall2_app_inv_l in F2 as (objs' & cam' & F2 & Fc & Ho).
  apply Forall2_cons_inv_l in Fc as (c & rest & Hc & Hrest & ->).
  apply Forall2_nil_inv_l in Hrest as ->.
  assert (c = portrait_camera (next_oid w) (RenderFarmerPortraits.portrait_center_z_of (min_co, max_co))) as ->.
  { destruct Hc as [-> | (Hin & _)]; [done|]. exfalso.
    apply (proj1 (Forall_forall _ _) Hal) in Hin.
    apply (alive_lt _ _ Hw) in Hin. simpl in Hin. lia. }
  eexists _, objs'. split; [reflexivity|]. simpl.
  split_and!; try done.
  rewrite T2. simpl. by rewrite <- !app_assoc.
Qed.

(** C7: the camera of a farmer portrait is placed at the height
    [min_z + (max_z - min_z) * 0.75] of the posed model's bounds, in front
    of it at y = -4 and x = 0; on finite bounds that is the rational
    [a + (b - a) * 3/4].  The objects of the model stay as they are but for
    the x component of the location of the armature (or of the meshes when
    there is no armature): nothing is rescaled, rotated or moved in y or z. *)
Theorem portrait_focus_height (h : host)
    (farmer_config : RenderFarmerPortraits.farmer_config)
    (armature : option nat) (meshes : list nat) (min_co max_co : vec pyfloat)
    (w : world) :
  wf w ->
  RenderFarmerPortraits.get_model_bounds h meshes w = (Ok (min_co, max_co), w) ->
  Forall (fun i => alive i (objects w)) (centering_targets armature meshes) ->
  exists w' subject cam,
    RenderFarmerPortraits.frame_and_render h farmer_config armature meshes w
      = (Ok true, w') /\
    objects w' = subject ++ [cam] /\
    camera w' = Some (oid cam) /\
    location cam =
      Vec (Fin 0) (Fin (-4))
          (fadd (vz min_co) (fmul (fsub (vz max_co) (vz min_co)) (Fin (3 # 4)))) /\
    (forall (mn mx : vec Q),
       RenderFarmerPortraits.portrait_center_z_of (vmap Fin mn, vmap Fin mx)
       = Fin (vz mn + (vz mx - vz mn) * (3 # 4))%Q) /\
    Forall2 (fun o o' =>
               scale o' = scale o /\ rotation_euler o' = rotation_euler o /\
               vy (location o') = vy (location o) /\
               vz (location o') = vz (location o) /\
               data o' = data o /\
               (oid o ∈ centering_targets armature meshes \/ o' = o))
            (objects w) subject.
Proof.
  intros Hw Hb Hal.
  destruct (frame_and_render_run h farmer_config armature meshes _ w Hw Hb Hal)
    as (w' & objs' & E & Ho & F & Hc & _).
  exists w', objs', (portrait_camera (next_oid w)
                       (RenderFarmerPortraits.portrait_center_z_of (min_co, max_co))).
  split_and!; try done.
  eapply Forall2_impl; [exact F|]. intros o o' Hoo'.
  destruct (only_x_fields _ _ _ Hoo') as (_ & _ & ? & _ & ? & ? & ? & ? & _).
  split_and!; try done.
  destruct Hoo' as [-> | [Hin _]]; [by right | by left].
Qed.

Lemma portrait_focus_height_witness :
  wf posed_world /\
  RenderFarmerPortraits.get_model_bounds farm_host [1] posed_world
    = (Ok (Vec (Fin (-1)) (Fin 0) (Fin 0), Vec (Fin 3) (Fin 1) (Fin 2)), posed_world) /\
  Forall (fun i => alive i (objects posed_world)) (centering_targets (Some 0) [1]) /\
  exists w' subject cam,
    RenderFarmerPortraits.frame_and_render farm_host john (Some 0) [1] posed_world
      = (Ok true, w') /\
    objects w' = subject ++ [cam] /\
    location cam = Vec (Fin 0) (Fin (-4)) (fadd (Fin 0) (fmul (fsub (Fin 2) (Fin 0)) (Fin (3 # 4)))).
Proof.
  assert (H1 : wf posed_world) by (repeat constructor).
  assert (H2 : RenderFarmerPortraits.get_model_bounds farm_host [1] posed_world
    = (Ok (Vec (Fin (-1)) (Fin 0) (Fin 0), Vec (Fin 3) (Fin 1) (Fin 2)), posed_world))
    by reflexivity.
  assert (H3 : Forall (fun i => alive i (objects posed_world))
                      (centering_targets (Some 0) [1])).
  { repeat constructor. }
  split_and!; try done.
  destruct (portrait_focus_height farm_host john (Some 0) [1] _ _ posed_world H1 H2 H3)
    as (w' & subject & cam & E & Ho & _ & Hl & _).
  by exists w', subject, cam.
Defined.

(** ** Computations that write no output *)

Lemma no_output_ret {A} (a : A) : no_output (mret a : M A).
Proof. done. Qed.

Lemma no_output_bind {A B} (m : M A) (f : A -> M B) :
  no_output m -> (forall a, no_output (f a)) -> no_output (m ≫= f).
Proof.
  intros Hm Hf w. rewrite bind_unfold. specialize (Hm w).
  destruct (m w) as [[a|e] w']; simpl in *; [|done].
  by rewrite Hf.
Qed.

Lemma no_output_modify (f : world -> world) :
  (forall w, outputs (trace (f w)) = outputs (trace w)) -> no_output (modify f).
Proof. intros H w. apply H. Qed.

Lemma outputs_emit (e : event) (w : world) :
  is_output e = false -> outputs (trace (emit e w)) = outputs (trace w).
Proof.
  intros He. simpl. rewrite outputs_app. unfold outputs at 2.
  rewrite filter_cons_False, filter_nil, app_nil_r; [done|].
  by rewrite He.
Qed.

Lemma no_output_emit (e : event) : is_output e = false -> no_output (modify (emit e)).
Proof. intros He. apply no_output_modify. intros w. by apply outputs_emit. Qed.

Lemma no_output_print (s : string) : no_output (print s).
Proof. by apply no_output_emit. Qed.

Lemma no_output_lift {A} (o : outcome A) : no_output (lift o).
Proof. done. Qed.

Lemma no_output_deref (i : nat) : no_output (deref i).
Proof. intros w. unfold deref. by destruct (find_object i (objects w)). Qed.

Lemma no_output_update (i : nat) (f : object -> object) : no_output (update i f).
Proof. intros w. rewrite update_unfold. by destruct (find_object i (objects w)). Qed.

Lemma no_output_get_world : no_output get_world.
Proof. done. Qed.

Lemma no_output_try_except {A} (body : M A) (handler : exn -> M A) :
  no_output body -> (forall e, no_output (handler e)) ->
  no_output (try_except body handler).
Proof.
  intros Hb Hh w. rewrite try_except_unfold. specialize (Hb w).
  destruct (body w) as [[a|e] w']; simpl in *; [done|].
  by rewrite Hh.
Qed.

Lemma no_output_for_each {A} (l : list A) (body : A -> M unit) :
  (forall x, no_output (body x)) -> no_output (for_each l body).
Proof.
  intros Hb. induction l as [|x l IH]; [apply no_output_ret|].
  cbn [for_each]. apply no_output_bind; [apply Hb | by intros _].
Qed.

Lemma no_output_import_fbx (h : host) (filepath : string) (use_anim : bool) :
  no_output (import_fbx h filepath use_anim).
Proof.
  unfold import_fbx. apply no_output_bind; [by apply no_output_emit|]. intros _.
  apply no_output_bind; [apply no_output_lift|]. intros l.
  by apply no_output_modify.
Qed.

(** ** scripts/bpy/export_farmers_from_blend.py writes nothing *)

Lemma blend_import_animations_quiet (h : host) (animations : list (string * string)) :
  no_output (ExportFarmersFromBlend.import_animations h animations).
Proof.
  apply no_output_for_each. intros [anim_name anim_path].
  apply no_output_bind; [apply no_output_print|]. intros _.
  apply no_output_try_except; [apply no_output_import_fbx|].
  intros e. apply no_output_print.
Qed.

Lemma blend_process_character_quiet (h : host) (char_key : string)
    (config : ExportFarmersFromBlend.config) :
  no_output (ExportFarmersFromBlend.process_character h char_key config).
Proof.
  unfold ExportFarmersFromBlend.process_character.
  apply no_output_bind; [apply no_output_print|]. intros _.
  apply no_output_bind; [by apply no_output_emit|]. intros _.
  apply no_output_bind; [apply no_output_lift|]. intros f.
  apply no_output_bind; [by apply no_output_modify|]. intros _.
  apply no_output_bind; [apply no_output_get_world|]. intros w.
  cbv zeta.
  destruct (_ <$> list_find _ (objects w)) as [mesh_obj|];
    [|apply no_output_print].
  destruct (ExportFarmersFromBlend.find_armature (objects w)) as [armature|];
    [|apply no_output_print].
  apply no_output_bind; [apply no_output_deref|]. intros m.
  apply no_output_bind; [apply no_output_deref|]. intros a.
  apply no_output_bind; [apply no_output_print|]. intros _.
  apply no_output_bind; [apply no_output_print|]. intros _.
  apply no_output_bind.
  { case_bool_decide; [by apply no_output_modify | apply no_output_ret]. }
  intros _. apply no_output_bind.
  { apply no_output_for_each. intros obj.
    destruct (_ && _); [by apply no_output_modify | apply no_output_ret]. }
  intros _. apply no_output_bind; [apply no_output_print|]. intros _.
  apply no_output_bind; [apply no_output_update|]. intros _.
  apply blend_import_animations_quiet.
Qed.

Lemma import_fbx_unfold (h : host) (filepath : string) (use_anim : bool) (w : world) :
  import_fbx h filepath use_anim w =
  match fbx_file h filepath use_anim with
  | Ok l => (Ok tt, add_imported l (emit (ImportFbx filepath use_anim) w))
  | Raise e => (Raise e, emit (ImportFbx filepath use_anim) w)
  end.
Proof. unfold import_fbx. mstep. by destruct (fbx_file h filepath use_anim). Qed.

(** the clip loop of the .blend script only adds what the importer
    creates: it never raises and every object already in the scene stays
    as it is *)
Lemma blend_import_animations_run (h : host) (animations : list (string * string))
    (w : world) :
  exists w' extra,
    ExportFarmersFromBlend.import_animations h animations w = (Ok tt, w') /\
    objects w' = objects w ++ extra.
Proof.
  unfold ExportFarmersFromBlend.import_animations.
  revert w. induction animations as [|[anim_name anim_path] animations IH]; intros w.
  - exists w, []. by rewrite app_nil_r.
  - cbn [for_each]. mstep. rewrite try_except_unfold, import_fbx_unfold.
    destruct (fbx_file h anim_path true) as [l|e]; mstep.
    + match goal with |- context [for_each _ _ ?w0] =>
        destruct (IH w0) as (w' & extra & E & Ho)
      end.
      rewrite E. eexists w', _. split; [done|].
      rewrite Ho. simpl. by rewrite <- app_assoc.
    + match goal with |- context [for_each _ _ ?w0] =>
        destruct (IH w0) as (w' & extra & E & Ho)
      end.
      rewrite E. by eexists w', _.
Qed.

(** C9: run as a batch entry point, export_farmers_from_blend.py processes
    no character and writes nothing: its module body leaves the host
    untouched.  Were [process_character] called, on any host, character and
    scene, it would still write no output, whether it returns or raises; and
    its clip loop only imports: it never raises and it leaves every object
    that was in the scene as it was, the imported clips being added beside
    them and attached to nothing. *)
Theorem from_blend_exports_nothing :
  (forall w : world, ExportFarmersFromBlend.main w = (Ok tt, w)) /\
  (forall (h : host) (char_key : string) (config : ExportFarmersFromBlend.config)
          (w : world),
     outputs (trace (ExportFarmersFromBlend.process_character h char_key config w).2)
     = outputs (trace w)) /\
  (forall (h : host) (animations : list (string * string)) (w : world),
     exists w' extra,
       ExportFarmersFromBlend.import_animations h animations w = (Ok tt, w') /\
       objects w' = objects w ++ extra /\
       outputs (trace w') = outputs (trace w)).
Proof.
  split_and!.
  - done.
  - intros h char_key config. apply blend_process_character_quiet.
  - intros h animations w.
    destruct (blend_import_animations_run h animations w) as (w' & extra & E & Ho).
    exists w', extra. split_and!; try done.
    pose proof (blend_import_animations_quiet h animations w) as Hq.
    by rewrite E in Hq.
Qed.

(** ** Looking objects up *)

Lemma find_object_cons (i : nat) (o : object) (l : list object) :
  find_object i (o :: l) = if decide (oid o = i) then Some o else find_object i l.
Proof.
  unfold find_object. cbn [list_find]. case_decide; [done|].
  by destruct (list_find _ l) as [[k x]|].
Qed.

Lemma find_object_app_l (i : nat) (l l' : list object) (o : object) :
  find_object i l = Some o -> find_object i (l ++ l') = Some o.
Proof.
  induction l as [|x l IH]; [done|]. cbn [app]. rewrite !find_object_cons.
  case_decide; auto.
Qed.

Lemma find_object_alter_eq (f : object -> object) (i : nat) (l : list object) :
  (forall o, oid (f o) = oid o) ->
  find_object i (alter_object f i l) = f <$> find_object i l.
Proof.
  intros Hf. induction l as [|x l IH]; [done|].
  cbn [alter_object fmap list_fmap]. rewrite !find_object_cons.
  destruct (decide (oid x = i)) as [E|E].
  - by rewrite Hf, decide_True.
  - rewrite decide_False by done. exact IH.
Qed.

Lemma find_object_alter_ne (f : object -> object) (i j : nat) (l : list object) :
  (forall o, oid (f o) = oid o) -> j <> i ->
  find_object j (alter_object f i l) = find_object j l.
Proof.
  intros Hf Hij. induction l as [|x l IH]; [done|].
  cbn [alter_object fmap list_fmap]. rewrite !find_object_cons.
  destruct (decide (oid x = i)) as [E|E].
  - rewrite Hf. rewrite !decide_False by congruence. exact IH.
  - case_decide; [done|exact IH].
Qed.

Lemma find_object_filter (i n : nat) (l : list object) :
  i <> n -> find_object i (filter (fun o => oid o <> n) l) = find_object i l.
Proof.
  intros Hin. induction l as [|x l IH]; [done|].
  rewrite filter_cons, find_object_cons. case_decide.
  - rewrite find_object_cons. case_decide; [done|exact IH].
  - rewrite decide_False; [exact IH|]. intros E. by destruct (decide (oid x = n)); congruence.
Qed.

Lemma find_object_fmap (g : object -> object) (i : nat) (l : list object) :
  (forall o, oid (g o) = oid o) ->
  find_object i (g <$> l) = g <$> find_object i l.
Proof.
  intros Hg. induction l as [|x l IH]; [done|].
  cbn [fmap list_fmap]. rewrite !find_object_cons, Hg.
  case_decide; [done|exact IH].
Qed.

(** ** Finding the rig after the import *)

#[global] Instance named_mesh_dec nm o : Decision (named_mesh nm o).
Proof. unfold named_mesh. apply _. Defined.

Lemma find_rig_snoc (nm : string) (l : list object) (o : object) :
  ExportFarmerModels.find_rig nm (l ++ [o]) =
  let '(armature, mesh_obj) := ExportFarmerModels.find_rig nm l in
  if bool_decide (type o = ARMATURE) then (Some (oid o), mesh_obj)
  else if bool_decide (type o = MESH) && str_in nm (name o)
       then (armature, Some (oid o))
       else (armature, mesh_obj).
Proof.
  unfold ExportFarmerModels.find_rig. rewrite foldl_app. cbn [foldl].
  by destruct (foldl _ _ l).
Qed.

(** each component of [find_rig] is an object of its kind, or there is none *)
Lemma find_rig_spec (nm : string) (l : list object) :
  match (ExportFarmerModels.find_rig nm l).1 with
  | Some a => exists o, o ∈ l /\ oid o = a /\ type o = ARMATURE
  | None => Forall (fun o => type o <> ARMATURE) l
  end /\
  match (ExportFarmerModels.find_rig nm l).2 with
  | Some m => exists o, o ∈ l /\ oid o = m /\ named_mesh nm o
  | None => Forall (fun o => ~ named_mesh nm o) l
  end.
Proof.
  induction l as [|o l IH] using rev_ind; [split; constructor|].
  rewrite find_rig_snoc.
  destruct (ExportFarmerModels.find_rig nm l) as [a m]. simpl in IH.
  destruct IH as [IHa IHm].
  assert (Hkeep_a : match a with
                    | Some a => exists o', o' ∈ l ++ [o] /\ oid o' = a /\ type o' = ARMATURE
                    | None => Forall (fun o => type o <> ARMATURE) l
                    end).
  { destruct a; [|done]. destruct IHa as (o' & ? & ? & ?).
    exists o'. split; [|done]. apply elem_of_app. by left. }
  assert (Hkeep_m : match m with
                    | Some m => exists o', o' ∈ l ++ [o] /\ oid o' = m /\ named_mesh nm o'
                    | None => Forall (fun o => ~ named_mesh nm o) l
                    end).
  { destruct m; [|done]. destruct IHm as (o' & ? & ? & ?).
    exists o'. split; [|done]. apply elem_of_app. by left. }
  assert (Hlast : o ∈ l ++ [o]).
  { apply elem_of_app. right. apply list_elem_of_here. }
  case_bool_decide as Ha; simpl.
  - split; [by exists o|].
    destruct m; [done|]. apply Forall_app. split; [done|].
    constructor; [|constructor]. intros [Hm _]. congruence.
  - destruct (bool_decide (type o = MESH) && str_in nm (name o)) eqn:Hm; simpl.
    + apply andb_true_iff in Hm as [Hm1 Hm2]. apply bool_decide_eq_true in Hm1.
      split; [|by exists o].
      destruct a; [done|]. apply Forall_app. split; [done|]. by repeat constructor.
    + split.
      * destruct a; [done|]. apply Forall_app. split; [done|]. by repeat constructor.
      * destruct m; [done|]. apply Forall_app. split; [done|].
        constructor; [|constructor]. intros [Hm1 Hm2].
        apply andb_false_iff in Hm as [Hm|Hm]; [|congruence].
        by apply bool_decide_eq_false in Hm.
Qed.

Lemma instantiate_names (base : nat) (l : list object) :
  name <$> instantiate base l = name <$> l.
Proof.
  apply list_eq. intros k. rewrite !list_lookup_fmap, instantiate_lookup.
  by destruct (l !! k).
Qed.

(** a property of type and name holds in the file iff it holds in the scene *)
Lemma instantiate_exists (P : obj_type -> string -> Prop) (base : nat) (l : list object) :
  Exists (fun o => P (type o) (name o)) l ->
  Exists (fun o => P (type o) (name o)) (instantiate base l).
Proof.
  rewrite !Exists_exists. intros (o & Ho & HP).
  apply list_elem_of_lookup in Ho as [k Hk].
  eexists. split.
  - apply list_elem_of_lookup. exists k. rewrite instantiate_lookup, Hk. done.
  - done.
Qed.

Lemma instantiate_forall (P : obj_type -> string -> Prop) (base : nat) (l : list object) :
  Forall (fun o => P (type o) (name o)) l ->
  Forall (fun o => P (type o) (name o)) (instantiate base l).
Proof.
  rewrite !Forall_forall. intros H o Ho.
  apply list_elem_of_lookup in Ho as [k Hk]. rewrite instantiate_lookup in Hk.
  destruct (l !! k) as [o'|] eqn:E; [|done]. injection Hk as <-. simpl.
  apply (H o'). by eapply list_elem_of_lookup_2.
Qed.

(** ** Preparing the rig *)

#[global] Instance kept_rel : ObjRel kept.
Proof.
  split.
  - by intros o.
  - intros o1 o2 o3 (? & ? & ? & ?) (? & ? & ? & ?). unfold kept.
    split_and!; congruence.
  - by intros o o' (? & _).
Qed.

Lemma Forall2_refl_rel R `{!ObjRel R} (l : list object) : Forall2 R l l.
Proof. induction l; constructor; [apply objrel_refl | done]. Qed.

Lemma prepared_refl (w : world) : prepared w w.
Proof.
  split_and!; [apply (Forall2_refl_rel kept) | done |].
  exists []. by rewrite app_nil_r.
Qed.

Lemma prepared_trans (w1 w2 w3 : world) :
  prepared w1 w2 -> prepared w2 w3 -> prepared w1 w3.
Proof.
  intros (F1 & N1 & ps1 & T1) (F2 & N2 & ps2 & T2). split_and!.
  - eapply Forall2_trans; [|exact F1|exact F2]. apply objrel_trans.
  - congruence.
  - exists (ps1 ++ ps2). by rewrite T2, T1, fmap_app, app_assoc.
Qed.

Lemma prepared_oids (w w' : world) :
  prepared w w' -> oid <$> objects w' = oid <$> objects w.
Proof.
  intros (F & _). induction F as [|o o' l l' Hoo' F IH]; [done|].
  cbn. f_equal; [by apply objrel_oid in Hoo' | done].
Qed.

Lemma prepared_alive (w w' : world) (i : nat) :
  prepared w w' -> alive i (objects w) -> alive i (objects w').
Proof. intros F. unfold alive. by rewrite (prepared_oids w w' F). Qed.

Lemma prepared_wf (w w' : world) : prepared w w' -> wf w -> wf w'.
Proof.
  intros F Hw. pose proof (prepared_oids _ _ F) as Ho.
  destruct F as (_ & N & _). unfold wf in *. rewrite N.
  apply Forall_forall. intros o' Ho'.
  apply (list_elem_of_fmap_2 oid) in Ho'. rewrite Ho in Ho'.
  apply list_elem_of_fmap in Ho' as (o & -> & Hin).
  by apply (proj1 (Forall_forall _ _) Hw).
Qed.

Lemma prepared_print (s : string) (w : world) : prepared w (emit (Print s) w).
Proof.
  split_and!; [apply (Forall2_refl_rel kept) | done |]. by exists [s].
Qed.

Lemma update_prepared (i : nat) (f : object -> object) (w : world) :
  (forall o, kept o (f o)) -> alive i (objects w) ->
  exists w', update i f w = (Ok tt, w') /\ prepared w w'.
Proof.
  intros Hf Hi. rewrite (update_alive i f w Hi). eexists. split; [done|].
  split_and!; [by apply (alter_object_rel kept) | done |].
  exists []. simpl. by rewrite app_nil_r.
Qed.

(** a loop whose body stays inside a transitive relation on scenes *)
Lemma for_each_rel {A} (Rw : world -> world -> Prop) (P : A -> world -> Prop)
    (body : A -> M unit) (l : list A) (w : world) :
  (forall w, Rw w w) ->
  (forall w1 w2 w3, Rw w1 w2 -> Rw w2 w3 -> Rw w1 w3) ->
  (forall x w w', P x w -> Rw w w' -> P x w') ->
  (forall x w, P x w -> exists w', body x w = (Ok tt, w') /\ Rw w w') ->
  Forall (fun x => P x w) l ->
  exists w', for_each l body w = (Ok tt, w') /\ Rw w w'.
Proof.
  intros Hrefl Htrans HP Hbody. revert w. induction l as [|x l IH]; intros w Hl.
  - exists w. by split.
  - inversion Hl as [|? ? Hx Hl']; subst.
    destruct (Hbody x w Hx) as (w1 & E1 & F1).
    destruct (IH w1) as (w2 & E2 & F2).
    { eapply Forall_impl; [exact Hl'|]. intros y Hy. exact (HP y w w1 Hy F1). }
    exists w2. split; [|by eapply Htrans].
    cbn [for_each]. rewrite bind_unfold, E1. exact E2.
Qed.

Lemma kept_set_location (l : vec pyfloat) (o : object) : kept o (set_location l o).
Proof. done. Qed.

Lemma kept_on_mesh (f : mesh -> mesh) (o : object) :
  kept o (ExportFarmerModels.on_mesh f o).
Proof.
  unfold ExportFarmerModels.on_mesh, kept, type, tracks_of.
  destruct (data o) eqn:E; simpl; rewrite ?E; done.
Qed.

Lemma kept_ensure (o : object) : kept o (ensure_animation_data o).
Proof.
  unfold ensure_animation_data, kept, tracks_of, type.
  destruct (animation_data o) eqn:E; simpl; rewrite ?E; done.
Qed.

Lemma transform_apply_prepared (w : world) :
  prepared w (ExportFarmerModels.transform_apply w).
Proof.
  split_and!; [|done|exists []; simpl; by rewrite app_nil_r].
  simpl. apply Forall2_fmap_r. apply Forall2_same_length_lookup_2; [done|].
  intros k o o' H1 H2. rewrite H1 in H2. injection H2 as <-.
  unfold compose. by case_bool_decide.
Qed.

Lemma setup_material_prepared (k : nat) (mat : material) (mesh_obj : nat) (w : world) :
  alive mesh_obj (objects w) ->
  exists w', ExportFarmerModels.setup_material_vertex_color k mat mesh_obj w
               = (Ok tt, w') /\ prepared w w'.
Proof.
  intros Ha. unfold ExportFarmerModels.setup_material_vertex_color. mstep.
  match goal with |- context [update _ ?f ?w0] =>
    destruct (update_prepared mesh_obj f w0) as (w' & E & F)
  end.
  { intros o. apply kept_on_mesh. }
  { done. }
  rewrite E. exists w'. split; [done|].
  eapply prepared_trans; [apply prepared_print | exact F].
Qed.

Lemma prepare_rig_run (armature mesh_obj : nat) (w : world) :
  alive armature (objects w) -> alive mesh_obj (objects w) ->
  exists w',
    ExportFarmerModels.prepare_rig armature mesh_obj w = (Ok tt, w') /\
    prepared w w' /\
    (forall ao, find_object armature (objects w') = Some ao ->
                is_Some (animation_data ao)).
Proof.
  intros Ha Hm. unfold ExportFarmerModels.prepare_rig.
  destruct (update_prepared armature (set_location (vrepeat (Fin 0))) w)
    as (w1 & E1 & F1); [done|done|].
  rewrite bind_unfold, E1. mstep.
  set (w2 := ExportFarmerModels.transform_apply (set_active (Some armature) w1)).
  assert (F2 : prepared w w2).
  { eapply prepared_trans; [exact F1|].
    exact (transform_apply_prepared (set_active (Some armature) w1)). }
  destruct (update_prepared mesh_obj
              (ExportFarmerModels.on_mesh ExportFarmerModels.rename_first_layer) w2)
    as (w3 & E3 & F3).
  { intros o. apply kept_on_mesh. }
  { by eapply prepared_alive. }
  rewrite E3. mstep.
  assert (F3' : prepared w (emit (Print "  Processing Materials...") w3)).
  { eapply prepared_trans; [exact F2|]. eapply prepared_trans; [exact F3|].
    apply prepared_print. }
  set (w4 := emit (Print "  Processing Materials...") w3) in *.
  assert (Hm4 : alive mesh_obj (objects w4)) by (by eapply prepared_alive).
  unfold deref at 1. destruct (proj1 (find_object_alive _ _) Hm4) as [mo Hmo].
  rewrite Hmo. cbv beta iota.
  rewrite bind_unfold.
  destruct (for_each_rel prepared (fun _ w => alive mesh_obj (objects w))
              (fun '(k, mat) =>
                 ExportFarmerModels.setup_material_vertex_color k mat mesh_obj)
              (imap (fun k mat => (k, mat)) (ExportFarmerModels.mesh_materials mo)) w4)
    as (w5 & E5 & F5).
  { apply prepared_refl. }
  { apply prepared_trans. }
  { intros ? ? ? ? ?. by eapply prepared_alive. }
  { intros [k mat] w0 Hw0. by apply setup_material_prepared. }
  { apply Forall_forall. by intros. }
  rewrite E5. mstep.
  set (w6 := emit (Print "  Importing Animations...") w5).
  assert (F6 : prepared w w6).
  { eapply prepared_trans; [exact F3'|]. eapply prepared_trans; [exact F5|].
    apply prepared_print. }
  assert (Ha6 : alive armature (objects w6)) by (by eapply prepared_alive).
  rewrite (update_alive _ _ _ Ha6). eexists. split; [done|]. split.
  - eapply prepared_trans; [exact F6|].
    split_and!; [|done|exists []; simpl; by rewrite app_nil_r].
    simpl. apply (alter_object_rel kept). apply kept_ensure.
  - intros ao. simpl. rewrite find_object_alter_eq.
    + destruct (find_object armature (objects w5)) as [ao5|]; [|done].
      intros [= <-]. unfold ensure_animation_data.
      by destruct (animation_data ao5) eqn:E; [rewrite E|].
    + intros o. apply kept_ensure.
Qed.

(** ** Importing the clips *)

Lemma rigged_not_mesh (a m : nat) (ts : list nla_track) (nm : string) (w : world) :
  rigged a ts w -> holds_mesh m nm w -> a <> m.
Proof.
  intros (_ & ao & Ha & Hta & _) (mo & Hm & Htm & _) ->.
  rewrite Ha in Hm. injection Hm as ->. congruence.
Qed.

Lemma found_lt (i : nat) (o : object) (w : world) :
  wf w -> find_object i (objects w) = Some o -> i < next_oid w.
Proof.
  intros Hw Ho. apply alive_lt; [done|]. apply find_object_alive. by eexists.
Qed.

Lemma wf_filter (P : object -> Prop) `{!forall o, Decision (P o)}
    (l : list object) (n : nat) :
  Forall (fun o => oid o < n) l -> Forall (fun o => oid o < n) (filter P l).
Proof.
  intros Hl. apply Forall_forall. intros o Ho.
  apply list_elem_of_filter in Ho as [_ Ho].
  by apply (proj1 (Forall_forall _ _) Hl).
Qed.

Lemma add_track_tracks (nm : string) (act : action) (o : object) :
  is_Some (animation_data o) ->
  type (ExportFarmerModels.add_track nm act o) = type o /\
  is_Some (animation_data (ExportFarmerModels.add_track nm act o)) /\
  tracks_of (ExportFarmerModels.add_track nm act o) =
    tracks_of o ++ [NlaTrack nm [NlaStrip nm (py_int (frame_range act).1) act]].
Proof.
  intros [ad Had]. unfold ExportFarmerModels.add_track, tracks_of, type.
  rewrite Had. simpl. by split_and!.
Qed.

Lemma add_track_oid (nm : string) (act : action) (o : object) :
  oid (ExportFarmerModels.add_track nm act o) = oid o.
Proof. unfold ExportFarmerModels.add_track. by destruct (animation_data o). Qed.

(** one clip: whatever the importer does, the loop goes on, the mesh stays,
    and the rig gains the clip's track when the file brought an action *)
Lemma clip_step (h : host) (a m : nat) (nm : string) (ts : list nla_track)
    (c : string * string) (w : world) :
  rigged a ts w -> holds_mesh m nm w ->
  exists w',
    (print ("    - " +:+ c.1 +:+ "...");;
     try_except (ExportFarmerModels.import_animation h a c.1 c.2)
       (fun e => print ("    - ERROR: " +:+ exn_str e))) w = (Ok tt, w') /\
    rigged a (ts ++ option_list (clip_track h c)) w' /\
    holds_mesh m nm w' /\
    trace w' = trace w ++ clip_events h c.
Proof.
  intros Hr Hm. pose proof (rigged_not_mesh _ _ _ _ _ Hr Hm) as Ham.
  destruct Hr as (Hw & ao & Hao & Hta & Hsa & Hts).
  destruct Hm as (mo & Hmo & Hnm).
  pose proof (found_lt _ _ _ Hw Hao) as Halt.
  pose proof (found_lt _ _ _ Hw Hmo) as Hmlt.
  destruct c as [anim_name anim_path]. cbn [fst snd].
  unfold clip_events, clip_track, clip_error, clip_action. cbn [fst snd].
  mstep. rewrite try_except_unfold.
  unfold ExportFarmerModels.import_animation.
  rewrite bind_unfold, import_fbx_unfold.
  set (w0 := emit (ImportFbx anim_path true)
               (emit (Print ("    - " +:+ anim_name +:+ "...")) w)).
  assert (Hw0 : wf w0) by done.
  destruct (fbx_file h anim_path true) as [l|e].
  2:{ mstep. eexists. split; [reflexivity|]. simpl. rewrite app_nil_r.
      split_and!.
      - split; [done|]. by exists ao.
      - by exists mo.
      - by rewrite <- !app_assoc. }
  mstep. rewrite selected_after_import by done.
  assert (Hw1 : wf (add_imported l w0)) by (by apply wf_add_imported).
  assert (Hao1 : find_object a (objects (add_imported l w0)) = Some ao).
  { simpl. by apply find_object_app_l. }
  assert (Hmo1 : find_object m (objects (add_imported l w0)) = Some mo).
  { simpl. by apply find_object_app_l. }
  assert (Hn0 : next_oid w0 = next_oid w) by done.
  destruct l as [|o rest].
  { cbn [instantiate imap]. unfold raise. mstep.
    eexists. split; [reflexivity|].
    split_and!.
    - split; [done|]. exists ao. split; [exact Hao1|].
      split_and!; [done|done|]. simpl. by rewrite app_nil_r.
    - exists mo. by split.
    - simpl. by rewrite <- !app_assoc. }
  cbn [instantiate imap]. cbn [animation_data set_oid oid].
  destruct (animation_data o) as [[[act|] ts']|] eqn:Hact.
  - (* the file brought an action *)
    rewrite bind_unfold, update_alive.
    2:{ apply find_object_alive. by eexists. }
    mstep. eexists. split; [reflexivity|].
    destruct (add_track_tracks anim_name (Action anim_name (frame_range act)) ao Hsa)
      as (Ht1 & Ht2 & Ht3).
    split_and!.
    + split.
      * unfold wf. simpl. apply wf_filter.
        unfold alter_object. apply Forall_fmap. unfold compose.
        eapply Forall_impl; [exact Hw1|]. intros x Hx. simpl in Hx.
        case_decide; [by rewrite add_track_oid|done].
      * eexists. simpl. rewrite Nat.add_0_r, find_object_filter by lia.
        rewrite find_object_alter_eq by apply add_track_oid.
        simpl in Hao1. rewrite Hao1. split; [reflexivity|].
        split_and!; [congruence|done|]. by rewrite Ht3, Hts.
    + exists mo. simpl. rewrite Nat.add_0_r, find_object_filter by lia.
      rewrite find_object_alter_ne; [|apply add_track_oid|done].
      by split.
    + simpl. rewrite ?app_nil_r. by rewrite <- !app_assoc.
  - (* animation data without an action *)
    mstep. eexists. split; [reflexivity|]. simpl. rewrite ?app_nil_r.
    split_and!.
    + split; [unfold wf; simpl; by apply wf_filter|].
      exists ao. simpl. rewrite Nat.add_0_r, find_object_filter by lia. by split_and!.
    + exists mo. simpl. rewrite Nat.add_0_r, find_object_filter by lia. by split.
    + by rewrite <- !app_assoc.
  - (* no animation data *)
    mstep. eexists. split; [reflexivity|]. simpl. rewrite ?app_nil_r.
    split_and!.
    + split; [unfold wf; simpl; by apply wf_filter|].
      exists ao. simpl. rewrite Nat.add_0_r, find_object_filter by lia. by split_and!.
    + exists mo. simpl. rewrite Nat.add_0_r, find_object_filter by lia. by split.
    + by rewrite <- !app_assoc.
Qed.

Lemma import_animations_run (h : host) (a m : nat) (nm : string)
    (animations : list (string * string)) (ts : list nla_track) (w : world) :
  rigged a ts w -> holds_mesh m nm w ->
  exists w',
    ExportFarmerModels.import_animations h a animations w = (Ok tt, w') /\
    rigged a (ts ++ imported_tracks h animations) w' /\
    holds_mesh m nm w' /\
    trace w' = trace w ++ (animations ≫= clip_events h).
Proof.
  unfold ExportFarmerModels.import_animations.
  revert ts w. induction animations as [|c animations IH]; intros ts w Hr Hm.
  - exists w. cbn. rewrite !app_nil_r. by split_and!.
  - destruct (clip_step h a m nm ts c w Hr Hm) as (w1 & E1 & Hr1 & Hm1 & T1).
    destruct (IH _ w1 Hr1 Hm1) as (w2 & E2 & Hr2 & Hm2 & T2).
    exists w2. split_and!.
    + cbn [for_each]. destruct c as [anim_name anim_path].
      rewrite bind_unfold. cbn [fst snd] in E1. rewrite E1. exact E2.
    + unfold imported_tracks. cbn [omap list_omap].
      rewrite <- app_assoc in Hr2.
      by destruct (clip_track h c).
    + done.
    + rewrite T2, T1. cbn. by rewrite <- app_assoc.
Qed.

(** ** Exporting *)

Lemma found_selected (i : nat) (o : object) (w : world) :
  find_object i (objects w) = Some o -> i ∈ selected w -> o ∈ selected_objects w.
Proof.
  intros Ho Hi. apply find_object_oid in Ho as [<- Hin].
  unfold selected_objects. by apply list_elem_of_filter.
Qed.

Lemma select_set_fields (i : nat) (w : world) :
  trace (select_set i w) = trace w /\ objects (select_set i w) = objects w /\
  i ∈ selected (select_set i w) /\
  (forall j, j ∈ selected w -> j ∈ selected (select_set i w)).
Proof.
  unfold select_set. case_bool_decide; simpl; split_and!; try done.
  - apply elem_of_app. right. apply list_elem_of_here.
  - intros j Hj. apply elem_of_app. by left.
Qed.

Lemma export_character_run (char_key : string) (a m : nat) (nm : string)
    (ts : list nla_track) (w : world) :
  rigged a ts w -> holds_mesh m nm w ->
  exists w' exported ao mo,
    ExportFarmerModels.export_character char_key a m w = (Ok tt, w') /\
    trace w' = trace w ++
      [Print ("  Exporting to " +:+
              os_path_join ExportFarmerModels.OUTPUT_DIR (char_key +:+ ".glb"));
       ExportGltf (os_path_join ExportFarmerModels.OUTPUT_DIR (char_key +:+ ".glb"))
                  exported;
       Print "  Done."] /\
    ao ∈ exported /\ type ao = ARMATURE /\ tracks_of ao = ts /\
    mo ∈ exported /\ named_mesh nm mo.
Proof.
  intros (Hw & ao & Hao & Hta & _ & Hts) (mo & Hmo & Hnm).
  unfold ExportFarmerModels.export_character, export_selection. cbv zeta. mstep.
  match goal with |- context [select_set a ?w0] => set (w1 := w0) end.
  eexists _, (selected_objects (select_set m (select_set a w1))), ao, mo.
  split; [reflexivity|].
  destruct (select_set_fields a w1) as (Ta & Oa & Sa & _).
  destruct (select_set_fields m (select_set a w1)) as (Tm & Om & Sm & Skeep).
  split_and!; try done.
  - cbn [trace emit]. rewrite Tm, Ta. simpl. by rewrite <- !app_assoc.
  - apply (found_selected a); [by rewrite Om, Oa | by apply Skeep].
  - apply (found_selected m); [by rewrite Om, Oa | done].
Qed.

(** ** A whole character *)

Lemma find_object_unique (o : object) (l : list object) :
  NoDup (oid <$> l) -> o ∈ l -> find_object (oid o) l = Some o.
Proof.
  induction l as [|x l IH]; intros Hnd Ho; [by apply elem_of_nil in Ho|].
  rewrite find_object_cons. cbn in Hnd. apply NoDup_cons in Hnd as [Hx Hnd].
  apply elem_of_cons in Ho as [-> | Ho]; [by rewrite decide_True|].
  rewrite decide_False; [by apply IH|].
  intros E. apply Hx. rewrite E. by apply list_elem_of_fmap_2.
Qed.

Lemma instantiate_tracks (base : nat) (l : list object) (o : object) :
  o ∈ instantiate base l ->
  exists o0, o0 ∈ l /\ type o0 = type o /\ name o0 = name o /\
             tracks_of o0 = tracks_of o /\ animation_data o0 = animation_data o.
Proof.
  intros Ho. apply list_elem_of_lookup in Ho as [k Hk].
  rewrite instantiate_lookup in Hk. destruct (l !! k) as [o0|] eqn:E; [|done].
  injection Hk as <-. exists o0. split; [by eapply list_elem_of_lookup_2|done].
Qed.

(** what the first import leaves: the scene is the file, and [find_rig]
    picks a rig and a mesh when the file has them *)
Lemma find_rig_found (nm : string) (base : nat) (l : list object) :
  has_armature l -> has_named_mesh nm l ->
  exists a m ao mo,
    ExportFarmerModels.find_rig nm (instantiate base l) = (Some a, Some m) /\
    find_object a (instantiate base l) = Some ao /\ type ao = ARMATURE /\
    find_object m (instantiate base l) = Some mo /\ named_mesh nm mo.
Proof.
  intros Ha Hm.
  apply (instantiate_exists (fun t _ => t = ARMATURE) base) in Ha.
  apply (instantiate_exists (fun t n => t = MESH /\ str_in nm n = true) base) in Hm.
  assert (Hnd : NoDup (oid <$> instantiate base l)).
  { rewrite instantiate_oids. apply NoDup_seq. }
  destruct (find_rig_spec nm (instantiate base l)) as [Sa Sm].
  destruct (ExportFarmerModels.find_rig nm (instantiate base l)) as [[a|] [m|]];
    simpl in Sa, Sm.
  - destruct Sa as (ao & Hao & <- & Hta). destruct Sm as (mo & Hmo & <- & Hnm).
    exists (oid ao), (oid mo), ao, mo.
    split_and!; try done; by apply find_object_unique.
  - exfalso. apply Exists_exists in Hm as (o & Ho & HP).
    by apply (proj1 (Forall_forall _ _) Sm o Ho).
  - exfalso. apply Exists_exists in Ha as (o & Ho & HP).
    by apply (proj1 (Forall_forall _ _) Sa o Ho).
  - exfalso. apply Exists_exists in Ha as (o & Ho & HP).
    by apply (proj1 (Forall_forall _ _) Sa o Ho).
Qed.

Lemma find_rig_missing (nm : string) (base : nat) (l : list object) :
  ~ has_armature l \/ ~ has_named_mesh nm l ->
  match ExportFarmerModels.find_rig nm (instantiate base l) with
  | (Some _, Some _) => False
  | _ => True
  end.
Proof.
  intros Hmiss.
  destruct (find_rig_spec nm (instantiate base l)) as [Sa Sm].
  destruct (ExportFarmerModels.find_rig nm (instantiate base l)) as [[a|] [m|]];
    simpl in Sa, Sm; try done.
  destruct Sa as (ao & Hao & _ & Hta). destruct Sm as (mo & Hmo & _ & Hnm).
  apply instantiate_tracks in Hao as (ao0 & Hin & Ht & _).
  apply instantiate_tracks in Hmo as (mo0 & Hin' & Ht' & Hn' & _).
  destruct Hmiss as [Hno|Hno]; apply Hno.
  - apply Exists_exists. exists ao0. split; [done|]. congruence.
  - apply Exists_exists. exists mo0. split; [done|].
    destruct Hnm as [Hn1 Hn2]. split; congruence.
Qed.

Lemma find_object_prepared (i : nat) (o : object) (w w' : world) :
  prepared w w' -> find_object i (objects w) = Some o ->
  exists o', find_object i (objects w') = Some o' /\ kept o o'.
Proof.
  intros (F & _). revert o. induction F as [|x x' l l' Hxx' F IH]; intros o; [done|].
  rewrite !find_object_cons. destruct Hxx' as (Hoid & Hrest).
  rewrite Hoid. case_decide.
  - intros [= <-]. exists x'. split; [done|]. by split.
  - apply IH.
Qed.

Lemma outputs_prints (ps : list string) : outputs (Print <$> ps) = [].
Proof. induction ps as [|p ps IH]; [done|]. exact IH. Qed.

Lemma outputs_clips (h : host) (animations : list (string * string)) :
  outputs (animations ≫= clip_events h) = [].
Proof.
  induction animations as [|c animations IH]; [done|].
  cbn [mbind list_bind]. rewrite outputs_app, IH, app_nil_r.
  unfold clip_events. by destruct (clip_error h c).
Qed.

Lemma process_character_run (h : host) (char_key : string)
    (config : ExportFarmerModels.config) (l : list object) (w : world) :
  fbx_file h (ExportFarmerModels.fbx config) false = Ok l ->
  has_armature l ->
  has_named_mesh (ExportFarmerModels.mesh_name config) l ->
  exists w' ps exported arm arm0 mesh,
    ExportFarmerModels.process_character h char_key config w = (Ok tt, w') /\
    trace w' = trace w ++
      [Print (nl +:+ "Processing " +:+ char_key +:+ "...");
       Print ("  Importing FBX: " +:+ ExportFarmerModels.fbx config);
       ImportFbx (ExportFarmerModels.fbx config) false] ++
      (Print <$> ps) ++
      (ExportFarmerModels.animations config ≫= clip_events h) ++
      [Print ("  Exporting to " +:+
              os_path_join ExportFarmerModels.OUTPUT_DIR (char_key +:+ ".glb"));
       ExportGltf (os_path_join ExportFarmerModels.OUTPUT_DIR (char_key +:+ ".glb"))
                  exported;
       Print "  Done."] /\
    arm ∈ exported /\ type arm = ARMATURE /\
    arm0 ∈ l /\ type arm0 = ARMATURE /\
    tracks_of arm =
      tracks_of arm0 ++ imported_tracks h (ExportFarmerModels.animations config) /\
    mesh ∈ exported /\ named_mesh (ExportFarmerModels.mesh_name config) mesh.
Proof.
  intros Hl Ha Hm. unfold ExportFarmerModels.process_character.
  mstep. rewrite import_fbx_unfold. rewrite Hl. mstep.
  set (w0 := emit (ImportFbx _ false) _).
  assert (Hw0 : wf w0) by constructor.
  assert (Ho1 : objects (add_imported l w0) = instantiate (next_oid w0) l) by done.
  assert (Hw1 : wf (add_imported l w0)) by (by apply wf_add_imported).
  rewrite Ho1.
  destruct (find_rig_found (ExportFarmerModels.mesh_name config) (next_oid w0) l Ha Hm)
    as (a & m & ao & mo & Hfind & Hao & Hta & Hmo & Hnm).
  rewrite Hfind. rewrite <- Ho1 in Hao, Hmo.
  destruct (prepare_rig_run a m (add_imported l w0)) as (w2 & E2 & F2 & Hanim).
  { apply find_object_alive. by eexists. }
  { apply find_object_alive. by eexists. }
  rewrite bind_unfold, E2. cbv beta iota.
  destruct (find_object_prepared a ao _ _ F2 Hao) as (ao2 & Hao2 & _ & Kt & _ & Ktr).
  destruct (find_object_prepared m mo _ _ F2 Hmo) as (mo2 & Hmo2 & _ & Kt' & Kn' & _).
  assert (Hr2 : rigged a (tracks_of ao) w2).
  { split; [by eapply prepared_wf|]. exists ao2.
    split_and!; [done|congruence|by apply Hanim|done]. }
  assert (Hm2 : holds_mesh m (ExportFarmerModels.mesh_name config) w2).
  { exists mo2. split; [done|]. destruct Hnm. split; congruence. }
  destruct (import_animations_run h a m _ (ExportFarmerModels.animations config)
              _ w2 Hr2 Hm2) as (w3 & E3 & Hr3 & Hm3 & T3).
  rewrite bind_unfold, E3. cbv beta iota.
  destruct (export_character_run char_key a m _ _ w3 Hr3 Hm3)
    as (w4 & exported & arm & mesh & E4 & T4 & Harm & Htarm & Htr & Hmesh & Hnmesh).
  rewrite Ho1 in Hao.
  apply find_object_oid in Hao as [_ Hin].
  apply instantiate_tracks in Hin as (arm0 & Hin0 & Ht0 & _ & Htr0 & _).
  destruct F2 as (_ & _ & ps & T2).
  exists w4, ps, exported, arm, arm0, mesh.
  split_and!; try done.
  - rewrite T4, T3, T2. simpl. by rewrite <- !app_assoc.
  - congruence.
  - congruence.
Qed.

(** ** A character with one clip that cannot be read *)

(** C4, amended: when the character's model imports with a rig and its
    mesh, an exception raised in the try block of a clip, by the importer
    or by indexing an empty selection, is caught there: the loop goes on to
    every later clip, [process_character] returns normally, the error is
    printed, and exactly one export follows the loop.  The exported
    armature carries, after the tracks it came with, one track per clip
    whose first imported object carries an action, in clip order; a clip
    whose file opens but whose first object carries no action adds no
    track and prints no error. *)
Theorem clip_failure_is_isolated (h : host) (char_key : string)
    (config : ExportFarmerModels.config) (l : list object) (w : world) :
  fbx_file h (ExportFarmerModels.fbx config) false = Ok l ->
  has_armature l ->
  has_named_mesh (ExportFarmerModels.mesh_name config) l ->
  exists w' ps exported arm arm0 mesh,
    ExportFarmerModels.process_character h char_key config w = (Ok tt, w') /\
    trace w' = trace w ++
      [Print (nl +:+ "Processing " +:+ char_key +:+ "...");
       Print ("  Importing FBX: " +:+ ExportFarmerModels.fbx config);
       ImportFbx (ExportFarmerModels.fbx config) false] ++
      (Print <$> ps) ++
      (ExportFarmerModels.animations config ≫= clip_events h) ++
      [Print ("  Exporting to " +:+
              os_path_join ExportFarmerModels.OUTPUT_DIR (char_key +:+ ".glb"));
       ExportGltf (os_path_join ExportFarmerModels.OUTPUT_DIR (char_key +:+ ".glb"))
                  exported;
       Print "  Done."] /\
    outputs (trace w') = outputs (trace w) ++
      [ExportGltf (os_path_join ExportFarmerModels.OUTPUT_DIR (char_key +:+ ".glb"))
                  exported] /\
    arm ∈ exported /\ type arm = ARMATURE /\
    arm0 ∈ l /\ type arm0 = ARMATURE /\
    tracks_of arm =
      tracks_of arm0 ++ imported_tracks h (ExportFarmerModels.animations config) /\
    mesh ∈ exported /\ named_mesh (ExportFarmerModels.mesh_name config) mesh.
Proof.
  intros Hl Ha Hm.
  destruct (process_character_run h char_key config l w Hl Ha Hm)
    as (w' & ps & exported & arm & arm0 & mesh & E & T & Hrest).
  exists w', ps, exported, arm, arm0, mesh.
  split; [exact E|]. split; [exact T|]. split; [|exact Hrest].
  rewrite T, !outputs_app, outputs_prints, outputs_clips. done.
Qed.

(** two clips, the second with an invalid path: the export holds the
    track of the first *)
Lemma clip_failure_is_isolated_witness :
  fbx_file clip_host (ExportFarmerModels.fbx george) false
    = Ok [sample_armature "Armature" None; sample_mesh "Farmer_George" [Vec 0 0 0]%Q] /\
  has_armature [sample_armature "Armature" None;
                sample_mesh "Farmer_George" [Vec 0 0 0]%Q] /\
  has_named_mesh "Farmer_George"
    [sample_armature "Armature" None; sample_mesh "Farmer_George" [Vec 0 0 0]%Q] /\
  exists (w' : world) (exported : list object) (arm : object),
    ExportFarmerModels.process_character clip_host "john" george initial_world
      = (Ok tt, w') /\
    length (outputs (trace w')) = 1 /\
    Print ("    - ERROR: Error: Couldn't open file /assets/Missing.fbx") ∈ trace w' /\
    arm ∈ exported /\ type arm = ARMATURE /\
    tracks_of arm =
      [NlaTrack "idle" [NlaStrip "idle" 1 (Action "idle" (1, 60)%Q)]].
Proof.
  assert (H1 : fbx_file clip_host (ExportFarmerModels.fbx george) false
    = Ok [sample_armature "Armature" None; sample_mesh "Farmer_George" [Vec 0 0 0]%Q])
    by reflexivity.
  assert (H2 : has_armature [sample_armature "Armature" None;
                sample_mesh "Farmer_George" [Vec 0 0 0]%Q]).
  { by apply Exists_cons_hd. }
  assert (H3 : has_named_mesh "Farmer_George"
    [sample_armature "Armature" None; sample_mesh "Farmer_George" [Vec 0 0 0]%Q]).
  { apply Exists_cons_tl, Exists_cons_hd. by split. }
  split_and!; try done.
  destruct (clip_failure_is_isolated clip_host "john" george _ initial_world H1 H2 H3)
    as (w' & ps & exported & arm & arm0 & mesh & E & T & Hout & Harm & Htarm
        & Hin0 & Ht0 & Htr & _).
  exists w', exported, arm. split; [exact E|]. split_and!; try done.
  - by rewrite Hout.
  - rewrite T. apply elem_of_app. right. do 3 apply list_elem_of_further.
    apply elem_of_app. right. apply elem_of_app. left.
    cbn. do 4 apply list_elem_of_further. apply list_elem_of_here.
  - rewrite Htr.
    assert (tracks_of arm0 = []) as ->.
    { apply elem_of_cons in Hin0 as [-> | Hin0]; [done|].
      apply elem_of_cons in Hin0 as [-> | Hin0]; [done|].
      by apply elem_of_nil in Hin0. }
    reflexivity.
Defined.

(** of george's two clips on this host, walk cannot be opened; idle opens
    without an exception, its first object is a prop without an action, and
    the one export holds no track *)
Lemma mesh_first_clip_dropped :
  clip_error mesh_first_clip_host ("walk", "/assets/Missing.fbx")
    = Some (RuntimeError "Error: Couldn't open file /assets/Missing.fbx") /\
  clip_error mesh_first_clip_host ("idle", "/assets/Idle.fbx") = None /\
  clip_action mesh_first_clip_host "/assets/Idle.fbx" = None /\
  length (outputs (trace (ExportFarmerModels.process_character mesh_first_clip_host
                            "john" george initial_world).2)) = 1 /\
  exported_track_names
    (trace (ExportFarmerModels.process_character mesh_first_clip_host
              "john" george initial_world).2) = [].
Proof. by vm_compute. Qed.

(** two clips, one with an invalid path: the other imports without an
    exception and the export does not include it *)
Lemma clip_claim_counterexample :
  ~ exports_every_imported_clip mesh_first_clip_host "john" george initial_world.
Proof.
  intros H.
  destruct mesh_first_clip_dropped as (Hwalk & Hidle & _ & _ & Hnames).
  assert (Hraise : exists c, c ∈ ExportFarmerModels.animations george /\
                             is_Some (clip_error mesh_first_clip_host c)).
  { exists ("walk", "/assets/Missing.fbx"). split.
    - apply list_elem_of_further, list_elem_of_here.
    - rewrite Hwalk. by eexists. }
  specialize (H Hraise ("idle", "/assets/Idle.fbx") (list_elem_of_here _ _) Hidle).
  rewrite Hnames in H. by apply elem_of_nil in H.
Qed.

(** ** Assets without the scene elements a script needs *)

Lemma process_character_missing (h : host) (char_key : string)
    (config : ExportFarmerModels.config) (l : list object) (w : world) :
  fbx_file h (ExportFarmerModels.fbx config) false = Ok l ->
  ~ has_armature l \/ ~ has_named_mesh (ExportFarmerModels.mesh_name config) l ->
  exists w',
    ExportFarmerModels.process_character h char_key config w = (Ok tt, w') /\
    trace w' = trace w ++
      [Print (nl +:+ "Processing " +:+ char_key +:+ "...");
       Print ("  Importing FBX: " +:+ ExportFarmerModels.fbx config);
       ImportFbx (ExportFarmerModels.fbx config) false;
       Print "  ERROR: Missing Armature or Mesh"].
Proof.
  intros Hl Hmiss. unfold ExportFarmerModels.process_character.
  mstep. rewrite import_fbx_unfold, Hl. mstep.
  set (w0 := emit (ImportFbx _ false) _).
  assert (Ho1 : objects (add_imported l w0) = instantiate (next_oid w0) l) by done.
  rewrite Ho1.
  pose proof (find_rig_missing (ExportFarmerModels.mesh_name config)
                (next_oid w0) l Hmiss) as Hnone.
  destruct (ExportFarmerModels.find_rig _ (instantiate (next_oid w0) l))
    as [[a|] [m|]]; [done| | |];
    mstep; (eexists; split; [reflexivity|]); simpl; by rewrite <- !app_assoc.
Qed.

Lemma meshes_of_nil (l : list object) : meshes_of l = [] <-> no_mesh l.
Proof.
  unfold meshes_of, no_mesh. split.
  - intros H. apply Forall_forall. intros o Ho Ht.
    assert (o ∈ filter (fun o => type o = MESH) l) as Hin
      by (by apply list_elem_of_filter).
    rewrite H in Hin. by apply elem_of_nil in Hin.
  - apply filter_none.
Qed.

Lemma add_light_lit (nm : string) (l : light_data) (loc : vec pyfloat)
    (rot : vec angle) (w : world) :
  wf w -> no_mesh (objects w) ->
  exists w', add_light nm l loc rot w = (Ok tt, w') /\ silent w w' /\
             no_mesh (objects w').
Proof.
  intros Hw Hn. rewrite add_light_run by done. eexists. split; [done|].
  split; [by apply silent_with_new|].
  unfold no_mesh. simpl. apply Forall_app. split; [done|]. by repeat constructor.
Qed.

Lemma farmer_setup_lighting (w : world) :
  wf w -> no_mesh (objects w) ->
  exists w', RenderFarmerPortraits.setup_lighting w = (Ok tt, w') /\ silent w w' /\
             no_mesh (objects w').
Proof.
  intros Hw Hn. unfold RenderFarmerPortraits.setup_lighting.
  destruct (add_light_lit "Key" (LightData_ "AREA" 600 3 (Vec 1%Q (95 # 100) (9 # 10)))
              (Vec (Fin (3 # 2)) (Fin (-3)) (Fin (5 # 2)))
              (Vec (Radians 55) (Rad 0) (Radians 25)) w Hw Hn)
    as (w1 & E1 & S1 & N1).
  destruct (add_light_lit "Fill" (LightData_ "AREA" 250 4 (Vec (9 # 10) (95 # 100) 1%Q))
              (Vec (Fin (-3 # 2)) (Fin (-5 # 2)) (Fin (3 # 2)))
              (Vec (Radians 65) (Rad 0) (Radians (-20))) w1 (proj1 S1) N1)
    as (w2 & E2 & S2 & N2).
  destruct (add_light_lit "Rim" (LightData_ "AREA" 350 2 (Vec 1%Q 1%Q 1%Q))
              (Vec (Fin 0) (Fin 3) (Fin (5 # 2)))
              (Vec (Radians 120) (Rad 0) (Radians 180)) w2 (proj1 S2) N2)
    as (w3 & E3 & S3 & N3).
  exists w3. split_and!; [|eauto using silent_trans|done].
  rewrite bind_unfold, E1. cbv beta iota. by rewrite bind_unfold, E2.
Qed.

Lemma split_selection_no_mesh (sel : list object) :
  no_mesh sel -> (RenderFarmerPortraits.split_selection sel).2 = [].
Proof.
  unfold RenderFarmerPortraits.split_selection. intros Hn.
  generalize (@None nat) as a.
  induction Hn as [|x sel Hx _ IH]; intros a; [done|].
  cbn [foldl]. destruct (type x) eqn:E; try apply IH. done.
Qed.

Lemma add_children_no_mesh (kids : list object) (meshes : list nat) :
  no_mesh kids -> RenderFarmerPortraits.add_children kids meshes = meshes.
Proof.
  unfold RenderFarmerPortraits.add_children. intros Hn.
  induction Hn as [|x kids Hx _ IH]; [done|].
  cbn [foldl]. rewrite bool_decide_eq_false_2 by done. exact IH.
Qed.

Lemma farmer_no_mesh_run (h : host)
    (farmer_config : RenderFarmerPortraits.farmer_config) (l : list object)
    (w : world) :
  path_exists h (RenderFarmerPortraits.glb farmer_config) = true ->
  gltf_file h (RenderFarmerPortraits.glb farmer_config) = Ok l ->
  meshes_of l = [] ->
  exists w',
    RenderFarmerPortraits.render_farmer h farmer_config w = (Ok false, w') /\
    trace w' = trace w ++
      [Print (nl +:+ str_times "=" 50);
       Print ("Rendering: " +:+ RenderFarmerPortraits.label farmer_config);
       Print (str_times "=" 50);
       ImportGltf (RenderFarmerPortraits.glb farmer_config);
       Print ("  ERROR: No mesh objects imported from "
              +:+ RenderFarmerPortraits.glb farmer_config)].
Proof.
  intros Hex Hl Hms. apply meshes_of_nil in Hms.
  unfold RenderFarmerPortraits.render_farmer, RenderFarmerPortraits.load_and_pose.
  cbv zeta. mstep. rewrite Hex. cbn [negb]. cbv iota.
  unfold RenderFarmerPortraits.clear_scene. mstep.
  match goal with |- context [RenderFarmerPortraits.setup_lighting ?w0] =>
    destruct (farmer_setup_lighting w0) as (w1 & E1 & (Hw1 & T1 & _) & N1);
      [apply wf_delete_all | constructor |]
  end.
  rewrite E1. cbv beta iota.
  unfold RenderFarmerPortraits.load_farmer_glb. mstep. rewrite Hl. mstep.
  set (w2 := emit (ImportGltf (RenderFarmerPortraits.glb farmer_config)) w1).
  assert (Hw2 : wf w2) by done.
  rewrite selected_after_import by done.
  assert (Hn : no_mesh (instantiate (next_oid w2) l)).
  { by apply (instantiate_forall (fun t _ => t <> MESH)). }
  pose proof (split_selection_no_mesh _ Hn) as Hsplit.
  destruct (RenderFarmerPortraits.split_selection (instantiate (next_oid w2) l))
    as [armature meshes]. simpl in Hsplit. subst meshes.
  destruct armature as [a|].
  - rewrite add_children_no_mesh.
    2:{ unfold children. apply Forall_forall. intros o Ho.
        apply list_elem_of_filter in Ho as [_ Ho]. simpl in Ho.
        apply elem_of_app in Ho as [Ho|Ho];
          [by apply (proj1 (Forall_forall _ _) N1) | by apply (proj1 (Forall_forall _ _) Hn)]. }
    mstep. eexists. split; [reflexivity|]. simpl. rewrite T1. simpl.
    by rewrite <- !app_assoc.
  - mstep. eexists. split; [reflexivity|]. simpl. rewrite T1. simpl.
    by rewrite <- !app_assoc.
Qed.

(** C8: an asset whose import succeeds without the elements the script
    needs is logged and skipped before anything is written.  In
    export_farmer_models.py a model without an armature, or without a mesh
    of the expected name, makes [process_character] print the error and
    return: no export.  In render-farmer-portraits.py a model without mesh
    objects makes [render_farmer] print the error and return False: no
    render. *)
Theorem missing_elements_skip_asset :
  (forall (h : host) (char_key : string) (config : ExportFarmerModels.config)
          (l : list object) (w : world),
     fbx_file h (ExportFarmerModels.fbx config) false = Ok l ->
     ~ has_armature l \/ ~ has_named_mesh (ExportFarmerModels.mesh_name config) l ->
     exists w',
       ExportFarmerModels.process_character h char_key config w = (Ok tt, w') /\
       Print "  ERROR: Missing Armature or Mesh" ∈ trace w' /\
       outputs (trace w') = outputs (trace w)) /\
  (forall (h : host) (farmer_config : RenderFarmerPortraits.farmer_config)
          (l : list object) (w : world),
     path_exists h (RenderFarmerPortraits.glb farmer_config) = true ->
     gltf_file h (RenderFarmerPortraits.glb farmer_config) = Ok l ->
     meshes_of l = [] ->
     exists w',
       RenderFarmerPortraits.render_farmer h farmer_config w = (Ok false, w') /\
       Print ("  ERROR: No mesh objects imported from "
              +:+ RenderFarmerPortraits.glb farmer_config) ∈ trace w' /\
       outputs (trace w') = outputs (trace w)).
Proof.
  split.
  - intros h char_key config l w Hl Hmiss.
    destruct (process_character_missing h char_key config l w Hl Hmiss)
      as (w' & E & T).
    exists w'. split; [exact E|]. rewrite T. split.
    + apply elem_of_app. right. do 3 apply list_elem_of_further.
      apply list_elem_of_here.
    + rewrite outputs_app. cbn. by rewrite app_nil_r.
  - intros h farmer_config l w Hex Hl Hms.
    destruct (farmer_no_mesh_run h farmer_config l w Hex Hl Hms) as (w' & E & T).
    exists w'. split; [exact E|]. rewrite T. split.
    + apply elem_of_app. right. do 4 apply list_elem_of_further.
      apply list_elem_of_here.
    + rewrite outputs_app. cbn. by rewrite app_nil_r.
Qed.

Lemma missing_elements_skip_asset_witness :
  (fbx_file clip_host (ExportFarmerModels.fbx rig_only_character) false
     = Ok [sample_armature "Armature" (Some (AnimData (Some idle_action) []))] /\
   (~ has_armature [sample_armature "Armature" (Some (AnimData (Some idle_action) []))] \/
    ~ has_named_mesh "Farmer_George"
        [sample_armature "Armature" (Some (AnimData (Some idle_action) []))]) /\
   exists w',
     ExportFarmerModels.process_character clip_host "john" rig_only_character initial_world
       = (Ok tt, w') /\
     outputs (trace w') = []) /\
  (path_exists rig_only_host (RenderFarmerPortraits.glb john) = true /\
   gltf_file rig_only_host (RenderFarmerPortraits.glb john)
     = Ok [sample_armature "Armature" None] /\
   meshes_of [sample_armature "Armature" None] = [] /\
   exists w',
     RenderFarmerPortraits.render_farmer rig_only_host john initial_world
       = (Ok false, w') /\
     outputs (trace w') = []).
Proof.
  assert (Hmiss : ~ has_armature [sample_armature "Armature"
                                    (Some (AnimData (Some idle_action) []))] \/
    ~ has_named_mesh "Farmer_George"
        [sample_armature "Armature" (Some (AnimData (Some idle_action) []))]).
  { right. intros H. apply Exists_cons in H as [[H _]|H]; [done|].
    by apply Exists_nil in H. }
  split.
  - split; [reflexivity|]. split; [exact Hmiss|].
    destruct (proj1 missing_elements_skip_asset clip_host "john" rig_only_character _
                initial_world eq_refl Hmiss) as (w' & E & _ & Hout).
    by exists w'.
  - split_and!; try reflexivity.
    destruct (proj2 missing_elements_skip_asset rig_only_host john _
                initial_world eq_refl eq_refl eq_refl) as (w' & E & _ & Hout).
    by exists w'.
Defined.

(** ** Scans that meet no vertex *)

(** C2, amended: the scan of no vertex returns the two sentinels, also
    through [get_model_bounds] on no object, and [center_and_scale_model]
    on the empty object list returns at once and leaves the scene as it
    was.  Both renderers guard on the list of imported mesh objects: when
    it is empty, [render_portrait] and [render_farmer] print the error and
    return False before any framing, and write no image.  Neither tests
    the bounds: when [get_model_bounds] returns the two sentinels for the
    farmer's meshes, [frame_and_render] goes on, raises nothing (it divides
    by 2 only), prints the height -inf and the centre NaN, makes its camera
    the scene camera and renders the image. *)
Theorem empty_input_is_no_geometry :
  compute_bounds [] = sentinel /\
  (forall (h : host) (w : world),
     RenderFarmerPortraits.get_model_bounds h [] w = (Ok sentinel, w)) /\
  (forall w : world,
     RenderAnimalPortraits.center_and_scale_model [] w = (Ok tt, w)) /\
  (forall (h : host) (model_name output_filename : string) (w : world)
          (l : list object),
     path_exists h (model_path h model_name) = true ->
     gltf_file h (model_path h model_name) = Ok l ->
     meshes_of l = [] ->
     exists w',
       RenderAnimalPortraits.render_portrait h model_name output_filename w
         = (Ok false, w') /\
       outputs (trace w') = outputs (trace w) /\
       Print ("ERROR: No mesh objects imported from " +:+ model_path h model_name)
         ∈ trace w') /\
  (forall (h : host) (farmer_config : RenderFarmerPortraits.farmer_config)
          (l : list object) (w : world),
     path_exists h (RenderFarmerPortraits.glb farmer_config) = true ->
     gltf_file h (RenderFarmerPortraits.glb farmer_config) = Ok l ->
     meshes_of l = [] ->
     exists w',
       RenderFarmerPortraits.render_farmer h farmer_config w = (Ok false, w') /\
       outputs (trace w') = outputs (trace w) /\
       Print ("  ERROR: No mesh objects imported from "
              +:+ RenderFarmerPortraits.glb farmer_config) ∈ trace w') /\
  (forall (h : host) (farmer_config : RenderFarmerPortraits.farmer_config)
          (armature : option nat) (meshes : list nat) (w : world),
     wf w ->
     Forall (fun i => alive i (objects w)) (centering_targets armature meshes) ->
     RenderFarmerPortraits.get_model_bounds h meshes w = (Ok sentinel, w) ->
     exists w',
       RenderFarmerPortraits.frame_and_render h farmer_config armature meshes w
         = (Ok true, w') /\
       camera w' = Some (next_oid w) /\
       trace w' = trace w ++
         [PrintNumbers "  Model height: " [NInf];
          PrintNumbers "  Center: " [NaN; NaN];
          Print ("  Rendering to: " +:+
                 os_path_join (RenderFarmerPortraits.OUTPUT_DIR h)
                              (RenderFarmerPortraits.output farmer_config));
          RenderStill (os_path_join (RenderFarmerPortraits.OUTPUT_DIR h)
                                    (RenderFarmerPortraits.output farmer_config));
          Print ("  Done: " +:+ RenderFarmerPortraits.output farmer_config)] /\
       outputs (trace w') = outputs (trace w) ++
         [RenderStill (os_path_join (RenderFarmerPortraits.OUTPUT_DIR h)
                                    (RenderFarmerPortraits.output farmer_config))]).
Proof.
  split_and!; try done.
  - intros h nm out w l Hex Hl Hms.
    destruct (render_portrait_run h nm out w) as (w' & E & T).
    { intros _. by rewrite Hl. }
    assert (Hr : rendered h nm = false).
    { unfold rendered. rewrite Hl, Hms. by rewrite andb_false_r. }
    rewrite Hr in E. exists w'. split; [exact E|]. rewrite T. split.
    + by rewrite outputs_app, outputs_portrait, Hr, app_nil_r.
    + apply elem_of_app. right. unfold portrait_events.
      rewrite Hex, Hl, Hms. cbn.
      do 4 apply list_elem_of_further. apply list_elem_of_here.
  - intros h farmer_config l w Hex Hl Hms.
    destruct (farmer_no_mesh_run h farmer_config l w Hex Hl Hms) as (w' & E & T).
    exists w'. split; [exact E|]. rewrite T. split.
    + rewrite outputs_app. cbn. by rewrite app_nil_r.
    + apply elem_of_app. right. do 4 apply list_elem_of_further.
      apply list_elem_of_here.
  - intros h farmer_config armature meshes w Hw Ht Hb.
    destruct (frame_and_render_run h farmer_config armature meshes sentinel w Hw Hb Ht)
      as (w' & objs' & E & _ & _ & Hc & T).
    exists w'. split; [exact E|]. split; [exact Hc|]. split; [exact T|].
    rewrite T, outputs_app. reflexivity.
Qed.

(** an animal file and a farmer file that bring a rig and no mesh, and a
    farmer scene whose only mesh has no vertex *)
Lemma empty_input_is_no_geometry_witness :
  (path_exists rig_only_host (model_path rig_only_host "cow") = true /\
   gltf_file rig_only_host (model_path rig_only_host "cow")
     = Ok [sample_armature "Armature" None] /\
   meshes_of [sample_armature "Armature" None] = [] /\
   exists w',
     RenderAnimalPortraits.render_portrait rig_only_host "cow" "cow_portrait.png"
       initial_world = (Ok false, w') /\
     outputs (trace w') = outputs (trace initial_world)) /\
  (path_exists rig_only_host (RenderFarmerPortraits.glb john) = true /\
   gltf_file rig_only_host (RenderFarmerPortraits.glb john)
     = Ok [sample_armature "Armature" None] /\
   exists w',
     RenderFarmerPortraits.render_farmer rig_only_host john initial_world
       = (Ok false, w') /\
     outputs (trace w') = outputs (trace initial_world)) /\
  (wf hollow_world /\
   Forall (fun i => alive i (objects hollow_world)) (centering_targets None [0]) /\
   RenderFarmerPortraits.get_model_bounds farmer_host [0] hollow_world
     = (Ok sentinel, hollow_world) /\
   exists w',
     RenderFarmerPortraits.frame_and_render farmer_host john None [0] hollow_world
       = (Ok true, w') /\
     camera w' = Some 1 /\
     outputs (trace w')
       = [RenderStill "/repo/public/assets/sprites/farmer_john_portrait.png"]).
Proof.
  assert (Hw : wf hollow_world) by (repeat constructor).
  assert (Ht : Forall (fun i => alive i (objects hollow_world))
                 (centering_targets None [0])).
  { repeat constructor. }
  assert (Hb : RenderFarmerPortraits.get_model_bounds farmer_host [0] hollow_world
               = (Ok sentinel, hollow_world)) by reflexivity.
  split_and!; try done.
  - destruct (proj1 (proj2 (proj2 (proj2 empty_input_is_no_geometry)))
                rig_only_host "cow" "cow_portrait.png" initial_world
                [sample_armature "Armature" None] eq_refl eq_refl eq_refl)
      as (w' & E & Hout & _).
    exists w'. by split.
  - destruct (proj1 (proj2 (proj2 (proj2 (proj2 empty_input_is_no_geometry))))
                rig_only_host john [sample_armature "Armature" None] initial_world
                eq_refl eq_refl eq_refl)
      as (w' & E & Hout & _).
    exists w'. by split.
  - destruct (proj2 (proj2 (proj2 (proj2 (proj2 empty_input_is_no_geometry))))
                farmer_host john None [0] hollow_world Hw Ht Hb)
      as (w' & E & Hc & _ & Hout).
    exists w'. split; [exact E|]. split; [exact Hc|]. exact Hout.
Defined.

(** the scan of a mesh without vertices returns the two sentinels, and the
    farmer's framing runs all the same *)
Lemma hollow_farmer_is_framed :
  RenderFarmerPortraits.get_model_bounds farmer_host [0] hollow_world
    = (Ok sentinel, hollow_world) /\
  camera hollow_world = None /\
  camera (RenderFarmerPortraits.frame_and_render farmer_host john None [0]
            hollow_world).2 = Some 1.
Proof. by vm_compute. Qed.

(** the bounds are the two sentinels and the caller frames all the same *)
Lemma sentinel_claim_counterexample :
  ~ sentinel_skips_framing farmer_host john None [0] hollow_world.
Proof.
  intros H. destruct (H (proj1 hollow_farmer_is_framed)) as [Hc _].
  rewrite (proj2 (proj2 hollow_farmer_is_framed)) in Hc. discriminate Hc.
Qed.

(** ** The whole farmer pipeline *)

Lemma mapM_find_total (objs : list nat) (l : list object) :
  Forall (fun i => alive i l) objs ->
  exists os, mapM (fun i => find_object i l) objs = Some os.
Proof.
  induction 1 as [|i objs Hi _ [os IH]]; [by exists []|].
  apply find_object_alive in Hi as [o Ho].
  exists (o :: os). cbn [mapM]. rewrite Ho. cbn [mbind option_bind]. by rewrite IH.
Qed.

Lemma get_model_bounds_total (h : host) (meshes : list nat) (w : world) :
  Forall (fun i => alive i (objects w)) meshes ->
  exists b, RenderFarmerPortraits.get_model_bounds h meshes w = (Ok b, w).
Proof.
  intros Hal. rewrite get_model_bounds_scan.
  destruct (mapM_find_total _ _ Hal) as [os ->]. by eexists.
Qed.

(** the selection splits into references to selected objects *)
Lemma split_selection_refs (sel : list object) :
  match (RenderFarmerPortraits.split_selection sel).1 with
  | Some a => a ∈ oid <$> sel
  | None => True
  end /\
  Forall (fun i => i ∈ oid <$> sel) (RenderFarmerPortraits.split_selection sel).2.
Proof.
  induction sel as [|o sel IH] using rev_ind; [by split|].
  unfold RenderFarmerPortraits.split_selection in *. rewrite foldl_app. cbn [foldl].
  destruct (foldl _ _ sel) as [a ms]. simpl in IH. destruct IH as [IHa IHm].
  assert (Hlast : oid o ∈ oid <$> sel ++ [o]).
  { rewrite fmap_app. apply elem_of_app. right. apply list_elem_of_here. }
  assert (Hms : Forall (fun i => i ∈ oid <$> sel ++ [o]) ms).
  { eapply Forall_impl; [exact IHm|]. intros i Hi. rewrite fmap_app.
    apply elem_of_app. by left. }
  assert (Ha : match a with Some a => a ∈ oid <$> sel ++ [o] | None => True end).
  { destruct a; [|done]. rewrite fmap_app. apply elem_of_app. by left. }
  destruct (type o); simpl; try done.
  split; [done|]. apply Forall_app. split; [done|]. by repeat constructor.
Qed.

Lemma add_children_refs (kids : list object) (meshes : list nat) (l : list object) :
  Forall (fun i => alive i l) meshes ->
  Forall (fun o => o ∈ l) kids ->
  Forall (fun i => alive i l) (RenderFarmerPortraits.add_children kids meshes).
Proof.
  unfold RenderFarmerPortraits.add_children.
  intros Hm Hk. revert meshes Hm. induction Hk as [|o kids Ho _ IH]; intros meshes Hm;
    [done|].
  cbn [foldl]. apply IH. destruct (_ && _); [|done].
  apply Forall_app. split; [done|]. constructor; [|constructor].
  by apply elem_alive.
Qed.

Lemma load_farmer_glb_run (h : host) (filepath : string) (l : list object) (w : world) :
  wf w -> gltf_file h filepath = Ok l ->
  exists armature meshes,
    RenderFarmerPortraits.load_farmer_glb h filepath w
      = (Ok (armature, meshes), add_imported l (emit (ImportGltf filepath) w)) /\
    Forall (fun i => alive i (objects w ++ instantiate (next_oid w) l))
           (centering_targets armature meshes) /\
    Forall (fun i => alive i (objects w ++ instantiate (next_oid w) l)) meshes.
Proof.
  intros Hw Hl. unfold RenderFarmerPortraits.load_farmer_glb. mstep.
  rewrite Hl. mstep.
  set (w0 := emit (ImportGltf filepath) w).
  assert (Hw0 : wf w0) by done.
  rewrite selected_after_import by done.
  destruct (split_selection_refs (instantiate (next_oid w0) l)) as [Sa Sm].
  destruct (RenderFarmerPortraits.split_selection (instantiate (next_oid w0) l))
    as [armature meshes]. simpl in Sa, Sm.
  assert (Hm : Forall (fun i => alive i (objects w ++ instantiate (next_oid w) l)) meshes).
  { eapply Forall_impl; [exact Sm|]. intros i Hi. unfold alive.
    rewrite fmap_app. apply elem_of_app. by right. }
  destruct armature as [a|]; mstep.
  - assert (Hm' : Forall (fun i => alive i (objects w ++ instantiate (next_oid w) l))
                    (RenderFarmerPortraits.add_children
                       (children a (objects (add_imported l w0))) meshes)).
    { apply add_children_refs; [done|]. apply Forall_forall. intros o Ho.
      unfold children in Ho. by apply list_elem_of_filter in Ho as [_ Ho]. }
    eexists (Some a), _. split; [reflexivity|]. split; [|exact Hm'].
    simpl. constructor; [|constructor]. unfold alive. rewrite fmap_app.
    apply elem_of_app. by right.
  - by exists None, meshes.
Qed.

#[global] Instance posed_rel : ObjRel posed.
Proof.
  split.
  - intros o. exists (pose_bones o). by destruct o.
  - intros o1 o2 o3 [b1 ->] [b2 ->]. by exists b2.
  - by intros o o' [bs ->].
Qed.

Lemma posed_only_x_scale (targets : list nat) (l1 l2 l3 : list object) :
  Forall2 posed l1 l2 -> Forall2 (only_x targets) l2 l3 ->
  scale <$> l3 = scale <$> l1 /\ rotation_euler <$> l3 = rotation_euler <$> l1.
Proof.
  intros F1. revert l3. induction F1 as [|o1 o2 l1 l2 [bs ->] F1 IH]; intros l3 F2.
  - by apply Forall2_nil_inv_l in F2 as ->.
  - apply Forall2_cons_inv_l in F2 as (o3 & l3' & H23 & F2 & ->).
    destruct (IH _ F2) as [IH1 IH2].
    apply only_x_fields in H23 as (_ & _ & _ & _ & _ & _ & Hr & Hs & _).
    cbn. rewrite IH1, IH2, Hr, Hs. done.
Qed.

Lemma pose_idle_run (armature : option nat) (w : world) :
  from_option (fun a => alive a (objects w)) True armature ->
  exists w',
    RenderFarmerPortraits.pose_idle armature w = (Ok tt, w') /\
    Forall2 posed (objects w) (objects w') /\
    next_oid w' = next_oid w /\ trace w' = trace w.
Proof.
  intros Ha. destruct armature as [a|]; simpl in Ha.
  2:{ exists w. split_and!; try done. apply (Forall2_refl_rel posed). }
  unfold RenderFarmerPortraits.pose_idle. rewrite bind_unfold. unfold deref at 1.
  destruct (proj1 (find_object_alive _ _) Ha) as [o Ho]. rewrite Ho. cbv beta iota.
  case_bool_decide.
  { exists w. split_and!; try done. apply (Forall2_refl_rel posed). }
  mstep.
  match goal with |- context [for_each _ ?body ?w0] =>
    destruct (for_each_frame posed (fun _ w => alive a (objects w)) body
                RenderFarmerPortraits.arm_rotations w0) as (w1 & E1 & F1)
  end.
  { intros x w1 w2 Hx F. by apply (frame_alive posed w1 w2). }
  { intros [nm q] w1 Hx. apply (update_frame posed); [|done].
    intros o'. by eexists. }
  { apply Forall_forall. by intros. }
  rewrite E1. mstep. eexists. split; [reflexivity|].
  destruct F1 as (F1 & _ & _ & _ & _ & _ & N1 & T1). by split_and!.
Qed.

Lemma Forall2_oids R `{!ObjRel R} (l l' : list object) :
  Forall2 R l l' -> oid <$> l' = oid <$> l.
Proof.
  induction 1 as [|o o' l l' Hoo' F IH]; [done|].
  cbn. f_equal; [by apply objrel_oid | done].
Qed.

Lemma wf_same_oids (w w' : world) :
  oid <$> objects w' = oid <$> objects w -> next_oid w' = next_oid w ->
  wf w -> wf w'.
Proof.
  intros Ho Hn Hw. unfold wf in *. rewrite Hn.
  apply Forall_forall. intros o' Ho'.
  apply (list_elem_of_fmap_2 oid) in Ho'. rewrite Ho in Ho'.
  apply list_elem_of_fmap in Ho' as (o & -> & Hin).
  by apply (proj1 (Forall_forall _ _) Hw).
Qed.

Lemma instantiate_scales (base : nat) (l : list object) :
  scale <$> instantiate base l = scale <$> l /\
  rotation_euler <$> instantiate base l = rotation_euler <$> l.
Proof.
  split; apply list_eq; intros k;
    rewrite !list_lookup_fmap, instantiate_lookup; by destruct (l !! k).
Qed.

Lemma farmer_lights_scales (w : world) :
  wf w ->
  exists w',
    RenderFarmerPortraits.setup_lighting w = (Ok tt, w') /\
    wf w' /\ trace w' = trace w /\
    scale <$> objects w' =
      (scale <$> objects w) ++ [vrepeat (Fin 1); vrepeat (Fin 1); vrepeat (Fin 1)].
Proof.
  intros Hw. unfold RenderFarmerPortraits.setup_lighting.
  rewrite bind_unfold, add_light_run by done. cbv beta iota.
  set (w1 := with_new w _).
  assert (Hw1 : wf w1) by (by apply wf_with_new).
  rewrite bind_unfold, add_light_run by done. cbv beta iota.
  set (w2 := with_new w1 _).
  assert (Hw2 : wf w2) by (by apply wf_with_new).
  rewrite add_light_run by done.
  eexists. split; [reflexivity|]. split_and!.
  - by apply wf_with_new.
  - done.
  - simpl. rewrite !fmap_app. simpl. by rewrite <- !app_assoc.
Qed.

Lemma names_run (meshes : list nat) (acc : list string) (w : world) :
  Forall (fun i => alive i (objects w)) meshes ->
  exists names,
    for_append meshes acc (fun m => o ← deref m; mret (name o)) w
      = (Ok (acc ++ names), w).
Proof.
  intros Hal. revert acc. induction Hal as [|i meshes Hi _ IH]; intros acc.
  - exists []. by rewrite app_nil_r.
  - apply find_object_alive in Hi as [o Ho].
    destruct (IH (acc ++ [name o])) as [names E].
    exists (name o :: names). cbn [for_append]. rewrite !bind_unfold.
    unfold deref at 1. rewrite Ho. rewrite ret_unfold, E.
    by rewrite <- app_assoc.
Qed.

(** a farmer whose file is present and imports: the run never raises,
    renders iff a mesh was found, and leaves every scale as it was
    imported (lights and camera at their unit scale) *)
Lemma render_farmer_run (h : host)
    (farmer_config : RenderFarmerPortraits.farmer_config) (l : list object)
    (w : world) :
  path_exists h (RenderFarmerPortraits.glb farmer_config) = true ->
  gltf_file h (RenderFarmerPortraits.glb farmer_config) = Ok l ->
  exists (b : bool) w',
    RenderFarmerPortraits.render_farmer h farmer_config w = (Ok b, w') /\
    scale <$> objects w' =
      [vrepeat (Fin 1); vrepeat (Fin 1); vrepeat (Fin 1)] ++ (scale <$> l) ++
      (if b then [vrepeat (Fin 1)] else []) /\
    outputs (trace w') =
      outputs (trace w) ++
      (if b then [RenderStill (os_path_join (RenderFarmerPortraits.OUTPUT_DIR h)
                                 (RenderFarmerPortraits.output farmer_config))]
       else []).
Proof.
  intros Hex Hl.
  unfold RenderFarmerPortraits.render_farmer, RenderFarmerPortraits.load_and_pose.
  cbv zeta. mstep. rewrite Hex. cbn [negb]. cbv iota.
  unfold RenderFarmerPortraits.clear_scene. mstep.
  match goal with |- context [RenderFarmerPortraits.setup_lighting ?w0] =>
    destruct (farmer_lights_scales w0) as (w1 & E1 & Hw1 & T1 & S1);
      [apply wf_delete_all|]
  end.
  rewrite E1. cbv beta iota.
  destruct (load_farmer_glb_run h _ l w1 Hw1 Hl) as (armature & meshes & E2 & Ht & Hm).
  rewrite bind_unfold, E2. cbv beta iota.
  set (w2 := add_imported l (emit (ImportGltf _) w1)) in *.
  assert (Hw2 : wf w2) by (by apply wf_add_imported).
  assert (S2 : scale <$> objects w2 =
               [vrepeat (Fin 1); vrepeat (Fin 1); vrepeat (Fin 1)] ++ (scale <$> l)).
  { simpl. rewrite fmap_app, S1. simpl.
    by rewrite (proj1 (instantiate_scales _ _)). }
  assert (T2 : outputs (trace w2) = outputs (trace w)).
  { simpl. rewrite T1. simpl. by rewrite !outputs_app, !app_nil_r. }
  assert (Ht' : Forall (fun i => alive i (objects w2)) (centering_targets armature meshes))
    by exact Ht.
  assert (Hm' : Forall (fun i => alive i (objects w2)) meshes) by exact Hm.
  clear Ht Hm. rename Ht' into Ht. rename Hm' into Hm.
  destruct meshes as [|m0 meshes'].
  { mstep. exists false. eexists. split; [reflexivity|]. simpl.
    split.
    - simpl in S2. rewrite S2. by rewrite app_nil_r.
    - simpl in T2. rewrite outputs_app, T2. simpl. by rewrite !app_nil_r. }
  set (meshes := m0 :: meshes') in *.
  assert (Ename : exists nm w2', 
            (match armature with
             | Some a => o ← deref a; mret (name o)
             | None => mret "None"
             end) w2 = (Ok nm, w2') /\ w2' = w2).
  { destruct armature as [a|]; [|by exists "None", w2].
    simpl in Ht. inversion Ht as [|? ? Ha _]; subst.
    destruct (proj1 (find_object_alive a (objects w2)) Ha) as [o Ho].
    exists (name o), w2. rewrite bind_unfold. unfold deref. by rewrite Ho. }
  destruct Ename as (nm & ? & Enm & ->).
  rewrite bind_unfold, Enm. mstep.
  set (w3 := emit (Print _) w2).
  destruct (names_run meshes [] w3 Hm) as [names En].
  rewrite En. mstep.
  set (w4 := emit (PrintNames _ _) w3).
  destruct (pose_idle_run armature w4) as (w5 & E5 & F5 & N5 & T5).
  { destruct armature as [a|]; [|done]. simpl in *. by inversion Ht. }
  rewrite E5. mstep.
  pose proof (Forall2_oids posed _ _ F5) as Ho5.
  assert (Hw5 : wf w5) by (by apply (wf_same_oids w4 w5)).
  assert (Hm5 : Forall (fun i => alive i (objects w5)) meshes).
  { eapply Forall_impl; [exact Hm|]. intros i Hi. unfold alive. by rewrite Ho5. }
  assert (Ht5 : Forall (fun i => alive i (objects w5)) (centering_targets armature meshes)).
  { eapply Forall_impl; [exact Ht|]. intros i Hi. unfold alive. by rewrite Ho5. }
  destruct (get_model_bounds_total h meshes w5 Hm5) as [b Hb].
  destruct (frame_and_render_run h farmer_config armature meshes b w5 Hw5 Hb Ht5)
    as (w6 & objs' & E6 & Ho6 & F6 & _ & T6).
  rewrite E6. exists true, w6. split; [reflexivity|]. split.
  - rewrite Ho6, fmap_app.
    rewrite (proj1 (posed_only_x_scale _ _ _ _ F5 F6)).
    change (objects w4) with (objects w2). by rewrite S2.
  - rewrite T6, T5. simpl. rewrite !outputs_app.
    simpl in T2. rewrite !outputs_app in T2. rewrite T2. simpl. by rewrite !app_nil_r.
Qed.

(** C10: centring a farmer under the camera writes to the armature alone,
    or to every mesh when no armature was imported, and there only to the x
    component of the location: every object keeps its y and z location, its
    rotation, its scale and everything else, objects that are not targets
    are untouched, and so are selection, camera, settings and trace; with
    an armature, the scene after is the scene before with
    [location.x - center_x] in the armature.  And the farmer pipeline as a
    whole never rescales: after [render_farmer] on a present, importable
    file, every imported object has the scale it was imported with, and the
    lights and the camera have unit scale. *)
Theorem centering_changes_only_x :
  (forall (armature : option nat) (meshes : list nat) (center_x : pyfloat)
          (w : world),
     Forall (fun i => alive i (objects w)) (centering_targets armature meshes) ->
     exists w',
       RenderFarmerPortraits.center_on_x armature meshes center_x w = (Ok tt, w') /\
       Forall2 (fun o o' =>
                  (oid o ∈ centering_targets armature meshes \/ o' = o) /\
                  o' = set_location (vset (location o) AX (vx (location o'))) o /\
                  vy (location o') = vy (location o) /\
                  vz (location o') = vz (location o) /\
                  rotation_euler o' = rotation_euler o /\
                  scale o' = scale o)
               (objects w) (objects w') /\
       match armature with
       | Some a => objects w' = alter_object (shift_x center_x) a (objects w)
       | None => True
       end /\
       selected w' = selected w /\ camera w' = camera w /\
       render w' = render w /\ trace w' = trace w) /\
  (forall (h : host) (farmer_config : RenderFarmerPortraits.farmer_config)
          (l : list object) (w : world),
     path_exists h (RenderFarmerPortraits.glb farmer_config) = true ->
     gltf_file h (RenderFarmerPortraits.glb farmer_config) = Ok l ->
     exists (b : bool) w',
       RenderFarmerPortraits.render_farmer h farmer_config w = (Ok b, w') /\
       scale <$> objects w' =
         [vrepeat (Fin 1); vrepeat (Fin 1); vrepeat (Fin 1)] ++ (scale <$> l) ++
         (if b then [vrepeat (Fin 1)] else [])).
Proof.
  split.
  - intros armature meshes center_x w Hal.
    destruct (center_on_x_frame armature meshes center_x w Hal)
      as (w' & E & F & Hs & _ & _ & Hc & Hr & _ & Ht).
    exists w'. split_and!; try done.
    + eapply Forall2_impl; [exact F|]. intros o o' Hoo'.
      destruct (only_x_fields _ _ _ Hoo') as (_ & _ & _ & _ & ? & ? & ? & ? & _).
      split_and!; try done.
      * destruct Hoo' as [-> | [Hin _]]; [by right | by left].
      * destruct Hoo' as [-> | (_ & x & ->)];
          by destruct o as [? ? ? ? [? ? ?] ? ? ? ? ? ?].
    + destruct armature as [a|]; [|done]. simpl in *.
      inversion Hal; subst.
      rewrite update_alive in E by done. by injection E as <-.
  - intros h farmer_config l w Hex Hl.
    destruct (render_farmer_run h farmer_config l w Hex Hl) as (b & w' & E & S & _).
    by exists b, w'.
Qed.

Lemma centering_changes_only_x_witness :
  (Forall (fun i => alive i (objects posed_world)) (centering_targets (Some 0) [1]) /\
   exists w',
     RenderFarmerPortraits.center_on_x (Some 0) [1] (Fin 1) posed_world = (Ok tt, w') /\
     (location <$> objects w') = [Vec (Fin (0 + - 1)) (Fin 0) (Fin 0); vrepeat (Fin 0)] /\
     (scale <$> objects w') = (scale <$> objects posed_world)) /\
  (path_exists farmer_host (RenderFarmerPortraits.glb john) = true /\
   exists w',
     RenderFarmerPortraits.render_farmer farmer_host john initial_world = (Ok true, w') /\
     (scale <$> objects w') =
       [vrepeat (Fin 1); vrepeat (Fin 1); vrepeat (Fin 1);
        vrepeat (Fin 1); vrepeat (Fin 2); vrepeat (Fin 1)]).
Proof.
  assert (H : Forall (fun i => alive i (objects posed_world))
                     (centering_targets (Some 0) [1])).
  { repeat constructor. }
  split.
  - split; [exact H|].
    destruct (proj1 centering_changes_only_x (Some 0) [1] (Fin 1) posed_world H)
      as (w' & E & _ & Ha & _).
    exists w'. split; [exact E|]. cbv beta iota in Ha. rewrite Ha. by split.
  - split; [reflexivity|].
    destruct (proj2 centering_changes_only_x farmer_host john _ initial_world
                eq_refl eq_refl) as (b & w' & E & S).
    assert (Hb : b = true).
    { assert (Hc : (RenderFarmerPortraits.render_farmer farmer_host john initial_world).1
                   = Ok true) by (vm_compute; reflexivity).
      rewrite E in Hc. simpl in Hc. by injection Hc. }
    subst b. exists w'. by split.
Defined.

(** ** The bounds as a function of the set of vertices *)

Lemma feq_fin (p q : Q) : feq (Fin p) (Fin q) = true <-> (p == q)%Q.
Proof. apply Qeq_bool_iff. Qed.

(** on a non-empty scan each bound is a number, below (above) every
    coordinate and equal to one of them *)
Lemma compute_bounds_fin (v : vec Q) (l : list (vec Q)) (i : axis) :
  exists mn mx : Q,
    vget (compute_bounds (v :: l)).1 i = Fin mn /\
    vget (compute_bounds (v :: l)).2 i = Fin mx /\
    Forall (fun u => (mn <= vget u i)%Q) (v :: l) /\
    Forall (fun u => (vget u i <= mx)%Q) (v :: l) /\
    Exists (fun u => mn = vget u i) (v :: l) /\
    Exists (fun u => mx = vget u i) (v :: l).
Proof.
  destruct (accumulate_lower sentinel (v :: l) i no_nan_sentinel) as [L U].
  destruct (compute_bounds_attained v l i) as [A1 A2].
  fold (compute_bounds (v :: l)) in L, U.
  assert (Hmn : exists mn, vget (compute_bounds (v :: l)).1 i = Fin mn).
  { apply Exists_exists in A1 as (u & _ & ->). by eexists. }
  assert (Hmx : exists mx, vget (compute_bounds (v :: l)).2 i = Fin mx).
  { apply Exists_exists in A2 as (u & _ & ->). by eexists. }
  destruct Hmn as [mn Hmn], Hmx as [mx Hmx]. exists mn, mx.
  rewrite Hmn in L, A1. rewrite Hmx in U, A2. split_and!; try done.
  - eapply Forall_impl; [exact L|]. intros u. apply fle_fin.
  - eapply Forall_impl; [exact U|]. intros u. apply fle_fin.
  - eapply Exists_impl; [exact A1|]. intros u Hu. by injection Hu.
  - eapply Exists_impl; [exact A2|]. intros u Hu. by injection Hu.
Qed.

Lemma same_bounds_sentinel : same_bounds sentinel sentinel.
Proof. by intros []. Qed.

(** X1: the bounds do not depend on the order in which the vertices are
    visited: two scans over the same vertices in different orders return
    equal minima and equal maxima on every axis. *)
Theorem bounds_order_independent (l1 l2 : list (vec Q)) :
  l1 ≡ₚ l2 -> same_bounds (compute_bounds l1) (compute_bounds l2).
Proof.
  intros Hp. destruct l1 as [|v1 l1].
  { apply Permutation_nil_l in Hp. subst l2. apply same_bounds_sentinel. }
  destruct l2 as [|v2 l2].
  { by apply Permutation_nil_r in Hp. }
  intros i.
  destruct (compute_bounds_fin v1 l1 i) as (a & b & -> & -> & La & Ub & Aa & Ab).
  destruct (compute_bounds_fin v2 l2 i) as (c & d & -> & -> & Lc & Ud & Ac & Ad).
  rewrite !feq_fin.
  rewrite Forall_forall in La, Ub, Lc, Ud.
  apply Exists_exists in Aa as (ua & Hua & ->).
  apply Exists_exists in Ab as (ub & Hub & ->).
  apply Exists_exists in Ac as (uc & Huc & ->).
  apply Exists_exists in Ad as (ud & Hud & ->).
  split; apply Qle_antisym.
  - apply La. by rewrite Hp.
  - apply Lc. by rewrite <- Hp.
  - apply Ud. by rewrite <- Hp.
  - apply Ub. by rewrite Hp.
Qed.

Lemma bounds_order_independent_witness :
  [Vec 0 2 5; Vec 1 (-1) 3]%Q ≡ₚ [Vec 1 (-1) 3; Vec 0 2 5]%Q /\
  same_bounds (compute_bounds [Vec 0 2 5; Vec 1 (-1) 3]%Q)
              (compute_bounds [Vec 1 (-1) 3; Vec 0 2 5]%Q).
Proof.
  assert (Hp : [Vec 0 2 5; Vec 1 (-1) 3]%Q ≡ₚ [Vec 1 (-1) 3; Vec 0 2 5]%Q)
    by apply perm_swap.
  split; [exact Hp|]. exact (bounds_order_independent _ _ Hp).
Defined.

Lemma py_min_inf_r (a : pyfloat) : py_min a PInf = a.
Proof. by destruct a. Qed.

Lemma py_max_ninf_r (a : pyfloat) : py_max a NInf = a.
Proof. by destruct a. Qed.

Lemma vget_merge (b1 b2 : bounds) (i : axis) :
  vget (merge_bounds b1 b2).1 i = py_min (vget b1.1 i) (vget b2.1 i) /\
  vget (merge_bounds b1 b2).2 i = py_max (vget b1.2 i) (vget b2.2 i).
Proof. by destruct i. Qed.

(** X2: scanning two groups of vertices one after the other gives the box
    around the two boxes: on every axis the minimum over both groups equals
    [min] of the two minima and the maximum equals [max] of the two maxima.
    So the bounds over several objects are the merge of the bounds of each,
    and a group without vertices (the sentinel) changes nothing. *)
Theorem bounds_of_two_groups (l1 l2 : list (vec Q)) :
  same_bounds (compute_bounds (l1 ++ l2))
              (merge_bounds (compute_bounds l1) (compute_bounds l2)).
Proof.
  intros i. rewrite (proj1 (vget_merge _ _ i)), (proj2 (vget_merge _ _ i)).
  destruct l2 as [|v2 l2].
  { rewrite app_nil_r. change (compute_bounds []) with sentinel.
    replace (vget sentinel.1 i) with PInf by (by destruct i).
    replace (vget sentinel.2 i) with NInf by (by destruct i).
    rewrite py_min_inf_r, py_max_ninf_r.
    destruct l1 as [|v1 l1]; [by destruct i|].
    destruct (compute_bounds_fin v1 l1 i) as (a & b & -> & -> & _).
    rewrite !feq_fin. split; reflexivity. }
  destruct l1 as [|v1 l1].
  { change (compute_bounds []) with sentinel. rewrite app_nil_l.
    replace (vget sentinel.1 i) with PInf by (by destruct i).
    replace (vget sentinel.2 i) with NInf by (by destruct i).
    destruct (compute_bounds_fin v2 l2 i) as (a & b & -> & -> & _).
    cbn. rewrite !Qeq_bool_iff. split; reflexivity. }
  change ((v1 :: l1) ++ v2 :: l2) with (v1 :: (l1 ++ v2 :: l2)).
  destruct (compute_bounds_fin v1 (l1 ++ v2 :: l2) i)
    as (a & b & -> & -> & La & Ub & Aa & Ab).
  destruct (compute_bounds_fin v1 l1 i) as (a1 & b1 & -> & -> & La1 & Ub1 & Aa1 & Ab1).
  destruct (compute_bounds_fin v2 l2 i) as (a2 & b2 & -> & -> & La2 & Ub2 & Aa2 & Ab2).
  rewrite py_min_fin, py_max_fin, !feq_fin.
  rewrite Forall_forall in La, Ub, La1, Ub1, La2, Ub2.
  assert (Hin1 : forall u, u ∈ v1 :: l1 -> u ∈ v1 :: (l1 ++ v2 :: l2)).
  { intros u Hu. change (u ∈ (v1 :: l1) ++ v2 :: l2). apply elem_of_app. by left. }
  assert (Hin2 : forall u, u ∈ v2 :: l2 -> u ∈ v1 :: (l1 ++ v2 :: l2)).
  { intros u Hu. change (u ∈ (v1 :: l1) ++ v2 :: l2). apply elem_of_app. by right. }
  assert (Hsplit : forall u, u ∈ v1 :: (l1 ++ v2 :: l2) -> u ∈ v1 :: l1 \/ u ∈ v2 :: l2).
  { intros u Hu. change (u ∈ (v1 :: l1) ++ v2 :: l2) in Hu. by apply elem_of_app in Hu. }
  apply Exists_exists in Aa as (ua & Hua & Ea).
  apply Exists_exists in Ab as (ub & Hub & Eb).
  apply Exists_exists in Aa1 as (ua1 & Hua1 & Ea1).
  apply Exists_exists in Ab1 as (ub1 & Hub1 & Eb1).
  apply Exists_exists in Aa2 as (ua2 & Hua2 & Ea2).
  apply Exists_exists in Ab2 as (ub2 & Hub2 & Eb2).
  assert (a <= a1)%Q by (rewrite Ea1; by apply La, Hin1).
  assert (a <= a2)%Q by (rewrite Ea2; by apply La, Hin2).
  assert (b1 <= b)%Q by (rewrite Eb1; by apply Ub, Hin1).
  assert (b2 <= b)%Q by (rewrite Eb2; by apply Ub, Hin2).
  assert (a1 <= a \/ a2 <= a)%Q.
  { rewrite Ea. destruct (Hsplit _ Hua); [left; by apply La1 | right; by apply La2]. }
  assert (b <= b1 \/ b <= b2)%Q.
  { rewrite Eb. destruct (Hsplit _ Hub); [left; by apply Ub1 | right; by apply Ub2]. }
  split.
  - destruct (Qlt_bool a2 a1) eqn:E;
      [apply Qlt_bool_true in E | apply Qlt_bool_false in E]; lra.
  - destruct (Qlt_bool b1 b2) eqn:E;
      [apply Qlt_bool_true in E | apply Qlt_bool_false in E]; lra.
Qed.

(** ** The GPU settings of the two renderers *)

(** X3: the animal renderer assigns the METAL device outside any try
    block.  On a build whose Cycles add-on does not offer METAL the
    assignment raises, and the batch stops there: [main] raises the
    TypeError after its banner, no model is imported, nothing is rendered
    and no summary is printed, whatever the list of animals. *)
Theorem animal_batch_stops_without_metal (h : host)
    (animals : list (string * string)) (w : world) :
  cycles_prefs h = Some false ->
  exists msg w',
    RenderAnimalPortraits.main_over h animals w = (Raise (TypeError msg), w') /\
    trace w' = trace w ++
      [Print (nl +:+ str_times "=" 60);
       Print "Homestead Headaches - Animal Portrait Renderer";
       Print (str_times "=" 60);
       MakeDirs (RenderAnimalPortraits.OUTPUT_DIR h);
       Print ("Output directory: " +:+ RenderAnimalPortraits.OUTPUT_DIR h)] /\
    objects w' = objects w /\
    outputs (trace w') = outputs (trace w).
Proof.
  intros Hc.
  unfold RenderAnimalPortraits.main_over, RenderAnimalPortraits.setup_render_settings.
  mstep. rewrite Hc. unfold assign_metal, raise. mstep.
  eexists _, _. split; [reflexivity|]. simpl. split_and!.
  - by rewrite <- !app_assoc.
  - done.
  - rewrite <- !app_assoc, outputs_app. cbn. by rewrite app_nil_r.
Qed.

Lemma animal_batch_stops_without_metal_witness :
  cycles_prefs no_metal_host = Some false /\
  exists msg w',
    RenderAnimalPortraits.main no_metal_host initial_world
      = (Raise (TypeError msg), w') /\
    objects w' = [] /\ outputs (trace w') = [].
Proof.
  split; [reflexivity|].
  destruct (animal_batch_stops_without_metal no_metal_host
              RenderAnimalPortraits.ANIMALS initial_world eq_refl)
    as (msg & w' & E & _ & Ho & Hout).
  by exists msg, w'.
Defined.

(** X4: the farmer renderer makes the same assignment inside try/except.
    [setup_render] returns on every host: the output settings are written
    (Cycles, 128 samples, 512 x 640, transparent RGBA PNG), and the device
    becomes the GPU exactly when the add-on is there and accepts METAL;
    otherwise compute device and device stay what they were.  Nothing is
    printed and no object is touched. *)
Theorem farmer_setup_render_total (h : host) (w : world) :
  exists w',
    RenderFarmerPortraits.setup_render h w = (Ok tt, w') /\
    render w' =
      (let r := output_settings 128 512 640 (render w) in
       if bool_decide (cycles_prefs h = Some true)
       then RenderSettings (engine r) (samples r) (use_denoising r)
              (resolution_x r) (resolution_y r) (resolution_percentage r)
              (film_transparent r) (file_format r) (color_mode r) (compression r)
              "METAL" "GPU" (filepath r)
       else r) /\
    compute_device_type (render w') =
      (if bool_decide (cycles_prefs h = Some true) then "METAL"
       else compute_device_type (render w)) /\
    device (render w') =
      (if bool_decide (cycles_prefs h = Some true) then "GPU"
       else device (render w)) /\
    objects w' = objects w /\ trace w' = trace w.
Proof.
  unfold RenderFarmerPortraits.setup_render. mstep.
  destruct (cycles_prefs h) as [[|]|]; rewrite ?try_except_unfold;
    unfold assign_metal, raise; mstep; eexists; (split; [reflexivity|]);
    by split_and!.
Qed.

(** ** A model file that is not there *)

(** the studio of the animal renderer, from an empty scene *)
Lemma animal_studio_run (w : world) :
  (RenderAnimalPortraits.setup_lighting;; RenderAnimalPortraits.setup_camera)
    (delete_all w)
  = (Ok (3 + next_oid w),
     World (animal_studio (next_oid w)) [] None (mode w) (Some (3 + next_oid w))
           (render w) (4 + next_oid w) (trace w)).
Proof.
  unfold RenderAnimalPortraits.setup_lighting, RenderAnimalPortraits.setup_camera.
  set (w0 := delete_all w).
  assert (Hw0 : wf w0) by apply wf_delete_all.
  rewrite bind_unfold, bind_unfold, add_light_run by done. cbv beta iota.
  set (w1 := with_new w0 _).
  assert (Hw1 : wf w1) by (by apply wf_with_new).
  rewrite bind_unfold, add_light_run by done. cbv beta iota.
  set (w2 := with_new w1 _).
  assert (Hw2 : wf w2) by (by apply wf_with_new).
  rewrite add_light_run by done. cbv beta iota.
  set (w3 := with_new w2 _).
  assert (Hw3 : wf w3) by (by apply wf_with_new).
  rewrite bind_unfold, create_object_run. cbv beta iota.
  rewrite bind_unfold, update_new by done. cbv beta iota.
  rewrite bind_unfold, update_new by done. cbv beta iota.
  mstep. reflexivity.
Qed.

(** X5: the farmer renderer looks for the file before it touches the
    scene.  For a farmer whose GLB is not on disk [render_farmer] prints
    its banner and the error, returns False, and leaves everything else as
    it was: objects (the previous farmer included), selection, camera and
    settings. *)
Theorem farmer_missing_file_keeps_scene (h : host)
    (farmer_config : RenderFarmerPortraits.farmer_config) (w : world) :
  path_exists h (RenderFarmerPortraits.glb farmer_config) = false ->
  RenderFarmerPortraits.render_farmer h farmer_config w =
  (Ok false,
   printed [nl +:+ str_times "=" 50;
            "Rendering: " +:+ RenderFarmerPortraits.label farmer_config;
            str_times "=" 50;
            "  ERROR: GLB not found: " +:+ RenderFarmerPortraits.glb farmer_config] w).
Proof.
  intros Hex.
  unfold RenderFarmerPortraits.render_farmer, RenderFarmerPortraits.load_and_pose.
  cbv zeta. mstep. rewrite Hex. cbn [negb]. cbv iota. mstep.
  unfold printed, emit.
  cbn [objects selected active mode camera render next_oid trace fmap list_fmap].
  by rewrite <- !app_assoc.
Qed.

Lemma farmer_missing_file_keeps_scene_witness :
  path_exists bare_host (RenderFarmerPortraits.glb john) = false /\
  objects (RenderFarmerPortraits.render_farmer bare_host john posed_world).2
    = objects posed_world.
Proof.
  split; [reflexivity|].
  by rewrite (farmer_missing_file_keeps_scene bare_host john posed_world eq_refl).
Defined.

(** X6: the animal renderer clears the scene and builds its studio before
    it looks for the file.  For a model that is not on disk
    [render_portrait] returns False with the error printed, and the scene
    it leaves is the fresh studio: the three area lights and the
    orthographic camera, set as the scene camera; whatever was in the
    scene before is gone, nothing is selected, and nothing was imported or
    rendered. *)
Theorem animal_missing_file_leaves_studio (h : host)
    (model_name output_filename : string) (w : world) :
  path_exists h (model_path h model_name) = false ->
  RenderAnimalPortraits.render_portrait h model_name output_filename w =
  (Ok false,
   World (animal_studio (next_oid w)) [] None (mode w) (Some (3 + next_oid w))
         (render w) (4 + next_oid w)
         (trace w ++
          [Print (nl +:+ str_times "=" 50);
           Print ("Rendering: " +:+ model_name);
           Print (str_times "=" 50);
           Print ("ERROR: Model not found: " +:+ model_path h model_name)])).
Proof.
  intros Hex. unfold RenderAnimalPortraits.render_portrait,
    RenderAnimalPortraits.clear_scene.
  cbv zeta. fold (model_path h model_name). mstep.
  match goal with |- context [RenderAnimalPortraits.setup_lighting ?w0] =>
    pose proof (animal_studio_run
      (emit (Print (str_times "=" 50))
         (emit (Print ("Rendering: " +:+ model_name))
            (emit (Print (nl +:+ str_times "=" 50)) w)))) as Hs
  end.
  rewrite bind_unfold in Hs.
  destruct (RenderAnimalPortraits.setup_lighting _) as [[[]|e] w1]; [|done].
  cbv beta iota. rewrite bind_unfold, Hs. cbv beta iota. rewrite Hex. cbn [negb]. cbv iota. mstep.
  unfold emit.
  cbn [objects selected active mode camera render next_oid trace].
  by rewrite <- !app_assoc.
Qed.

Lemma animal_missing_file_leaves_studio_witness :
  path_exists bare_host (model_path bare_host "cow") = false /\
  objects (RenderAnimalPortraits.render_portrait bare_host "cow" "cow_portrait.png"
             posed_world).2 = animal_studio 2.
Proof.
  split; [reflexivity|].
  by rewrite (animal_missing_file_leaves_studio bare_host "cow" "cow_portrait.png"
                posed_world eq_refl).
Defined.

(** ** What centring and scaling does to the scene *)

Lemma scan_objects_fold (objs : list nat) (b : bounds) (w : world) :
  for_fold objs b (fun b obj =>
      o ← deref obj;
      mret (accumulate b (mat_apply (matrix_world o) <$> corners (bound_box o)))) w =
  match mapM (fun i => find_object i (objects w)) objs with
  | Some os => (Ok (accumulate b (os ≫= box_corners)), w)
  | None => (Raise ReferenceError, w)
  end.
Proof.
  revert b. induction objs as [|i objs IH]; intros b; [done|].
  cbn [for_fold mapM]. rewrite !bind_unfold. unfold deref at 1.
  destruct (find_object i (objects w)) as [o|]; [|done].
  rewrite ret_unfold, IH. cbn [mbind option_bind].
  destruct (mapM _ objs) as [os|]; [|done].
  cbn [mbind option_bind mret option_ret list_bind].
  by rewrite accumulate_app.
Qed.

Lemma scan_objects_scan (objs : list nat) (w : world) :
  RenderAnimalPortraits.scan_objects objs w =
  match mapM (fun i => find_object i (objects w)) objs with
  | Some os => (Ok (compute_bounds (os ≫= box_corners)), w)
  | None => (Raise ReferenceError, w)
  end.
Proof. apply scan_objects_fold. Qed.

Lemma mapM_find_alive_all (objs : list nat) (os : list object) (l : list object) :
  mapM (fun i => find_object i l) objs = Some os ->
  Forall (fun i => alive i l) objs.
Proof.
  revert os. induction objs as [|i objs IH]; intros os H; [constructor|].
  cbn [mapM] in H. destruct (find_object i l) as [o|] eqn:Ho; [|done].
  cbn [mbind option_bind] in H.
  destruct (mapM _ objs) as [os'|] eqn:E; [|done].
  constructor; [|by eapply IH].
  apply find_object_alive. by rewrite Ho.
Qed.

Lemma alter_object_compose (f g : object -> object) (i : nat) (l : list object) :
  (forall o, oid (f o) = oid o) ->
  alter_object g i (alter_object f i l) = alter_object (g ∘ f) i l.
Proof.
  intros Hf. unfold alter_object. rewrite <- list_fmap_compose.
  apply list_fmap_ext. intros _ o _. simpl.
  destruct (decide (oid o = i)) as [E|E].
  - by rewrite Hf, decide_True.
  - by rewrite decide_False.
Qed.

Lemma alter_object_oids (f : object -> object) (i : nat) (l : list object) :
  (forall o, oid (f o) = oid o) ->
  oid <$> alter_object f i l = oid <$> l.
Proof.
  intros Hf. unfold alter_object. rewrite <- list_fmap_compose.
  apply list_fmap_ext. intros _ o _. simpl. by case_decide.
Qed.

(** the four assignments of the loop body, as one *)
Lemma recentre_updates (center : vec pyfloat) (scale_factor : pyfloat) (i : nat)
    (w : world) :
  alive i (objects w) ->
  (update i (fun o => set_location
       (vset (location o) AX (fsub (vx (location o)) (vx center))) o);;
   update i (fun o => set_location
       (vset (location o) AY (fsub (vy (location o)) (vy center))) o);;
   update i (fun o => set_location
       (vset (location o) AZ (fsub (vz (location o)) (vz center))) o);;
   update i (fun o => set_scale
       (vmap (fun s => fmul s scale_factor) (scale o)) o)) w
  = (Ok tt, set_objects (alter_object (recentred center scale_factor) i (objects w)) w).
Proof.
  intros Hi.
  rewrite bind_unfold, update_alive by done. cbv beta iota.
  rewrite bind_unfold, update_alive
    by (unfold alive; cbn [objects set_objects]; by rewrite alter_object_oids).
  cbv beta iota.
  rewrite bind_unfold, update_alive
    by (unfold alive; cbn [objects set_objects]; by rewrite !alter_object_oids).
  cbv beta iota.
  rewrite update_alive
    by (unfold alive; cbn [objects set_objects]; by rewrite !alter_object_oids).
  cbn [objects set_objects]. rewrite !alter_object_compose by done.
  reflexivity.
Qed.

Lemma recentre_loop (center : vec pyfloat) (scale_factor : pyfloat)
    (objs : list nat) (w : world) :
  NoDup objs -> Forall (fun i => alive i (objects w)) objs ->
  for_each objs (fun obj =>
    update obj (fun o => set_location
       (vset (location o) AX (fsub (vx (location o)) (vx center))) o);;
    update obj (fun o => set_location
       (vset (location o) AY (fsub (vy (location o)) (vy center))) o);;
    update obj (fun o => set_location
       (vset (location o) AZ (fsub (vz (location o)) (vz center))) o);;
    update obj (fun o => set_scale
       (vmap (fun s => fmul s scale_factor) (scale o)) o)) w
  = (Ok tt, set_objects
              (on_targets objs (recentred center scale_factor) <$> objects w) w).
Proof.
  intros Hnd. revert w. induction Hnd as [|i objs Hi Hnd IH]; intros w Hal.
  - cbn [for_each]. rewrite ret_unfold. f_equal.
    replace (on_targets [] (recentred center scale_factor) <$> objects w)
      with (objects w); [by destruct w|].
    rewrite <- (list_fmap_id (objects w)) at 1.
    apply list_fmap_ext. intros _ o _. unfold on_targets.
    rewrite bool_decide_eq_false_2; [done|]. apply not_elem_of_nil.
  - inversion Hal as [|? ? Hai Hal']; subst.
    cbn [for_each]. rewrite bind_unfold, recentre_updates by done. cbv beta iota.
    rewrite IH.
    2:{ eapply Forall_impl; [exact Hal'|]. intros j Hj. unfold alive.
        cbn [objects set_objects]. by rewrite alter_object_oids. }
    cbn [objects set_objects]. unfold set_objects.
    cbn [objects selected active mode camera render next_oid trace].
    do 2 f_equal. unfold alter_object. rewrite <- list_fmap_compose.
    apply list_fmap_ext. intros _ o _. simpl. unfold on_targets.
    destruct (decide (oid o = i)) as [E|E].
    + rewrite bool_decide_eq_false_2 by (simpl; by rewrite E).
      rewrite bool_decide_eq_true_2; [done|]. rewrite E. apply list_elem_of_here.
    + destruct (decide (oid o ∈ objs)) as [Hin|Hin].
      * rewrite !bool_decide_eq_true_2; [done| |done].
        by apply list_elem_of_further.
      * rewrite !bool_decide_eq_false_2; [done| |done].
        intros H. apply elem_of_cons in H as [H|H]; done.
Qed.

(** the run of [center_and_scale_model] once centre and factor are known *)
Lemma center_and_scale_model_with (objs : list nat) (os : list object) (w : world)
    (center : vec pyfloat) (scale_factor : pyfloat) :
  objs <> [] -> NoDup objs ->
  mapM (fun i => find_object i (objects w)) objs = Some os ->
  center_and_scale (compute_bounds (os ≫= box_corners)) (Fin (18 # 10))
    = Ok (center, scale_factor) ->
  RenderAnimalPortraits.center_and_scale_model objs w =
  (Ok tt, set_objects (on_targets objs (recentred center scale_factor) <$> objects w) w).
Proof.
  intros Hne Hnd Hos Hcs.
  pose proof (mapM_find_alive_all _ _ _ Hos) as Hal.
  destruct objs as [|i objs]; [done|].
  unfold RenderAnimalPortraits.center_and_scale_model.
  rewrite bind_unfold, scan_objects_scan, Hos. cbv beta iota.
  rewrite bind_unfold, lift_unfold. unfold RenderAnimalPortraits.target_size.
  rewrite Hcs. cbv beta iota.
  by apply recentre_loop.
Qed.

(** X7: on a non-empty list of distinct live objects
    [center_and_scale_model] never raises and treats every listed object
    alike: one centre, that of the box around all their world-space box
    corners, is subtracted from each location, and each scale is multiplied
    by one finite factor, that of [center_and_scale] for the target 1.8.
    Objects that are not listed, and every other field of the listed ones,
    are left as they were, and so are selection, camera, settings and
    trace. *)
Theorem center_and_scale_model_effect (objs : list nat) (os : list object)
    (w : world) :
  objs <> [] -> NoDup objs ->
  mapM (fun i => find_object i (objects w)) objs = Some os ->
  exists (center : vec pyfloat) (scale_factor : Q),
    center_and_scale (compute_bounds (os ≫= box_corners)) (Fin (18 # 10))
      = Ok (center, Fin scale_factor) /\
    RenderAnimalPortraits.center_and_scale_model objs w =
    (Ok tt,
     set_objects (on_targets objs (recentred center (Fin scale_factor)) <$> objects w) w).
Proof.
  intros Hne Hnd Hos.
  destruct (center_of_total (compute_bounds (os ≫= box_corners))) as [c Hc].
  destruct (scale_factor_finite (18 # 10) (size_of (compute_bounds (os ≫= box_corners))))
    as [s Hs].
  exists c, s.
  assert (Hcs : center_and_scale (compute_bounds (os ≫= box_corners)) (Fin (18 # 10))
                = Ok (c, Fin s)).
  { unfold center_and_scale. by rewrite Hc, Hs. }
  split; [exact Hcs|]. by apply (center_and_scale_model_with _ os).
Qed.

Lemma center_and_scale_model_effect_witness :
  [0; 1] <> [] /\ NoDup [0; 1] /\
  exists os,
    mapM (fun i => find_object i (objects two_part_world)) [0; 1] = Some os /\
    exists center scale_factor w',
      RenderAnimalPortraits.center_and_scale_model [0; 1] two_part_world
        = (Ok tt, w') /\
      location <$> objects w'
        = [Vec (fsub (Fin 0) (vx center)) (fsub (Fin 0) (vy center))
               (fsub (Fin 0) (vz center));
           Vec (fsub (Fin 1) (vx center)) (fsub (Fin 1) (vy center))
               (fsub (Fin 2) (vz center));
           vrepeat (Fin 5)] /\
      scale <$> objects w'
        = [vrepeat (fmul (Fin 1) (Fin scale_factor));
           vrepeat (fmul (Fin 1) (Fin scale_factor));
           vrepeat (Fin 1)].
Proof.
  assert (Hne : [0; 1] <> ([] : list nat)) by done.
  assert (Hnd : NoDup [0; 1]) by (by apply (bool_decide_unpack (NoDup [0; 1]))).
  split; [exact Hne|]. split; [exact Hnd|].
  eexists. split; [reflexivity|].
  destruct (center_and_scale_model_effect [0; 1] _ two_part_world Hne Hnd eq_refl)
    as (center & s & _ & E).
  exists center, s. eexists. split; [exact E|]. split; reflexivity.
Defined.

(** ** The scene one animal portrait is rendered from *)

Lemma load_glb_exact (h : host) (filepath : string) (l : list object) (w : world) :
  wf w -> gltf_file h filepath = Ok l ->
  RenderAnimalPortraits.load_glb h filepath w
  = (Ok (oid <$> meshes_of (instantiate (next_oid w) l)),
     add_imported l (emit (ImportGltf filepath) w)).
Proof.
  intros Hw Hl. unfold RenderAnimalPortraits.load_glb.
  mstep. rewrite Hl. mstep.
  by rewrite selected_after_import.
Qed.

Lemma mapM_find_unique (l os : list object) :
  NoDup (oid <$> l) -> Forall (fun o => o ∈ l) os ->
  mapM (fun i => find_object i l) (oid <$> os) = Some os.
Proof.
  intros Hnd. induction 1 as [|o os Ho _ IH]; [done|].
  cbn [fmap list_fmap mapM]. rewrite find_object_unique by done.
  cbn [mbind option_bind]. by rewrite IH.
Qed.

Lemma meshes_of_imap_bind {B} (F : nat -> object -> object) (g : object -> list B)
    (l : list object) :
  (forall k o, type (F k o) = type o) -> (forall k o, g (F k o) = g o) ->
  meshes_of (imap F l) ≫= g = meshes_of l ≫= g.
Proof.
  revert F. induction l as [|o l IH]; intros F Ht Hg; [done|].
  cbn [imap]. unfold meshes_of in *. rewrite !filter_cons, Ht.
  case_decide; cbn [mbind list_bind]; [rewrite Hg; f_equal|];
    (apply IH; intros k o'; [apply Ht | apply Hg]).
Qed.

Lemma meshes_of_instantiate_corners (base : nat) (l : list object) :
  meshes_of (instantiate base l) ≫= box_corners = meshes_of l ≫= box_corners.
Proof. by apply meshes_of_imap_bind. Qed.

Lemma wf_animal_studio (n : nat) (md : string) (c : option nat)
    (r : render_settings) (t : list event) :
  wf (World (animal_studio n) [] None md c r (4 + n) t).
Proof. unfold wf. repeat constructor; simpl; lia. Qed.

Lemma on_meshes_no_mesh (f : object -> object) (l : list object) :
  meshes_of l = [] -> on_meshes f <$> l = l.
Proof.
  intros H. apply meshes_of_nil in H.
  rewrite <- (list_fmap_id l) at 2. apply list_fmap_ext. intros k o Ho.
  unfold on_meshes. rewrite bool_decide_eq_false_2; [done|].
  apply list_elem_of_lookup_2 in Ho. by apply (proj1 (Forall_forall _ _) H).
Qed.

(** the run of [render_portrait] on a model whose file imports *)
Lemma render_portrait_scene (h : host) (model_name output_filename : string)
    (l : list object) (w : world) :
  path_exists h (model_path h model_name) = true ->
  gltf_file h (model_path h model_name) = Ok l ->
  exists (center : vec pyfloat) (scale_factor : Q) (w' : world),
    RenderAnimalPortraits.render_portrait h model_name output_filename w
      = (Ok (bool_decide (meshes_of l <> [])), w') /\
    center_and_scale (compute_bounds (meshes_of l ≫= box_corners)) (Fin (18 # 10))
      = Ok (center, Fin scale_factor) /\
    objects w' =
      animal_studio (next_oid w) ++
      (on_meshes (recentred center (Fin scale_factor))
         <$> instantiate (4 + next_oid w) l) /\
    camera w' = Some (3 + next_oid w) /\
    selected w' = seq (4 + next_oid w) (length l).
Proof.
  intros Hex Hl.
  destruct (center_of_total (compute_bounds (meshes_of l ≫= box_corners))) as [c Hc].
  destruct (scale_factor_finite (18 # 10)
              (size_of (compute_bounds (meshes_of l ≫= box_corners)))) as [s Hs].
  assert (Hcs : center_and_scale (compute_bounds (meshes_of l ≫= box_corners))
                  (Fin (18 # 10)) = Ok (c, Fin s)).
  { unfold center_and_scale. by rewrite Hc, Hs. }
  exists c, s.
  unfold RenderAnimalPortraits.render_portrait, RenderAnimalPortraits.clear_scene.
  cbv zeta. fold (model_path h model_name). mstep.
  match goal with |- context [RenderAnimalPortraits.setup_lighting (delete_all ?w0)] =>
    pose proof (animal_studio_run w0) as Hst; set (wp := w0) in *
  end.
  rewrite bind_unfold in Hst.
  destruct (RenderAnimalPortraits.setup_lighting _) as [[[]|e] w1]; [|done].
  cbv beta iota. rewrite bind_unfold, Hst. cbv beta iota.
  rewrite Hex. cbn [negb]. cbv iota.
  set (n := next_oid w).
  change (next_oid wp) with n.
  set (w2 := World (animal_studio n) [] None (mode wp) (Some (3 + n)) (render wp)
                   (4 + n) (trace wp)).
  assert (Hw2 : wf w2) by apply wf_animal_studio.
  rewrite bind_unfold, (load_glb_exact h _ l w2 Hw2 Hl). cbv beta iota.
  change (next_oid w2) with (4 + n).
  set (w3 := add_imported l (emit (ImportGltf (model_path h model_name)) w2)).
  assert (Ho3 : objects w3 = animal_studio n ++ instantiate (4 + n) l) by done.
  assert (Hs3 : selected w3 = seq (4 + n) (length l)).
  { unfold w3, add_imported. cbn [selected set_next_oid set_selected].
    apply instantiate_oids. }
  assert (Hc3 : camera w3 = Some (3 + n)) by done.
  clearbody w3.
  assert (Hnd3 : NoDup (oid <$> objects w3)).
  { rewrite Ho3, fmap_app, instantiate_oids.
    change (oid <$> animal_studio n) with (seq n 4).
    replace (4 + n) with (n + 4) by lia. rewrite <- seq_app. apply NoDup_seq. }
  pose proof (meshes_of_instantiate_length (4 + n) l) as Hlen.
  destruct (meshes_of (instantiate (4 + n) l)) as [|m ms] eqn:Hms.
  - assert (Hl0 : meshes_of l = []).
    { destruct (meshes_of l); [done|]. simpl in Hlen. lia. }
    cbn [fmap list_fmap]. mstep. eexists. split_and!.
    + rewrite Hl0. by rewrite bool_decide_eq_false_2 by tauto.
    + done.
    + cbn [objects emit]. rewrite Ho3. f_equal. symmetry.
      by apply on_meshes_no_mesh.
    + exact Hc3.
    + cbn [selected emit]. exact Hs3.
  - assert (Hl1 : meshes_of l <> []).
    { intros E. rewrite E in Hlen. simpl in Hlen. lia. }
    rewrite bool_decide_eq_true_2 by done.
    set (ms3 := m :: ms) in *.
    assert (Hsub : Forall (fun o => o ∈ objects w3) ms3).
    { apply Forall_forall. intros o Ho. rewrite Ho3, <- Hms in *.
      apply elem_of_app. right. by apply list_elem_of_filter in Ho as [_ Ho]. }
    assert (Hfind : mapM (fun i => find_object i (objects w3)) (oid <$> ms3)
                    = Some ms3) by (by apply mapM_find_unique).
    assert (Hnd : NoDup (oid <$> ms3)).
    { rewrite <- Hms. unfold meshes_of.
      eapply NoDup_fmap_2_strong; [|apply NoDup_filter].
      - intros x y Hx Hy Hxy.
        apply list_elem_of_filter in Hx as [_ Hx].
        apply list_elem_of_filter in Hy as [_ Hy].
        assert (Hx3 : x ∈ objects w3) by (rewrite Ho3; apply elem_of_app; by right).
        assert (Hy3 : y ∈ objects w3) by (rewrite Ho3; apply elem_of_app; by right).
        pose proof (find_object_unique x _ Hnd3 Hx3) as Fx.
        pose proof (find_object_unique y _ Hnd3 Hy3) as Fy.
        rewrite Hxy in Fx. congruence.
      - eapply NoDup_fmap_1. rewrite instantiate_oids. apply NoDup_seq. }
    assert (Hne : oid <$> ms3 <> []) by done.
    assert (Hb : ms3 ≫= box_corners = meshes_of l ≫= box_corners).
    { rewrite <- Hms. apply meshes_of_instantiate_corners. }
    assert (Hcs3 := Hcs). rewrite <- Hb in Hcs3.
    change (oid <$> ms3) with (oid m :: (oid <$> ms)) in *.
    eexists. split.
    { cbv iota. mstep.
      match goal with
      | |- context [RenderAnimalPortraits.center_and_scale_model ?o ?w0] =>
        rewrite (center_and_scale_model_with o ms3 w0 c (Fin s) Hne Hnd Hfind Hcs3)
      end.
      mstep. unfold render_still. by mstep. }
    split_and!; try done.
    cbn [objects emit set_render set_objects]. rewrite Ho3, fmap_app. f_equal.
      * rewrite <- (list_fmap_id (animal_studio n)) at 2.
        apply list_fmap_ext. intros k o Ho. unfold on_targets.
        rewrite bool_decide_eq_false_2; [done|].
        apply list_elem_of_lookup_2 in Ho.
        intros Hin.
        change (oid m :: (oid <$> ms)) with (oid <$> ms3) in Hin.
        apply list_elem_of_fmap in Hin as (o' & Eo & Ho').
        rewrite <- Hms in Ho'. apply list_elem_of_filter in Ho' as [_ Ho'].
        apply (list_elem_of_fmap_2 oid) in Ho'. rewrite instantiate_oids in Ho'.
        apply elem_of_seq in Ho'.
        apply (list_elem_of_fmap_2 oid) in Ho.
        change (oid <$> animal_studio n) with (seq n 4) in Ho.
        apply elem_of_seq in Ho. lia.
      * apply list_fmap_ext. intros k o Ho. unfold on_targets, on_meshes.
        apply list_elem_of_lookup_2 in Ho.
        change (oid m :: (oid <$> ms)) with (oid <$> ms3).
        destruct (decide (type o = MESH)) as [Ht|Ht].
        -- rewrite !bool_decide_eq_true_2; [done|done|].
           apply list_elem_of_fmap_2. rewrite <- Hms.
           by apply list_elem_of_filter.
        -- rewrite !bool_decide_eq_false_2; [done|done|].
           intros Hin. apply list_elem_of_fmap in Hin as (o' & Eo & Ho').
           assert (Ho3' : o' ∈ objects w3).
           { by apply (proj1 (Forall_forall _ _) Hsub). }
           assert (Ho3'' : o ∈ objects w3).
           { rewrite Ho3. apply elem_of_app. by right. }
           pose proof (find_object_unique o _ Hnd3 Ho3'') as Fo.
           pose proof (find_object_unique o' _ Hnd3 Ho3') as Fo'.
           rewrite <- Eo in Fo'. assert (o = o') by congruence. subst o'.
           rewrite <- Hms in Ho'. by apply list_elem_of_filter in Ho' as [Ht' _].
Qed.

(** X8: a model whose file is present and imports.  [render_portrait]
    returns True exactly when the file holds a mesh object, and the scene
    it leaves is the fresh studio followed by the objects of the file and
    nothing else: nothing of the scene before survives.  Every imported
    mesh object has been moved by one centre and scaled by one finite
    factor, those of [center_and_scale] on the box around the world-space
    box corners of all the meshes of the file; imported objects that are
    not meshes have the location and scale they were imported with.  The
    scene camera is the studio camera and the imported objects are the
    selection. *)
Theorem animal_portrait_scene (h : host) (model_name output_filename : string)
    (l : list object) (w : world) :
  path_exists h (model_path h model_name) = true ->
  gltf_file h (model_path h model_name) = Ok l ->
  exists (center : vec pyfloat) (scale_factor : Q) (w' : world),
    RenderAnimalPortraits.render_portrait h model_name output_filename w
      = (Ok (bool_decide (meshes_of l <> [])), w') /\
    center_and_scale (compute_bounds (meshes_of l ≫= box_corners)) (Fin (18 # 10))
      = Ok (center, Fin scale_factor) /\
    channels <$> objects w' =
      channels <$> (animal_studio (next_oid w) ++
                    (on_meshes (recentred center (Fin scale_factor))
                       <$> instantiate (4 + next_oid w) l)) /\
    camera w' = Some (3 + next_oid w) /\
    selected w' = seq (4 + next_oid w) (length l).
Proof.
  intros Hex Hl.
  destruct (render_portrait_scene h model_name output_filename l w Hex Hl)
    as (c & s & w' & E & Hcs & Ho & Hc & Hs).
  exists c, s, w'. split_and!; try done. by rewrite Ho.
Qed.

Lemma animal_portrait_scene_witness :
  path_exists farm_host (model_path farm_host "cow") = true /\
  gltf_file farm_host (model_path farm_host "cow")
    = Ok [sample_mesh "Body" [Vec 0 0 0; Vec 1 2 3]%Q] /\
  exists w',
    RenderAnimalPortraits.render_portrait farm_host "cow" "cow_portrait.png"
      initial_world = (Ok true, w') /\
    name <$> objects w' = ["KeyLight"; "FillLight"; "RimLight"; "PortraitCamera"; "Body"] /\
    camera w' = Some 3 /\ selected w' = [4].
Proof.
  split; [reflexivity|]. split; [reflexivity|].
  destruct (animal_portrait_scene farm_host "cow" "cow_portrait.png" _ initial_world
              eq_refl eq_refl) as (c & s & w' & E & _ & Ho & Hc & Hs).
  exists w'. split; [exact E|]. split; [|by split].
  apply (f_equal (fmap (fun c => c.1.1.1.1.1.2))) in Ho.
  rewrite <- !list_fmap_compose in Ho. exact Ho.
Defined.

(** ** A file that is there and cannot be imported *)

Lemma for_append_app {A B} (l1 l2 : list A) (acc : list B) (body : A -> M B)
    (w : world) :
  for_append (l1 ++ l2) acc body w =
  match for_append l1 acc body w with
  | (Ok acc', w') => for_append l2 acc' body w'
  | (Raise e, w') => (Raise e, w')
  end.
Proof.
  revert acc w. induction l1 as [|x l1 IH]; intros acc w; [done|].
  cbn [app for_append]. rewrite !bind_unfold.
  destruct (body x w) as [[b|e] w1]; [apply IH|done].
Qed.

Lemma for_each_app {A} (l1 l2 : list A) (body : A -> M unit) (w : world) :
  for_each (l1 ++ l2) body w =
  match for_each l1 body w with
  | (Ok _, w') => for_each l2 body w'
  | (Raise e, w') => (Raise e, w')
  end.
Proof.
  revert w. induction l1 as [|x l1 IH]; intros w; [done|].
  cbn [app for_each]. rewrite !bind_unfold.
  destruct (body x w) as [[[]|e] w1]; [apply IH|done].
Qed.

(** the importer raises: so does [render_portrait], after the banner and
    the import event *)
Lemma render_portrait_raise (h : host) (model_name output_filename : string)
    (e : exn) (w : world) :
  path_exists h (model_path h model_name) = true ->
  gltf_file h (model_path h model_name) = Raise e ->
  exists w',
    RenderAnimalPortraits.render_portrait h model_name output_filename w
      = (Raise e, w') /\
    trace w' = trace w ++
      [Print (nl +:+ str_times "=" 50);
       Print ("Rendering: " +:+ model_name);
       Print (str_times "=" 50);
       ImportGltf (model_path h model_name)].
Proof.
  intros Hex Hl.
  unfold RenderAnimalPortraits.render_portrait, RenderAnimalPortraits.clear_scene.
  cbv zeta. fold (model_path h model_name). mstep.
  match goal with |- context [RenderAnimalPortraits.setup_lighting (delete_all ?w0)] =>
    pose proof (animal_studio_run w0) as Hst
  end.
  rewrite bind_unfold in Hst.
  destruct (RenderAnimalPortraits.setup_lighting _) as [[[]|e'] w1]; [|done].
  cbv beta iota. rewrite bind_unfold, Hst. cbv beta iota.
  rewrite Hex. cbn [negb]. cbv iota.
  rewrite bind_unfold, (load_glb_raise h _ e _ Hl).
  eexists. split; [reflexivity|].
  unfold emit. cbn [trace]. by rewrite <- !app_assoc.
Qed.

(** X9: the animal renderer has no try block around the import.  When
    the importer raises on a file that is on disk, [render_portrait] and
    with it the whole batch raise that exception: the animals before it
    have been processed, the animals after it are never looked at, and no
    summary is printed.  (A file that is absent only fails its own
    portrait.) *)
Theorem animal_batch_stops_on_import_error (h : host)
    (before after : list (string * string)) (a : string * string) (e : exn)
    (w : world) :
  cycles_prefs h <> Some false ->
  Forall (fun a => importable h a.1) before ->
  path_exists h (model_path h a.1) = true ->
  gltf_file h (model_path h a.1) = Raise e ->
  exists w',
    RenderAnimalPortraits.main_over h (before ++ a :: after) w = (Raise e, w') /\
    trace w' = trace w ++
      [Print (nl +:+ str_times "=" 60);
       Print "Homestead Headaches - Animal Portrait Renderer";
       Print (str_times "=" 60);
       MakeDirs (RenderAnimalPortraits.OUTPUT_DIR h);
       Print ("Output directory: " +:+ RenderAnimalPortraits.OUTPUT_DIR h)] ++
      (before ≫= fun a => portrait_events h a.1 a.2) ++
      [Print (nl +:+ str_times "=" 50);
       Print ("Rendering: " +:+ a.1);
       Print (str_times "=" 50);
       ImportGltf (model_path h a.1)].
Proof.
  intros Hc Hb Hex Hl. destruct a as [nm out]. simpl in *.
  unfold RenderAnimalPortraits.main_over. mstep.
  match goal with |- context [RenderAnimalPortraits.setup_render_settings h ?w0] =>
    destruct (animal_setup_render_settings h w0 Hc) as (w1 & E1 & T1)
  end.
  rewrite E1. cbv beta iota. rewrite bind_unfold, for_append_app.
  destruct (render_loop_run h before [] w1 Hb) as (w2 & E2 & T2).
  rewrite E2. cbn [for_append]. rewrite !bind_unfold.
  destruct (render_portrait_raise h nm out e w2 Hex Hl) as (w3 & E3 & T3).
  rewrite E3. eexists. split; [reflexivity|].
  rewrite T3, T2, T1. unfold emit. cbn [trace].
  by rewrite <- !app_assoc.
Qed.

Lemma animal_batch_stops_on_import_error_witness :
  cycles_prefs corrupt_pig_host <> Some false /\
  Forall (fun a => importable corrupt_pig_host a.1) [("cow", "cow_portrait.png")] /\
  path_exists corrupt_pig_host (model_path corrupt_pig_host "pig") = true /\
  gltf_file corrupt_pig_host (model_path corrupt_pig_host "pig")
    = Raise (RuntimeError "Error: not a glTF file") /\
  exists w',
    RenderAnimalPortraits.main corrupt_pig_host initial_world
      = (Raise (RuntimeError "Error: not a glTF file"), w').
Proof.
  assert (Hc : cycles_prefs corrupt_pig_host <> Some false) by done.
  assert (Hb : Forall (fun a => importable corrupt_pig_host a.1)
                 [("cow", "cow_portrait.png")]).
  { repeat constructor. }
  split; [exact Hc|]. split; [exact Hb|]. split; [reflexivity|].
  split; [reflexivity|].
  destruct (animal_batch_stops_on_import_error corrupt_pig_host
              [("cow", "cow_portrait.png")]
              [("chicken", "chicken_portrait.png"); ("duck", "duck_portrait.png");
               ("sheep", "sheep_portrait.png")]
              ("pig", "pig_portrait.png") _ initial_world Hc Hb eq_refl eq_refl)
    as (w' & E & _).
  by exists w'.
Defined.

(** X10: in export_farmer_models.py the import of the character's own
    FBX stands outside the try block that guards the clips.  When it
    raises, [process_character] raises after its two log lines, nothing is
    exported for that character, and the characters after it are never
    processed. *)
Theorem export_batch_stops_on_import_error (h : host)
    (before after : list (string * ExportFarmerModels.config))
    (char_key : string) (config : ExportFarmerModels.config) (e : exn)
    (w w1 : world) :
  ExportFarmerModels.main_over h before w = (Ok tt, w1) ->
  fbx_file h (ExportFarmerModels.fbx config) false = Raise e ->
  exists w',
    ExportFarmerModels.main_over h (before ++ (char_key, config) :: after) w
      = (Raise e, w') /\
    trace w' = trace w1 ++
      [Print (nl +:+ "Processing " +:+ char_key +:+ "...");
       Print ("  Importing FBX: " +:+ ExportFarmerModels.fbx config);
       ImportFbx (ExportFarmerModels.fbx config) false] /\
    objects w' = [].
Proof.
  intros Hb Hl. unfold ExportFarmerModels.main_over in *.
  rewrite bind_unfold, modify_unfold in Hb. cbv beta iota in Hb.
  rewrite bind_unfold, modify_unfold. cbv beta iota.
  rewrite for_each_app, Hb. cbn [for_each]. rewrite bind_unfold.
  unfold ExportFarmerModels.process_character. mstep.
  rewrite import_fbx_unfold, Hl.
  eexists. split; [reflexivity|]. split; [|done].
  unfold emit, factory_reset. cbn [trace]. by rewrite <- !app_assoc.
Qed.

Lemma export_batch_stops_on_import_error_witness :
  ExportFarmerModels.main_over clip_host [] initial_world
    = (Ok tt, emit (MakeDirs ExportFarmerModels.OUTPUT_DIR) initial_world) /\
  fbx_file clip_host "/assets/Gone.fbx" false
    = Raise (RuntimeError "Error: Couldn't open file /assets/Gone.fbx") /\
  exists w',
    ExportFarmerModels.main_over clip_host
      [("mary", ExportFarmerModels.Config "/assets/Gone.fbx" "Farmer_Martha" []);
       ("john", george)] initial_world
    = (Raise (RuntimeError "Error: Couldn't open file /assets/Gone.fbx"), w') /\
    outputs (trace w') = [].
Proof.
  split; [reflexivity|]. split; [reflexivity|].
  destruct (export_batch_stops_on_import_error clip_host [] [("john", george)] "mary"
              (ExportFarmerModels.Config "/assets/Gone.fbx" "Farmer_Martha" [])
              _ initial_world _ eq_refl eq_refl) as (w' & E & T & _).
  exists w'. split; [exact E|]. by rewrite T.
Defined.

(** ** What [load_farmer_glb] returns *)

Lemma split_selection_spec (sel : list object) :
  RenderFarmerPortraits.split_selection sel =
  (oid <$> last (armatures_of sel), oid <$> meshes_of sel).
Proof.
  induction sel as [|o sel IH] using rev_ind; [done|].
  unfold RenderFarmerPortraits.split_selection in *. rewrite foldl_app, IH.
  unfold armatures_of, meshes_of. rewrite !filter_app, !filter_cons, !filter_nil.
  cbn [foldl]. destruct (type o) eqn:Ht.
  - rewrite decide_False, decide_True by done.
    by rewrite app_nil_r, fmap_app.
  - rewrite decide_True, decide_False by done.
    by rewrite last_snoc, app_nil_r.
  - rewrite !decide_False by done. by rewrite !app_nil_r.
  - rewrite !decide_False by done. by rewrite !app_nil_r.
  - rewrite !decide_False by done. by rewrite !app_nil_r.
Qed.

Lemma add_children_spec (kids : list object) (meshes : list nat) :
  NoDup meshes ->
  exists extra,
    RenderFarmerPortraits.add_children kids meshes = meshes ++ extra /\
    NoDup (meshes ++ extra) /\
    Forall (fun i => exists c, c ∈ kids /\ oid c = i /\ type c = MESH) extra /\
    Forall (fun c => type c = MESH -> oid c ∈ meshes ++ extra) kids.
Proof.
  unfold RenderFarmerPortraits.add_children.
  revert meshes. induction kids as [|c kids IH]; intros meshes Hnd.
  { exists []. rewrite app_nil_r. by split_and!. }
  cbn [foldl].
  destruct (bool_decide (type c = MESH) && bool_decide (oid c ∉ meshes)) eqn:E.
  - apply andb_true_iff in E as [Ht Hn].
    apply bool_decide_eq_true in Ht. apply bool_decide_eq_true in Hn.
    destruct (IH (meshes ++ [oid c])) as (extra & E1 & N1 & F1 & K1).
    { apply NoDup_app. split_and!; [done| |apply NoDup_singleton].
      intros x Hx Hx'. apply list_elem_of_singleton in Hx'. by subst. }
    exists (oid c :: extra). rewrite <- app_assoc in E1, N1, K1.
    split_and!; try done.
    + constructor.
      * exists c. split_and!; [apply list_elem_of_here|done|done].
      * eapply Forall_impl; [exact F1|]. intros i (c' & ? & ? & ?).
        exists c'. split_and!; [by apply list_elem_of_further|done|done].
    + constructor; [|exact K1].
      intros _. apply elem_of_app. right. apply list_elem_of_here.
  - destruct (IH meshes Hnd) as (extra & E1 & N1 & F1 & K1).
    exists extra. split_and!; try done.
    + eapply Forall_impl; [exact F1|]. intros i (c' & ? & ? & ?).
      exists c'. split_and!; [by apply list_elem_of_further|done|done].
    + constructor; [|exact K1].
      intros Ht. apply andb_false_iff in E as [E|E].
      * by apply bool_decide_eq_false in E.
      * apply bool_decide_eq_false in E. apply elem_of_app. left.
        by apply dec_stable.
Qed.

Lemma NoDup_meshes_of_instantiate (base : nat) (l : list object) :
  NoDup (oid <$> meshes_of (instantiate base l)).
Proof.
  pose proof (NoDup_seq base (length l)) as Hnd.
  rewrite <- instantiate_oids in Hnd. unfold meshes_of.
  induction (instantiate base l) as [|o os IH]; [constructor|].
  cbn in Hnd. apply NoDup_cons in Hnd as [Ho Hnd].
  rewrite filter_cons. case_decide; [|by apply IH].
  cbn. apply NoDup_cons. split; [|by apply IH].
  intros Hin. apply Ho. apply list_elem_of_fmap in Hin as (o' & -> & Hin).
  apply list_elem_of_filter in Hin as [_ Hin]. by apply list_elem_of_fmap_2.
Qed.

(** the run of [load_farmer_glb] on a file that imports *)
Lemma load_farmer_glb_exact (h : host) (filepath : string) (l : list object)
    (w : world) :
  wf w -> gltf_file h filepath = Ok l ->
  RenderFarmerPortraits.load_farmer_glb h filepath w =
  (Ok match last (armatures_of (instantiate (next_oid w) l)) with
      | Some ao =>
        (Some (oid ao),
         RenderFarmerPortraits.add_children
           (children (oid ao)
              (objects (add_imported l (emit (ImportGltf filepath) w))))
           (oid <$> meshes_of (instantiate (next_oid w) l)))
      | None => (None, oid <$> meshes_of (instantiate (next_oid w) l))
      end,
   add_imported l (emit (ImportGltf filepath) w)).
Proof.
  intros Hw Hl. unfold RenderFarmerPortraits.load_farmer_glb. mstep.
  rewrite Hl. mstep.
  rewrite selected_after_import by done. rewrite split_selection_spec.
  change (next_oid (emit (ImportGltf filepath) w)) with (next_oid w).
  by destruct (last (armatures_of (instantiate (next_oid w) l))).
Qed.



(** ** The idle pose *)

Lemma pose_bone_set_names (nm : string) (q : quaternion) (bs : list pose_bone) :
  bone_name <$> RenderFarmerPortraits.pose_bone_set nm q bs = bone_name <$> bs.
Proof.
  induction bs as [|b bs IH]; [done|].
  cbn [RenderFarmerPortraits.pose_bone_set]. case_bool_decide; [done|].
  cbn. by rewrite IH.
Qed.

(** with distinct bone names, setting a bone by name is a map *)
Lemma pose_bone_set_map (nm : string) (q : quaternion) (bs : list pose_bone) :
  NoDup (bone_name <$> bs) ->
  RenderFarmerPortraits.pose_bone_set nm q bs =
  (fun b => if bool_decide (bone_name b = nm)
            then PoseBone (bone_name b) "QUATERNION" q else b) <$> bs.
Proof.
  induction bs as [|b bs IH]; intros Hnd; [done|].
  cbn in Hnd. apply NoDup_cons in Hnd as [Hb Hnd].
  cbn [RenderFarmerPortraits.pose_bone_set fmap list_fmap].
  case_bool_decide as E; [|by rewrite IH].
  f_equal. rewrite <- (list_fmap_id bs) at 1.
  apply list_fmap_ext. intros k b' Hb'. simpl.
  rewrite bool_decide_eq_false_2; [done|].
  intros E'. apply Hb. rewrite E, <- E'.
  apply list_elem_of_fmap_2. by eapply list_elem_of_lookup_2.
Qed.

Lemma pose_table_map (table : list (string * quaternion)) (bs : list pose_bone) :
  NoDup table.*1 -> NoDup (bone_name <$> bs) ->
  foldl (fun bs '(nm, q) => RenderFarmerPortraits.pose_bone_set nm q bs) bs table =
  (fun b => match assoc (bone_name b) table with
            | Some q => PoseBone (bone_name b) "QUATERNION" q
            | None => b
            end) <$> bs.
Proof.
  revert bs. induction table as [|[nm q] table IH]; intros bs Ht Hb.
  { cbn. by rewrite list_fmap_id. }
  cbn in Ht. apply NoDup_cons in Ht as [Hnm Ht].
  cbn [foldl]. rewrite IH; [|done|by rewrite pose_bone_set_names].
  rewrite pose_bone_set_map by done. rewrite <- list_fmap_compose.
  apply list_fmap_ext. intros k b _. cbn [compose assoc].
  destruct (decide (nm = bone_name b)) as [E|E].
  - rewrite (bool_decide_eq_true_2 (bone_name b = nm)) by done.
    rewrite (bool_decide_eq_true_2 (nm = bone_name b)) by done.
    cbn [bone_name]. 
    assert (Hnone : assoc (bone_name b) table = None).
    { rewrite <- E. clear -Hnm. induction table as [|[k' v] table IH]; [done|].
      cbn [assoc]. rewrite bool_decide_eq_false_2.
      - apply IH. intros H. apply Hnm. cbn. by apply list_elem_of_further.
      - intros ->. apply Hnm. cbn. apply list_elem_of_here. }
    by rewrite Hnone.
  - rewrite (bool_decide_eq_false_2 (bone_name b = nm)) by done.
    by rewrite (bool_decide_eq_false_2 (nm = bone_name b)) by done.
Qed.

Lemma set_pose_bones_same (o : object) : set_pose_bones (pose_bones o) o = o.
Proof. by destruct o. Qed.

Lemma pose_loop (table : list (string * quaternion)) (a : nat) (w : world) :
  alive a (objects w) ->
  for_each table (fun '(nm, q) =>
    update a (fun o => set_pose_bones
      (RenderFarmerPortraits.pose_bone_set nm q (pose_bones o)) o)) w
  = (Ok tt,
     set_objects
       (alter_object
          (fun o => set_pose_bones
             (foldl (fun bs '(nm, q) => RenderFarmerPortraits.pose_bone_set nm q bs)
                    (pose_bones o) table) o) a (objects w)) w).
Proof.
  revert w. induction table as [|[nm q] table IH]; intros w Ha.
  - cbn [for_each foldl]. rewrite ret_unfold. f_equal.
    replace (alter_object _ a (objects w)) with (objects w); [by destruct w|].
    unfold alter_object. rewrite <- (list_fmap_id (objects w)) at 1.
    apply list_fmap_ext. intros k o _. simpl. case_decide; [|done].
    by rewrite set_pose_bones_same.
  - cbn [for_each]. rewrite bind_unfold, update_alive by done. cbv beta iota.
    rewrite IH
      by (unfold alive; cbn [objects set_objects]; by rewrite alter_object_oids).
    cbn [objects set_objects]. rewrite alter_object_compose by done.
    reflexivity.
Qed.

(** X12: [pose_idle] on a live armature whose bone names are distinct
    never raises, whatever bones the rig has.  Every bone the table names
    ends in quaternion mode with the rotation of the table; a bone the
    table does not name is left as it was, and a name of the table the rig
    does not have is skipped.  The armature becomes the active object, the
    mode is OBJECT again, and nothing else in the scene changes.  Without
    an armature, or on an object that is not one, the call changes
    nothing. *)
Theorem pose_idle_effect :
  (forall (a : nat) (ao : object) (w : world),
     find_object a (objects w) = Some ao -> type ao = ARMATURE ->
     Forall (fun o => NoDup (bone_name <$> pose_bones o)) (objects w) ->
     RenderFarmerPortraits.pose_idle (Some a) w =
     (Ok tt,
      World (alter_object (fun o => set_pose_bones (idle_bone <$> pose_bones o) o)
                          a (objects w))
            (selected w) (Some a) "OBJECT" (camera w) (render w) (next_oid w)
            (trace w))) /\
  (forall (a : nat) (ao : object) (w : world),
     find_object a (objects w) = Some ao -> type ao <> ARMATURE ->
     RenderFarmerPortraits.pose_idle (Some a) w = (Ok tt, w)) /\
  (forall w : world, RenderFarmerPortraits.pose_idle None w = (Ok tt, w)).
Proof.
  split_and!; [|by intros a ao w Ho Ht;
                   unfold RenderFarmerPortraits.pose_idle;
                   rewrite bind_unfold; unfold deref; rewrite Ho;
                   cbv beta iota; rewrite bool_decide_eq_true_2 by done
               |done].
  intros a ao w Ho Ht Hb.
  assert (Ha : alive a (objects w)) by (apply find_object_alive; by rewrite Ho).
  unfold RenderFarmerPortraits.pose_idle.
  rewrite bind_unfold. unfold deref at 1. rewrite Ho. cbv beta iota.
  rewrite bool_decide_eq_false_2 by (by intros H; apply H).
  mstep. rewrite pose_loop by done. cbv beta iota. mstep.
  unfold set_mode, set_active, set_objects.
  cbn [objects selected active mode camera render next_oid trace].
  f_equal. f_equal. unfold alter_object. apply list_fmap_ext. intros k o Hk.
  cbv beta. case_decide; [|done]. f_equal.
  apply (pose_table_map RenderFarmerPortraits.arm_rotations (pose_bones o)).
  - by apply (bool_decide_unpack (NoDup RenderFarmerPortraits.arm_rotations.*1)).
  - apply (proj1 (Forall_forall _ _) Hb). by eapply list_elem_of_lookup_2.
Qed.

Lemma pose_idle_effect_witness :
  exists ao,
  find_object 0 (objects rig_world) = Some ao /\ type ao = ARMATURE /\
  Forall (fun o => NoDup (bone_name <$> pose_bones o)) (objects rig_world) /\
  pose_bones <$> objects (RenderFarmerPortraits.pose_idle (Some 0) rig_world).2 =
    [[PoseBone "mixamorig:Spine" "XYZ" QuatIdentity;
      PoseBone "mixamorig:LeftArm" "QUATERNION"
        (QuatOfEuler (Vec (Rad 0) (Rad 0) (Radians 68)) "XYZ");
      PoseBone "mixamorig:LeftHand" "XYZ" QuatIdentity]].
Proof.
  assert (Hb : Forall (fun o => NoDup (bone_name <$> pose_bones o)) (objects rig_world)).
  { constructor; [|constructor].
    by apply (bool_decide_unpack (NoDup ["mixamorig:Spine"; "mixamorig:LeftArm";
                                         "mixamorig:LeftHand"])). }
  eexists. split; [reflexivity|]. split; [reflexivity|]. split; [exact Hb|].
  by rewrite (proj1 pose_idle_effect 0 _ rig_world eq_refl eq_refl Hb).
Defined.

(** ** A farmer without geometry *)

(** X13: the farmer renderer has no guard for meshes without vertices.
    When none of the meshes contributes a vertex the bounds stay at the
    two sentinels, and [frame_and_render] goes on: nothing raises (the
    only divisions are by 2), the height is printed as -inf and the centre
    as NaN, the camera is placed at height NaN, and the image is rendered
    and counted as a success. *)
Theorem farmer_without_vertices_is_rendered (h : host)
    (farmer_config : RenderFarmerPortraits.farmer_config)
    (armature : option nat) (meshes : list nat) (w : world) :
  wf w ->
  Forall (fun i => alive i (objects w)) (centering_targets armature meshes) ->
  Forall (fun i => exists o, find_object i (objects w) = Some o /\
                             RenderFarmerPortraits.world_cos h w o = []) meshes ->
  exists w' objs' cam,
    RenderFarmerPortraits.get_model_bounds h meshes w = (Ok sentinel, w) /\
    RenderFarmerPortraits.frame_and_render h farmer_config armature meshes w
      = (Ok true, w') /\
    objects w' = objs' ++ [cam] /\
    oid cam = next_oid w /\ location cam = Vec (Fin 0) (Fin (-4)) NaN /\
    camera w' = Some (next_oid w) /\
    trace w' = trace w ++
      [PrintNumbers "  Model height: " [NInf];
       PrintNumbers "  Center: " [NaN; NaN];
       Print ("  Rendering to: " +:+
              os_path_join (RenderFarmerPortraits.OUTPUT_DIR h)
                           (RenderFarmerPortraits.output farmer_config));
       RenderStill (os_path_join (RenderFarmerPortraits.OUTPUT_DIR h)
                                 (RenderFarmerPortraits.output farmer_config));
       Print ("  Done: " +:+ RenderFarmerPortraits.output farmer_config)].
Proof.
  intros Hw Ht Hm.
  assert (Hb : RenderFarmerPortraits.get_model_bounds h meshes w = (Ok sentinel, w)).
  { rewrite get_model_bounds_scan.
    assert (Hos : exists os, mapM (fun i => find_object i (objects w)) meshes = Some os /\
                             os ≫= RenderFarmerPortraits.world_cos h w = []).
    { clear Ht.
      induction Hm as [|i meshes' (o & Ho & Hc) _ (os & IH1 & IH2)]; [by exists []|].
      exists (o :: os). cbn [mapM]. rewrite Ho. cbn [mbind option_bind].
      rewrite IH1. split; [done|]. by rewrite bind_cons, Hc, IH2. }
    destruct Hos as (os & -> & ->). done. }
  destruct (frame_and_render_run h farmer_config armature meshes sentinel w Hw Hb Ht)
    as (w' & objs' & E & Ho & _ & Hc & T).
  exists w', objs', (portrait_camera (next_oid w) NaN). by split_and!.
Qed.

Lemma farmer_without_vertices_is_rendered_witness :
  wf hollow_world /\
  Forall (fun i => alive i (objects hollow_world)) (centering_targets None [0]) /\
  Forall (fun i => exists o, find_object i (objects hollow_world) = Some o /\
                             RenderFarmerPortraits.world_cos farmer_host hollow_world o
                             = []) [0] /\
  exists w',
    RenderFarmerPortraits.frame_and_render farmer_host john None [0] hollow_world
      = (Ok true, w') /\
    RenderStill "/repo/public/assets/sprites/farmer_john_portrait.png" ∈ trace w'.
Proof.
  assert (Hw : wf hollow_world) by (repeat constructor).
  assert (Ht : Forall (fun i => alive i (objects hollow_world))
                 (centering_targets None [0])).
  { repeat constructor. }
  assert (Hm : Forall (fun i => exists o, find_object i (objects hollow_world) = Some o /\
                 RenderFarmerPortraits.world_cos farmer_host hollow_world o = []) [0]).
  { repeat constructor. by eexists. }
  split; [exact Hw|]. split; [exact Ht|]. split; [exact Hm|].
  destruct (farmer_without_vertices_is_rendered farmer_host john None [0]
              hollow_world Hw Ht Hm) as (w' & objs' & cam & _ & E & _ & _ & _ & _ & T).
  exists w'. split; [exact E|]. rewrite T.
  do 3 apply list_elem_of_further. apply list_elem_of_here.
Defined.

(** ** The farmer batch *)

(** a farmer whose file holds a mesh is rendered *)
Lemma render_farmer_with_mesh (h : host)
    (farmer_config : RenderFarmerPortraits.farmer_config) (l : list object)
    (w : world) :
  path_exists h (RenderFarmerPortraits.glb farmer_config) = true ->
  gltf_file h (RenderFarmerPortraits.glb farmer_config) = Ok l ->
  meshes_of l <> [] ->
  exists w',
    RenderFarmerPortraits.render_farmer h farmer_config w = (Ok true, w') /\
    outputs (trace w') = outputs (trace w) ++ [farmer_image h farmer_config].
Proof.
  intros Hex Hl Hne.
  unfold RenderFarmerPortraits.render_farmer, RenderFarmerPortraits.load_and_pose.
  cbv zeta. mstep. rewrite Hex. cbn [negb]. cbv iota.
  unfold RenderFarmerPortraits.clear_scene. mstep.
  match goal with |- context [RenderFarmerPortraits.setup_lighting ?w0] =>
    destruct (farmer_lights_scales w0) as (w1 & E1 & Hw1 & T1 & _);
      [apply wf_delete_all|]
  end.
  rewrite E1. cbv beta iota.
  destruct (load_farmer_glb_run h _ l w1 Hw1 Hl) as (armature & meshes & E2 & Ht & Hm).
  assert (Hmesh : meshes <> []).
  { rewrite (load_farmer_glb_exact h _ l w1 Hw1 Hl) in E2.
    assert (Hi : oid <$> meshes_of (instantiate (next_oid w1) l) <> []).
    { pose proof (meshes_of_instantiate_length (next_oid w1) l) as Hlen.
      destruct (meshes_of (instantiate (next_oid w1) l)); [|done].
      destruct (meshes_of l); [done|]. simpl in Hlen. lia. }
    destruct (last (armatures_of (instantiate (next_oid w1) l))) as [ao|].
    - destruct (add_children_spec
                  (children (oid ao)
                     (objects (add_imported l
                        (emit (ImportGltf (RenderFarmerPortraits.glb farmer_config)) w1))))
                  (oid <$> meshes_of (instantiate (next_oid w1) l))
                  (NoDup_meshes_of_instantiate _ _)) as (extra & Ea & _).
      rewrite Ea in E2. injection E2 as _ <-.
      intros H. apply app_eq_nil in H as [H _]. done.
    - by injection E2 as _ <-. }
  rewrite bind_unfold, E2. cbv beta iota.
  set (w2 := add_imported l (emit (ImportGltf _) w1)) in *.
  assert (Hw2 : wf w2) by (by apply wf_add_imported).
  assert (T2 : outputs (trace w2) = outputs (trace w)).
  { simpl. rewrite T1. simpl. by rewrite !outputs_app, !app_nil_r. }
  assert (Ht' : Forall (fun i => alive i (objects w2)) (centering_targets armature meshes))
    by exact Ht.
  assert (Hm' : Forall (fun i => alive i (objects w2)) meshes) by exact Hm.
  clear Ht Hm. rename Ht' into Ht. rename Hm' into Hm.
  destruct meshes as [|m0 meshes']; [done|].
  set (meshes := m0 :: meshes') in *.
  assert (Ename : exists nm,
            (match armature with
             | Some a => o ← deref a; mret (name o)
             | None => mret "None"
             end) w2 = (Ok nm, w2)).
  { destruct armature as [a|]; [|by exists "None"].
    simpl in Ht. inversion Ht as [|? ? Ha _]; subst.
    destruct (proj1 (find_object_alive a (objects w2)) Ha) as [o Ho].
    exists (name o). rewrite bind_unfold. unfold deref. by rewrite Ho. }
  destruct Ename as (nm & Enm).
  rewrite bind_unfold, Enm. mstep.
  set (w3 := emit (Print _) w2).
  destruct (names_run meshes [] w3 Hm) as [names En].
  rewrite En. mstep.
  set (w4 := emit (PrintNames _ _) w3).
  destruct (pose_idle_run armature w4) as (w5 & E5 & F5 & N5 & T5).
  { destruct armature as [a|]; [|done]. simpl in *. by inversion Ht. }
  rewrite E5. mstep.
  pose proof (Forall2_oids posed _ _ F5) as Ho5.
  assert (Hw5 : wf w5) by (by apply (wf_same_oids w4 w5)).
  assert (Hm5 : Forall (fun i => alive i (objects w5)) meshes).
  { eapply Forall_impl; [exact Hm|]. intros i Hi. unfold alive. by rewrite Ho5. }
  assert (Ht5 : Forall (fun i => alive i (objects w5)) (centering_targets armature meshes)).
  { eapply Forall_impl; [exact Ht|]. intros i Hi. unfold alive. by rewrite Ho5. }
  destruct (get_model_bounds_total h meshes w5 Hm5) as [b Hb].
  destruct (frame_and_render_run h farmer_config armature meshes b w5 Hw5 Hb Ht5)
    as (w6 & objs' & E6 & _ & _ & _ & T6).
  rewrite E6. exists w6. split; [reflexivity|].
  rewrite T6, T5. simpl. rewrite !outputs_app.
  simpl in T2. rewrite !outputs_app in T2. rewrite T2. simpl. by rewrite !app_nil_r.
Qed.

(** one farmer of the batch, whatever the state of its file *)
Lemma render_farmer_outcome (h : host)
    (farmer_config : RenderFarmerPortraits.farmer_config) (w : world) :
  farmer_importable h farmer_config ->
  exists w',
    RenderFarmerPortraits.render_farmer h farmer_config w
      = (Ok (farmer_rendered h farmer_config), w') /\
    outputs (trace w') = outputs (trace w) ++
      (if farmer_rendered h farmer_config then [farmer_image h farmer_config] else []).
Proof.
  intros Himp. unfold farmer_rendered.
  destruct (path_exists h (RenderFarmerPortraits.glb farmer_config)) eqn:Hex.
  - specialize (Himp Hex).
    destruct (gltf_file h (RenderFarmerPortraits.glb farmer_config)) as [l|e] eqn:Hl;
      [|done].
    cbn [andb]. case_bool_decide as Hm.
    + by apply (render_farmer_with_mesh h farmer_config l).
    + assert (Hm' : meshes_of l = []) by (by destruct (meshes_of l)).
      destruct (farmer_no_mesh_run h farmer_config l w Hex Hl Hm') as (w' & E & T).
      exists w'. split; [exact E|]. rewrite T, outputs_app. cbn. done.
  - cbn [andb].
    unfold RenderFarmerPortraits.render_farmer, RenderFarmerPortraits.load_and_pose.
    cbv zeta. mstep. rewrite Hex. cbn [negb]. cbv iota. mstep.
    eexists. split; [reflexivity|]. unfold emit. cbn [trace].
    rewrite !outputs_app. cbn. by rewrite !app_nil_r.
Qed.

Lemma farmer_loop_run (h : host) (farmers : list RenderFarmerPortraits.farmer_config)
    (acc : list (string * bool)) (w : world) :
  Forall (farmer_importable h) farmers ->
  exists w',
    for_append farmers acc (fun farmer =>
      ok ← RenderFarmerPortraits.render_farmer h farmer;
      mret (RenderFarmerPortraits.label farmer, ok)) w
      = (Ok (acc ++ ((fun f => (RenderFarmerPortraits.label f, farmer_rendered h f))
                       <$> farmers)), w') /\
    outputs (trace w') = outputs (trace w) ++
      (farmer_image h <$> filter (fun f => farmer_rendered h f = true) farmers).
Proof.
  revert acc w. induction farmers as [|f farmers IH]; intros acc w Hl.
  - exists w. cbn. by rewrite !app_nil_r.
  - inversion Hl as [|? ? Hf Hl']; subst.
    destruct (render_farmer_outcome h f w Hf) as (w1 & E1 & T1).
    destruct (IH (acc ++ [(RenderFarmerPortraits.label f, farmer_rendered h f)]) w1 Hl')
      as (w2 & E2 & T2).
    exists w2. split.
    + cbn [for_append]. rewrite !bind_unfold, E1. mstep. rewrite E2.
      cbn. by rewrite <- app_assoc.
    + rewrite T2, T1, filter_cons.
      destruct (farmer_rendered h f); simpl.
      * by rewrite <- app_assoc.
      * by rewrite app_nil_r.
Qed.

Lemma farmer_status_run (h : host) (farmers : list RenderFarmerPortraits.farmer_config)
    (w : world) :
  exists w',
    for_each ((fun f => (RenderFarmerPortraits.label f, farmer_rendered h f)) <$> farmers)
      (fun '(lbl, ok) =>
         print ("  " +:+ lbl +:+ ": " +:+ (if (ok : bool) then "OK" else "FAILED"))) w
      = (Ok tt, w') /\
    trace w' = trace w ++ (farmer_status h <$> farmers).
Proof.
  revert w. induction farmers as [|f farmers IH]; intros w.
  - exists w. cbn. by rewrite app_nil_r.
  - destruct (IH (emit (farmer_status h f) w)) as (w2 & E2 & T2).
    exists w2. split.
    + cbn [for_each fmap list_fmap]. mstep. exact E2.
    + rewrite T2. cbn. by rewrite <- app_assoc.
Qed.

(** X14: the farmer batch.  On a host whose importer does not raise on
    the files that are present, [main] returns normally, with or without
    the Cycles add-on and whether or not it accepts METAL.  It writes one
    image for each farmer whose file is present and holds a mesh object,
    in list order, and none for any other farmer; after the per-farmer log
    it prints one status line per farmer, OK or FAILED, and a count of the
    rendered farmers out of all farmers. *)
Theorem farmer_batch_run (h : host)
    (farmers : list RenderFarmerPortraits.farmer_config) (w : world) :
  Forall (farmer_importable h) farmers ->
  exists w' log,
    RenderFarmerPortraits.main_over h farmers w = (Ok tt, w') /\
    outputs (trace w') = outputs (trace w) ++
      (farmer_image h <$> filter (fun f => farmer_rendered h f = true) farmers) /\
    trace w' = log ++
      [Print (nl +:+ str_times "=" 60);
       Print "SUMMARY";
       Print (str_times "=" 60)] ++
      (farmer_status h <$> farmers) ++
      [Print (nl +:+ "  " +:+
              pretty (length (filter (fun f => farmer_rendered h f = true) farmers))
              +:+ "/" +:+ pretty (length farmers) +:+ " portraits rendered");
       Print ("  Output: " +:+ RenderFarmerPortraits.OUTPUT_DIR h)].
Proof.
  intros Hl. unfold RenderFarmerPortraits.main_over. mstep.
  match goal with |- context [RenderFarmerPortraits.setup_render h ?w0] =>
    assert (Hs : exists w1, RenderFarmerPortraits.setup_render h w0 = (Ok tt, w1) /\
                            trace w1 = trace w0);
      [|destruct Hs as (w1 & E1 & T1)]
  end.
  { unfold RenderFarmerPortraits.setup_render. mstep.
    destruct (cycles_prefs h) as [[|]|]; rewrite ?try_except_unfold;
      unfold assign_metal, raise; mstep; by eexists. }
  rewrite E1. cbv beta iota.
  destruct (farmer_loop_run h farmers [] w1 Hl) as (w2 & E2 & T2).
  rewrite bind_unfold, E2. rewrite app_nil_l. mstep.
  match goal with |- context [for_each _ _ ?w0] =>
    destruct (farmer_status_run h farmers w0) as (w3 & E3 & T3)
  end.
  rewrite E3. cbv zeta. mstep.
  eexists _, (trace w2).
  assert (Hcount : length (filter (fun r : string * bool => r.2 = true)
                     ((fun f => (RenderFarmerPortraits.label f, farmer_rendered h f))
                        <$> farmers))
                   = length (filter (fun f => farmer_rendered h f = true) farmers)).
  { clear. induction farmers as [|f farmers IH]; [done|].
    cbn [fmap list_fmap]. rewrite !filter_cons. simpl.
    case_decide; simpl; by rewrite IH. }
  split; [reflexivity|]. split.
  - unfold emit. cbn [trace]. rewrite T3. unfold emit. cbn [trace].
    rewrite !outputs_app, T2, T1. unfold emit. cbn [trace].
    rewrite !outputs_app.
    assert (Hst : outputs (farmer_status h <$> farmers) = []).
    { clear. induction farmers as [|f farmers IH]; [done|]. exact IH. }
    rewrite Hst. cbn. by rewrite !app_nil_r.
  - unfold emit. cbn [trace]. rewrite T3. unfold emit. cbn [trace].
    rewrite Hcount, length_fmap. by rewrite <- !app_assoc.
Qed.

Lemma farmer_batch_run_witness :
  Forall (farmer_importable john_only_host)
         (RenderFarmerPortraits.FARMERS john_only_host) /\
  exists w',
    RenderFarmerPortraits.main john_only_host initial_world = (Ok tt, w') /\
    outputs (trace w') =
      [RenderStill "/repo/public/assets/sprites/farmer_john_portrait.png"] /\
    Print (nl +:+ "  1/2 portraits rendered") ∈ trace w'.
Proof.
  assert (Hl : Forall (farmer_importable john_only_host)
                      (RenderFarmerPortraits.FARMERS john_only_host)).
  { repeat constructor. }
  split; [exact Hl|].
  destruct (farmer_batch_run john_only_host
              (RenderFarmerPortraits.FARMERS john_only_host) initial_world Hl)
    as (w' & log & E & Hout & T).
  exists w'. split; [exact E|]. split; [exact Hout|].
  rewrite T. apply elem_of_app. right.
  do 5 apply list_elem_of_further. apply list_elem_of_here.
Defined.

(** ** What the export holds *)

Lemma preserves_ret (I : world -> Prop) {A} (a : A) : preserves I (mret a : M A).
Proof. by intros w. Qed.

Lemma preserves_bind (I : world -> Prop) {A B} (m : M A) (f : A -> M B) :
  preserves I m -> (forall a, preserves I (f a)) -> preserves I (m ≫= f).
Proof.
  intros Hm Hf w Hw. rewrite bind_unfold. specialize (Hm w Hw).
  destruct (m w) as [[a|e] w1]; [by apply Hf | done].
Qed.

Lemma preserves_modify (I : world -> Prop) (f : world -> world) :
  (forall w, I w -> I (f w)) -> preserves I (modify f).
Proof. intros Hf w Hw. by apply Hf. Qed.

Lemma preserves_try_except (I : world -> Prop) {A} (body : M A)
    (handler : exn -> M A) :
  preserves I body -> (forall e, preserves I (handler e)) ->
  preserves I (try_except body handler).
Proof.
  intros Hb Hh w Hw. rewrite try_except_unfold. specialize (Hb w Hw).
  destruct (body w) as [[a|e] w1]; [done | by apply Hh].
Qed.

Lemma preserves_for_each (I : world -> Prop) {A} (l : list A) (body : A -> M unit) :
  (forall x, preserves I (body x)) -> preserves I (for_each l body).
Proof.
  intros Hb. induction l as [|x l IH]; [apply preserves_ret|].
  cbn [for_each]. apply preserves_bind; [apply Hb | by intros _].
Qed.

Lemma distinct_emit (e : event) (w : world) : distinct w -> distinct (emit e w).
Proof. done. Qed.

Lemma distinct_add_imported (l : list object) (w : world) :
  distinct w -> distinct (add_imported l w).
Proof.
  intros [Hw Hnd]. split; [by apply wf_add_imported|].
  unfold add_imported. cbn [objects set_next_oid set_selected set_objects].
  rewrite fmap_app, instantiate_oids. apply NoDup_app. split_and!; [done| |apply NoDup_seq].
  intros i Hi Hi'. apply elem_of_seq in Hi'.
  apply list_elem_of_fmap in Hi as (o & -> & Ho).
  apply (proj1 (Forall_forall _ _) Hw) in Ho. lia.
Qed.

Lemma distinct_remove_object (i : nat) (w : world) :
  distinct w -> distinct (remove_object i w).
Proof.
  intros [Hw Hnd]. split.
  - unfold wf, remove_object. cbn [objects next_oid set_selected set_objects].
    by apply wf_filter.
  - unfold remove_object. cbn [objects set_selected set_objects].
    revert Hnd. generalize (objects w). clear. intros l.
    induction l as [|o l IH]; intros Hnd; [constructor|].
    cbn in Hnd. apply NoDup_cons in Hnd as [Ho Hnd].
    rewrite filter_cons. case_decide; [|by apply IH].
    cbn. apply NoDup_cons. split; [|by apply IH].
    intros Hin. apply Ho. apply list_elem_of_fmap in Hin as (o' & -> & Hin).
    apply list_elem_of_filter in Hin as [_ Hin]. by apply list_elem_of_fmap_2.
Qed.

Lemma distinct_same_oids (w w' : world) :
  oid <$> objects w' = oid <$> objects w -> next_oid w' = next_oid w ->
  distinct w -> distinct w'.
Proof.
  intros Ho Hn [Hw Hnd]. split; [by apply (wf_same_oids w w')|]. by rewrite Ho.
Qed.

Lemma preserves_update (i : nat) (f : object -> object) :
  (forall o, oid (f o) = oid o) -> preserves distinct (update i f).
Proof.
  intros Hf w Hw. rewrite update_unfold.
  destruct (find_object i (objects w)); [|done].
  apply (distinct_same_oids w); [|done|done].
  cbn [objects set_objects snd]. by apply alter_object_oids.
Qed.

Lemma preserves_import_fbx (h : host) (filepath : string) (use_anim : bool) :
  preserves distinct (import_fbx h filepath use_anim).
Proof.
  intros w Hw. rewrite import_fbx_unfold.
  destruct (fbx_file h filepath use_anim); [|done].
  by apply distinct_add_imported.
Qed.

Lemma preserves_import_animation (h : host) (armature : nat)
    (anim_name anim_path : string) :
  preserves distinct (ExportFarmerModels.import_animation h armature anim_name anim_path).
Proof.
  unfold ExportFarmerModels.import_animation.
  apply preserves_bind; [apply preserves_import_fbx|]. intros _.
  apply preserves_bind; [by intros w|]. intros w0.
  destruct (selected_objects w0) as [|ia sel]; [by intros w|].
  apply preserves_bind.
  - destruct (animation_data ia) as [[[act|] ?]|]; try apply preserves_ret.
    apply preserves_update. intros o. apply add_track_oid.
  - intros _. apply preserves_modify. intros w. apply distinct_remove_object.
Qed.

Lemma preserves_import_animations (h : host) (armature : nat)
    (animations : list (string * string)) :
  preserves distinct (ExportFarmerModels.import_animations h armature animations).
Proof.
  unfold ExportFarmerModels.import_animations.
  apply preserves_for_each. intros [nm path].
  apply preserves_bind; [by intros w|]. intros _.
  apply preserves_try_except; [apply preserves_import_animation|].
  by intros e w.
Qed.

(** in a scene with distinct identities, selecting two objects selects
    exactly them *)
Lemma two_selected (a m : nat) (ao mo : object) (l : list object) :
  NoDup (oid <$> l) -> a <> m ->
  find_object a l = Some ao -> find_object m l = Some mo ->
  filter (fun o => oid o ∈ [a; m]) l ≡ₚ [ao; mo].
Proof.
  intros Hnd Ham Ha Hm.
  pose proof (find_object_oid _ _ _ Ha) as [Hoa Hia].
  pose proof (find_object_oid _ _ _ Hm) as [Hom Him].
  apply NoDup_Permutation.
  - apply NoDup_filter. by eapply NoDup_fmap_1.
  - apply NoDup_cons. split; [|apply NoDup_singleton].
    intros H. apply list_elem_of_singleton in H. congruence.
  - intros x. rewrite list_elem_of_filter. split.
    + intros [Hx Hin]. pose proof (find_object_unique x l Hnd Hin) as Fx.
      apply elem_of_cons in Hx as [Hx|Hx].
      * rewrite Hx, Ha in Fx. injection Fx as ->. apply list_elem_of_here.
      * apply list_elem_of_singleton in Hx. rewrite Hx, Hm in Fx. injection Fx as ->.
        apply list_elem_of_further, list_elem_of_here.
    + intros Hx. apply elem_of_cons in Hx as [->|Hx].
      * split; [|done]. rewrite Hoa. apply list_elem_of_here.
      * apply list_elem_of_singleton in Hx as ->. split; [|done]. rewrite Hom.
        apply list_elem_of_further, list_elem_of_here.
Qed.

Lemma select_two (a m : nat) (w : world) :
  a <> m -> select_set m (select_set a (set_selected [] w)) = set_selected [a; m] w.
Proof.
  intros Ham. unfold select_set at 2. cbn [selected set_selected].
  rewrite (bool_decide_eq_false_2 (a ∈ [])) by apply not_elem_of_nil.
  unfold select_set. cbn [selected set_selected app].
  rewrite (bool_decide_eq_false_2 (m ∈ [a]))
    by (intros H; apply list_elem_of_singleton in H; congruence).
  reflexivity.
Qed.

Lemma export_character_exact (char_key : string) (a m : nat) (w : world) :
  a <> m ->
  exists w',
    ExportFarmerModels.export_character char_key a m w = (Ok tt, w') /\
    objects w' = objects w /\
    trace w' = trace w ++
      [Print ("  Exporting to " +:+
              os_path_join ExportFarmerModels.OUTPUT_DIR (char_key +:+ ".glb"));
       ExportGltf (os_path_join ExportFarmerModels.OUTPUT_DIR (char_key +:+ ".glb"))
                  (filter (fun o => oid o ∈ [a; m]) (objects w));
       Print "  Done."].
Proof.
  intros Ham.
  unfold ExportFarmerModels.export_character, export_selection. cbv zeta. mstep.
  rewrite select_two by done.
  eexists. split; [reflexivity|]. split; [done|].
  unfold selected_objects, emit.
  cbn [trace objects selected set_selected app]. by rewrite <- !app_assoc.
Qed.

(** X15: the packaged character holds the rig and the named mesh and
    nothing else.  When the character's file imports with a rig and its
    mesh, the one export of [process_character] contains exactly two
    objects, the armature and the mesh: whatever else the character file or
    the clip files brought into the scene (a clip import removes only the
    first object it created) is not exported. *)
Theorem export_holds_rig_and_mesh_only (h : host) (char_key : string)
    (config : ExportFarmerModels.config) (l : list object) (w : world) :
  fbx_file h (ExportFarmerModels.fbx config) false = Ok l ->
  has_armature l ->
  has_named_mesh (ExportFarmerModels.mesh_name config) l ->
  exists w' exported arm mesh,
    ExportFarmerModels.process_character h char_key config w = (Ok tt, w') /\
    outputs (trace w') = outputs (trace w) ++
      [ExportGltf (os_path_join ExportFarmerModels.OUTPUT_DIR (char_key +:+ ".glb"))
                  exported] /\
    exported ≡ₚ [arm; mesh] /\
    type arm = ARMATURE /\
    named_mesh (ExportFarmerModels.mesh_name config) mesh /\
    Forall (fun o => o ∈ objects w') exported.
Proof.
  intros Hl Ha Hm. unfold ExportFarmerModels.process_character.
  mstep. rewrite import_fbx_unfold. rewrite Hl. mstep.
  set (w0 := emit (ImportFbx _ false) _).
  assert (Hw0 : wf w0) by constructor.
  assert (Hd0 : distinct w0) by (split; [done|constructor]).
  assert (Ho1 : objects (add_imported l w0) = instantiate (next_oid w0) l) by done.
  assert (Hw1 : wf (add_imported l w0)) by (by apply wf_add_imported).
  assert (Hd1 : distinct (add_imported l w0)) by (by apply distinct_add_imported).
  assert (T0 : outputs (trace (add_imported l w0)) = outputs (trace w)).
  { cbn. rewrite !outputs_app. cbn. by rewrite !app_nil_r. }
  rewrite Ho1.
  destruct (find_rig_found (ExportFarmerModels.mesh_name config) (next_oid w0) l Ha Hm)
    as (a & m & ao & mo & Hfind & Hao & Hta & Hmo & Hnm).
  rewrite Hfind. rewrite <- Ho1 in Hao, Hmo.
  destruct (prepare_rig_run a m (add_imported l w0)) as (w2 & E2 & F2 & Hanim).
  { apply find_object_alive. by eexists. }
  { apply find_object_alive. by eexists. }
  rewrite bind_unfold, E2. cbv beta iota.
  destruct (find_object_prepared a ao _ _ F2 Hao) as (ao2 & Hao2 & _ & Kt & _ & Ktr).
  destruct (find_object_prepared m mo _ _ F2 Hmo) as (mo2 & Hmo2 & _ & Kt' & Kn' & _).
  assert (Hr2 : rigged a (tracks_of ao) w2).
  { split; [by eapply prepared_wf|]. exists ao2.
    split_and!; [done|congruence|by apply Hanim|done]. }
  assert (Hm2 : holds_mesh m (ExportFarmerModels.mesh_name config) w2).
  { exists mo2. split; [done|]. destruct Hnm. split; congruence. }
  assert (Hd2 : distinct w2).
  { destruct F2 as (F2 & N2 & _).
    apply (distinct_same_oids (add_imported l w0)); [|done|done].
    by apply (Forall2_oids kept). }
  assert (T2 : outputs (trace w2) = outputs (trace w)).
  { destruct F2 as (_ & _ & ps & ->). by rewrite outputs_app, outputs_prints, app_nil_r. }
  destruct (import_animations_run h a m _ (ExportFarmerModels.animations config)
              _ w2 Hr2 Hm2) as (w3 & E3 & Hr3 & Hm3 & T3).
  assert (Hd3 : distinct w3).
  { pose proof (preserves_import_animations h a
                  (ExportFarmerModels.animations config) w2 Hd2) as Hp.
    by rewrite E3 in Hp. }
  rewrite bind_unfold, E3. cbv beta iota.
  pose proof (rigged_not_mesh _ _ _ _ _ Hr3 Hm3) as Ham.
  destruct (export_character_exact char_key a m w3 Ham) as (w4 & E4 & O4 & T4).
  destruct Hr3 as (_ & ao3 & Hao3 & Hta3 & _).
  destruct Hm3 as (mo3 & Hmo3 & Hnm3).
  exists w4, (filter (fun o => oid o ∈ [a; m]) (objects w3)), ao3, mo3.
  split_and!; try done.
  - rewrite T4, T3, !outputs_app, outputs_clips, T2. cbn. by rewrite !app_nil_r.
  - apply two_selected; try done. by destruct Hd3.
  - rewrite O4. apply Forall_forall. intros o Ho.
    by apply list_elem_of_filter in Ho as [_ Ho].
Qed.

Lemma export_holds_rig_and_mesh_only_witness :
  fbx_file prop_clip_host (ExportFarmerModels.fbx george) false
    = Ok [sample_armature "Armature" None;
          sample_mesh "Farmer_George" [Vec 0 0 0]%Q] /\
  has_armature [sample_armature "Armature" None;
                sample_mesh "Farmer_George" [Vec 0 0 0]%Q] /\
  has_named_mesh "Farmer_George"
                 [sample_armature "Armature" None;
                  sample_mesh "Farmer_George" [Vec 0 0 0]%Q] /\
  exists w' exported,
    ExportFarmerModels.process_character prop_clip_host "john" george initial_world
      = (Ok tt, w') /\
    outputs (trace w') =
      [ExportGltf (os_path_join ExportFarmerModels.OUTPUT_DIR "john.glb") exported] /\
    length exported = 2 /\ length (objects w') = 3.
Proof.
  assert (Ha : has_armature [sample_armature "Armature" None;
                             sample_mesh "Farmer_George" [Vec 0 0 0]%Q]).
  { by apply Exists_cons_hd. }
  assert (Hm : has_named_mesh "Farmer_George"
                 [sample_armature "Armature" None;
                  sample_mesh "Farmer_George" [Vec 0 0 0]%Q]).
  { apply Exists_cons_tl, Exists_cons_hd. by split. }
  split; [reflexivity|]. split; [exact Ha|]. split; [exact Hm|].
  destruct (export_holds_rig_and_mesh_only prop_clip_host "john" george _
              initial_world eq_refl Ha Hm)
    as (w' & exported & arm & mesh & E & Hout & Hp & _).
  exists w', exported. split; [exact E|]. split; [exact Hout|]. split.
  - by rewrite Hp.
  - vm_compute in E. by injection E as <-.
Defined.

(** ** The mesh after [prepare_rig] *)

Lemma update_same_mesh (i j : nat) (f : object -> object) (me : mesh) (w : world) :
  (forall o, oid (f o) = oid o) -> (forall o, data (f o) = data o) ->
  alive i (objects w) -> mesh_at j me w ->
  exists w',
    update i f w = (Ok tt, w') /\
    oid <$> objects w' = oid <$> objects w /\ trace w' = trace w /\
    mesh_at j me w'.
Proof.
  intros Hoid Hdata Hi (o & Ho & Hd). rewrite update_alive by done.
  eexists. split; [reflexivity|]. cbn [objects trace set_objects].
  split_and!; [by apply alter_object_oids | done |].
  unfold mesh_at. cbn [objects set_objects].
  destruct (decide (j = i)) as [->|Hji].
  - exists (f o). rewrite find_object_alter_eq, Ho by done. by rewrite Hdata.
  - exists o. by rewrite find_object_alter_ne.
Qed.

Lemma on_mesh_oid (g : mesh -> mesh) (o : object) :
  oid (ExportFarmerModels.on_mesh g o) = oid o.
Proof. unfold ExportFarmerModels.on_mesh. by destruct (data o). Qed.

Lemma update_on_mesh (j : nat) (g : mesh -> mesh) (me : mesh) (w : world) :
  mesh_at j me w ->
  exists w',
    update j (ExportFarmerModels.on_mesh g) w = (Ok tt, w') /\
    oid <$> objects w' = oid <$> objects w /\ trace w' = trace w /\
    mesh_at j (g me) w'.
Proof.
  intros (o & Ho & Hd).
  rewrite update_alive by (apply find_object_alive; by rewrite Ho).
  eexists. split; [reflexivity|]. cbn [objects trace set_objects].
  split_and!; [apply alter_object_oids, on_mesh_oid | done |].
  unfold mesh_at. cbn [objects set_objects].
  exists (ExportFarmerModels.on_mesh g o).
  rewrite find_object_alter_eq, Ho by apply on_mesh_oid.
  split; [done|]. unfold ExportFarmerModels.on_mesh. by rewrite Hd.
Qed.

Lemma mesh_at_same (j : nat) (me : mesh) (w w' : world) :
  objects w' = objects w -> mesh_at j me w -> mesh_at j me w'.
Proof. intros Ho (o & H1 & H2). exists o. by rewrite Ho. Qed.

(** the loop over the materials: after the first [length done] of them,
    these are rewired and the others are as they were *)
Lemma materials_loop (mesh_obj : nat) (vs : list (vec Q)) (vcs : list string)
    (processed rest : list material) (w : world) :
  mesh_at mesh_obj (Mesh vs vcs (processed ++ rest)) w ->
  exists w',
    for_each (imap (fun k mat => (k, mat)) processed) (fun '(k, mat) =>
      ExportFarmerModels.setup_material_vertex_color k mat mesh_obj) w = (Ok tt, w') /\
    oid <$> objects w' = oid <$> objects w /\
    trace w' = trace w ++ (Print <$> (material_line <$> processed)) /\
    mesh_at mesh_obj
      (Mesh vs vcs ((ExportFarmerModels.vertex_color_material <$> processed) ++ rest)) w'.
Proof.
  revert rest. induction processed as [|mat processed IH] using rev_ind; intros rest Hm.
  { exists w. cbn. by rewrite app_nil_r. }
  rewrite <- app_assoc in Hm. cbn [app] in Hm.
  destruct (IH (mat :: rest) Hm) as (w1 & E1 & O1 & T1 & M1).
  rewrite imap_app, for_each_app, E1. cbn [imap for_each].
  rewrite Nat.add_0_r. rewrite bind_unfold.
  unfold ExportFarmerModels.setup_material_vertex_color at 1. mstep.
  match goal with |- context [update mesh_obj (ExportFarmerModels.on_mesh ?g) ?w0] =>
    destruct (update_on_mesh mesh_obj g _ w0 (mesh_at_same _ _ w1 w0 eq_refl M1))
      as (w2 & E2 & O2 & T2 & M2)
  end.
  rewrite E2. exists w2. split; [done|]. split_and!.
  - by rewrite O2.
  - rewrite T2. cbn [trace emit]. rewrite T1, !fmap_app, <- app_assoc. done.
  - cbn [vertices vertex_colors materials] in M2.
    rewrite fmap_app, <- app_assoc. cbn [fmap list_fmap app].
    replace (alter ExportFarmerModels.vertex_color_material (length processed)
               ((ExportFarmerModels.vertex_color_material <$> processed) ++ mat :: rest))
      with ((ExportFarmerModels.vertex_color_material <$> processed) ++
            ExportFarmerModels.vertex_color_material mat :: rest) in M2; [done|].
    rewrite alter_app_r_alt by (by rewrite length_fmap).
    by rewrite length_fmap, Nat.sub_diag.
Qed.

Lemma rename_first_layer_col (me : mesh) :
  vertex_colors me <> [] ->
  "Col" ∈ vertex_colors (ExportFarmerModels.rename_first_layer me).
Proof.
  unfold ExportFarmerModels.rename_first_layer.
  destruct (vertex_colors me) as [|first rest] eqn:E; [done|]. intros _.
  case_bool_decide as Hc; [by rewrite E|]. cbn. apply list_elem_of_here.
Qed.

Lemma rename_first_layer_fields (me : mesh) :
  vertices (ExportFarmerModels.rename_first_layer me) = vertices me /\
  materials (ExportFarmerModels.rename_first_layer me) = materials me /\
  length (vertex_colors (ExportFarmerModels.rename_first_layer me))
    = length (vertex_colors me) /\
  tail (vertex_colors (ExportFarmerModels.rename_first_layer me))
    = tail (vertex_colors me).
Proof.
  unfold ExportFarmerModels.rename_first_layer.
  destruct (vertex_colors me) as [|first rest] eqn:E; [by rewrite E|].
  case_bool_decide; [by rewrite E|]. done.
Qed.

(** X16: what [prepare_rig] does to the materials and colour layers of
    the mesh it is given.  On a live armature and a mesh object it never
    raises; afterwards every material of the mesh has been rewired, in slot
    order and under its old name, to the node tree of
    [setup_material_vertex_color] (a Principled BSDF fed by an attribute
    node that reads the layer Col), and one line is printed per material.
    The colour layers are those of before except that, when no layer was
    named Col, the first one now is: so a mesh that has any colour layer
    has the layer its materials read. *)
Theorem prepare_rig_rewires_materials (armature mesh_obj : nat) (me : mesh)
    (w : world) :
  alive armature (objects w) -> mesh_at mesh_obj me w ->
  exists w' mo' me',
    ExportFarmerModels.prepare_rig armature mesh_obj w = (Ok tt, w') /\
    find_object mesh_obj (objects w') = Some mo' /\ data mo' = MeshData me' /\
    materials me' = ExportFarmerModels.vertex_color_material <$> materials me /\
    length (vertex_colors me') = length (vertex_colors me) /\
    tail (vertex_colors me') = tail (vertex_colors me) /\
    (vertex_colors me <> [] -> "Col" ∈ vertex_colors me') /\
    ("Col" ∈ vertex_colors me -> vertex_colors me' = vertex_colors me) /\
    trace w' = trace w ++
      [Print "  Processing Materials..."] ++
      (Print <$> (material_line <$> materials me)) ++
      [Print "  Importing Animations..."].
Proof.
  intros Ha Hm. unfold ExportFarmerModels.prepare_rig.
  destruct (update_same_mesh armature mesh_obj (set_location (vrepeat (Fin 0))) me w)
    as (w1 & E1 & O1 & T1 & M1); try done.
  rewrite bind_unfold, E1. mstep.
  set (w2 := ExportFarmerModels.transform_apply (set_active (Some armature) w1)).
  assert (O2 : oid <$> objects w2 = oid <$> objects w).
  { rewrite <- O1. unfold w2, ExportFarmerModels.transform_apply.
    cbn [objects set_objects set_active selected]. rewrite <- list_fmap_compose.
    apply list_fmap_ext. intros k o _. simpl. by case_bool_decide. }
  assert (M2 : mesh_at mesh_obj me w2).
  { destruct M1 as (o & Ho & Hd).
    unfold w2, ExportFarmerModels.transform_apply, mesh_at.
    cbn [objects set_objects set_active selected].
    rewrite find_object_fmap, Ho by (intros o'; by case_bool_decide).
    eexists. split; [reflexivity|]. by case_bool_decide. }
  destruct (update_on_mesh mesh_obj ExportFarmerModels.rename_first_layer me w2 M2)
    as (w3 & E3 & O3 & T3 & M3).
  rewrite E3. mstep.
  set (w4 := emit (Print "  Processing Materials...") w3).
  assert (M4 : mesh_at mesh_obj (ExportFarmerModels.rename_first_layer me) w4)
    by exact M3.
  destruct (rename_first_layer_fields me) as (Fv & Fm & Fl & Ft).
  destruct M4 as (mo & Hmo & Hdmo).
  unfold deref at 1. rewrite Hmo. cbv beta iota.
  assert (Hmats : ExportFarmerModels.mesh_materials mo = materials me).
  { unfold ExportFarmerModels.mesh_materials. by rewrite Hdmo. }
  rewrite Hmats.
  destruct (materials_loop mesh_obj (vertices me)
              (vertex_colors (ExportFarmerModels.rename_first_layer me))
              (materials me) [] w4) as (w5 & E5 & O5 & T5 & M5).
  { exists mo. split; [done|]. rewrite Hdmo, app_nil_r. f_equal.
    rewrite <- Fv, <- Fm. by destruct (ExportFarmerModels.rename_first_layer me). }
  rewrite bind_unfold, E5. mstep.
  set (w6 := emit (Print "  Importing Animations...") w5).
  destruct (update_same_mesh armature mesh_obj ensure_animation_data
              (Mesh (vertices me)
                 (vertex_colors (ExportFarmerModels.rename_first_layer me))
                 (ExportFarmerModels.vertex_color_material <$> materials me)) w6)
    as (w7 & E7 & O7 & T7 & M7).
  { intros o. unfold ensure_animation_data. by destruct (animation_data o). }
  { intros o. unfold ensure_animation_data. by destruct (animation_data o). }
  { unfold alive, w6. cbn [objects emit]. rewrite O5. unfold w4.
    cbn [objects emit]. rewrite O3, O2. exact Ha. }
  { rewrite app_nil_r in M5. exact M5. }
  rewrite E7. destruct M7 as (mo7 & Hmo7 & Hd7).
  exists w7, mo7. eexists. split; [done|]. split; [exact Hmo7|]. split; [exact Hd7|].
  cbn [materials vertex_colors].
  split_and!; try done.
  - by apply rename_first_layer_col.
  - intros Hc. unfold ExportFarmerModels.rename_first_layer.
    destruct (vertex_colors me) as [|first rest] eqn:E; [by rewrite E|].
    rewrite bool_decide_eq_true_2 by done. exact E.
  - rewrite T7. unfold w6. cbn [trace emit]. rewrite T5. unfold w4.
    cbn [trace emit].
    rewrite T3. unfold w2, ExportFarmerModels.transform_apply.
    cbn [trace set_objects set_active]. rewrite T1. by rewrite <- !app_assoc.
Qed.

Lemma prepare_rig_rewires_materials_witness :
  alive 0 (objects imported_world) /\
  mesh_at 1 (Mesh [Vec 0 0 0]%Q ["Color"; "Mask"]
               [Material "Skin" false [] []; Material "Cloth" true [] []])
          imported_world /\
  exists w' mo' me',
    ExportFarmerModels.prepare_rig 0 1 imported_world = (Ok tt, w') /\
    find_object 1 (objects w') = Some mo' /\ data mo' = MeshData me' /\
    materials me' =
      [ExportFarmerModels.vertex_color_material (Material "Skin" false [] []);
       ExportFarmerModels.vertex_color_material (Material "Cloth" true [] [])] /\
    vertex_colors me' = ["Col"; "Mask"].
Proof.
  assert (Ha : alive 0 (objects imported_world)) by apply list_elem_of_here.
  assert (Hm : mesh_at 1 (Mesh [Vec 0 0 0]%Q ["Color"; "Mask"]
                            [Material "Skin" false [] []; Material "Cloth" true [] []])
                       imported_world).
  { eexists. split; reflexivity. }
  split; [exact Ha|]. split; [exact Hm|].
  destruct (prepare_rig_rewires_materials 0 1 _ imported_world Ha Hm)
    as (w' & mo' & me' & E & Hfind & Hdata & Hmats & Hlen & Htl & Hcol & _).
  exists w', mo', me'. split_and!; try done.
  destruct (vertex_colors me') as [|c [|c' [|? ?]]]; try done.
  cbn in Htl. injection Htl as ->.
  specialize (Hcol ltac:(done)).
  apply elem_of_cons in Hcol as [<-|Hcol]; [done|].
  by apply list_elem_of_singleton in Hcol.
Defined.

(** ** Which rig and which mesh *)

(** X17: [process_character] of export_farmer_models.py keeps the last
    match of each of its two searches: of several armatures in the scene
    the last one in iteration order becomes the rig, and of several mesh
    objects whose name contains the configured name the last one becomes
    the mesh; each is None exactly when there is no such object. *)
Theorem find_rig_takes_the_last (nm : string) (l : list object) :
  ExportFarmerModels.find_rig nm l =
  (oid <$> last (armatures_of l), oid <$> last (filter (named_mesh nm) l)).
Proof.
  induction l as [|o l IH] using rev_ind; [done|].
  rewrite find_rig_snoc, IH. unfold armatures_of.
  rewrite !filter_app, !filter_cons, !filter_nil.
  case_bool_decide as Ha.
  - rewrite decide_True by done. rewrite last_snoc.
    rewrite decide_False, app_nil_r; [done|].
    intros [Hm _]. congruence.
  - rewrite (decide_False (P := type o = ARMATURE)) by done. rewrite app_nil_r.
    destruct (bool_decide (type o = MESH) && str_in nm (name o)) eqn:E.
    + apply andb_true_iff in E as [Ht Hn]. apply bool_decide_eq_true in Ht.
      rewrite decide_True by (by split). by rewrite last_snoc.
    + rewrite decide_False, app_nil_r; [done|].
      intros [Ht Hn]. apply andb_false_iff in E as [E|E].
      * by apply bool_decide_eq_false in E.
      * congruence.
Qed.

(** ** The export batch *)

#[global] Instance complete_dec h c : Decision (complete h c).
Proof.
  unfold complete, has_armature, has_named_mesh.
  destruct (fbx_file h (ExportFarmerModels.fbx c) false); apply _.
Defined.

Lemma written_app (t1 t2 : list event) : written (t1 ++ t2) = written t1 ++ written t2.
Proof. apply omap_app. Qed.

Lemma written_prints (ps : list string) : written (Print <$> ps) = [].
Proof. induction ps as [|p ps IH]; [done|]. exact IH. Qed.

Lemma written_clips (h : host) (animations : list (string * string)) :
  written (animations ≫= clip_events h) = [].
Proof.
  induction animations as [|c animations IH]; [done|].
  rewrite bind_cons, written_app, IH, app_nil_r.
  unfold clip_events. by destruct (clip_error h c).
Qed.

Lemma process_character_written (h : host) (char_key : string)
    (config : ExportFarmerModels.config) (w : world) :
  is_ok (fbx_file h (ExportFarmerModels.fbx config) false) = true ->
  exists w',
    ExportFarmerModels.process_character h char_key config w = (Ok tt, w') /\
    written (trace w') = written (trace w) ++
      (if decide (complete h config)
       then [os_path_join ExportFarmerModels.OUTPUT_DIR (char_key +:+ ".glb")]
       else []).
Proof.
  intros Hok. case_decide as Hc; unfold complete in Hc;
    destruct (fbx_file h (ExportFarmerModels.fbx config) false) as [l|e] eqn:Hl;
    try done.
  - destruct Hc as [Ha Hm].
    destruct (process_character_run h char_key config l w Hl Ha Hm)
      as (w' & ps & exported & arm & arm0 & mesh & E & T & _).
    exists w'. split; [exact E|].
    rewrite T, !written_app, written_prints, written_clips. cbn.
    by rewrite ?app_nil_r.
  - destruct (process_character_missing h char_key config l w Hl) as (w' & E & T).
    { destruct (decide (has_armature l)); [|by left].
      destruct (decide (has_named_mesh (ExportFarmerModels.mesh_name config) l));
        [|by right]. by destruct Hc. }
    exists w'. split; [exact E|]. rewrite T, written_app. cbn. by rewrite ?app_nil_r.
Qed.

(** X18: the export batch.  When every character's own FBX imports,
    the module body of export_farmer_models.py runs to its end: it creates
    the output directory and then writes one GLB, named after the
    character's key, for each character whose file holds a rig and a mesh
    of the configured name, in the order of the table; a character without
    one of them is reported and skipped without stopping the others, and
    no other file is written. *)
Theorem export_batch_run (h : host)
    (characters : list (string * ExportFarmerModels.config)) (w : world) :
  Forall (fun kc => is_ok (fbx_file h (ExportFarmerModels.fbx kc.2) false) = true)
         characters ->
  exists w',
    ExportFarmerModels.main_over h characters w = (Ok tt, w') /\
    written (trace w') = written (trace w) ++
      ((fun kc => os_path_join ExportFarmerModels.OUTPUT_DIR (kc.1 +:+ ".glb"))
         <$> filter (fun kc => complete h kc.2) characters).
Proof.
  intros Hl. unfold ExportFarmerModels.main_over. mstep.
  set (w0 := emit (MakeDirs ExportFarmerModels.OUTPUT_DIR) w).
  assert (T0 : written (trace w0) = written (trace w)).
  { unfold w0, emit. cbn [trace]. rewrite written_app. cbn. by rewrite app_nil_r. }
  rewrite <- T0. clearbody w0. clear T0.
  revert w0. induction Hl as [|[k c] characters Hk _ IH]; intros w0.
  - exists w0. cbn. by rewrite app_nil_r.
  - destruct (process_character_written h k c w0 Hk) as (w1 & E1 & T1).
    destruct (IH w1) as (w2 & E2 & T2).
    exists w2. cbn [for_each]. rewrite bind_unfold, E1. split; [exact E2|].
    rewrite T2, T1, filter_cons. cbn [fst snd].
    case_decide; cbn; by rewrite <- app_assoc.
Qed.

Lemma export_batch_run_witness :
  Forall (fun kc => is_ok (fbx_file martha_rig_only_host
                             (ExportFarmerModels.fbx kc.2) false) = true)
         [("mary", ExportFarmerModels.Config "/assets/Martha.fbx" "Farmer_Martha" []);
          ("john", george)] /\
  exists w',
    ExportFarmerModels.main_over martha_rig_only_host
      [("mary", ExportFarmerModels.Config "/assets/Martha.fbx" "Farmer_Martha" []);
       ("john", george)] initial_world = (Ok tt, w') /\
    written (trace w') =
      ["/Users/jbogaty/src/arcade-cabinet/infinite-headaches/public/assets/models/players/john.glb"].
Proof.
  assert (Hl : Forall (fun kc => is_ok (fbx_file martha_rig_only_host
                                          (ExportFarmerModels.fbx kc.2) false) = true)
                 [("mary", ExportFarmerModels.Config "/assets/Martha.fbx"
                             "Farmer_Martha" []);
                  ("john", george)]).
  { repeat constructor. }
  split; [exact Hl|].
  destruct (export_batch_run martha_rig_only_host _ initial_world Hl) as (w' & E & T).
  exists w'. split; [exact E|]. rewrite T. reflexivity.
Defined.

(** ** The .blend script, were it called *)

(** X19: [process_character] of export_farmers_from_blend.py looks the
    mesh up by its exact name and the rig by its kind.  When the .blend
    file opens and holds no object of exactly the configured name, or no
    armature, the function reports it and returns: the scene is the content
    of the file, nothing is deleted, no clip is imported and nothing is
    written. *)
Theorem blend_missing_elements_are_reported (h : host) (char_key : string)
    (config : ExportFarmersFromBlend.config) (l : list object) (act : option nat)
    (w : world) :
  blend_file h (ExportFarmersFromBlend.blend config) = Ok (l, act) ->
  Forall (fun o => name o <> ExportFarmersFromBlend.obj_name config) l \/
  Forall (fun o => type o <> ARMATURE) l ->
  exists w',
    ExportFarmersFromBlend.process_character h char_key config w = (Ok tt, w') /\
    objects w' = instantiate (next_oid w) l /\
    trace w' = trace w ++
      [Print (nl +:+ "Processing " +:+ char_key +:+ " from .blend...");
       OpenMainfile (ExportFarmersFromBlend.blend config);
       Print ("  ERROR: Could not find mesh " +:+
              ExportFarmersFromBlend.obj_name config +:+ " or Armature")].
Proof.
  intros Hf Hmiss. unfold ExportFarmersFromBlend.process_character.
  mstep. rewrite Hf. mstep. cbv zeta.
  cbn [fst snd objects ExportFarmersFromBlend.load_mainfile emit next_oid].
  assert (Hres : (fun p : nat * object => oid p.2) <$>
                   list_find (fun o => name o = ExportFarmersFromBlend.obj_name config)
                             (instantiate (next_oid w) l) = None \/
                 ExportFarmersFromBlend.find_armature (instantiate (next_oid w) l)
                 = None).
  { destruct Hmiss as [Hn|Ha].
    - left. rewrite (proj2 (list_find_None _ _)); [done|].
      apply (instantiate_forall
               (fun _ n => n <> ExportFarmersFromBlend.obj_name config)).
      exact Hn.
    - right. unfold ExportFarmersFromBlend.find_armature.
      assert (Hty : Forall (fun o => type o <> ARMATURE) (instantiate (next_oid w) l)).
      { apply (instantiate_forall (fun t _ => t <> ARMATURE)). exact Ha. }
      rewrite (proj2 (list_find_None _ _)).
      + rewrite (proj2 (list_find_None _ _)); [done|exact Hty].
      + eapply Forall_impl; [exact Hty|]. intros o Ho [Ht _]. done. }
  eexists. split.
  - destruct Hres as [-> | Hres].
    + mstep. reflexivity.
    + rewrite Hres. destruct (_ <$> list_find _ _); mstep; reflexivity.
  - split; [done|]. unfold emit, ExportFarmersFromBlend.load_mainfile.
    cbn [trace]. by rewrite <- !app_assoc.
Qed.

Lemma blend_missing_elements_are_reported_witness :
  blend_file suffixed_blend_host "/assets/Farmer_George.blend"
    = Ok ([sample_armature "Farmer_George_Rig" None;
           sample_mesh "Farmer_George.001" [Vec 0 0 0]%Q], None) /\
  (Forall (fun o => name o <> "Farmer_George")
          [sample_armature "Farmer_George_Rig" None;
           sample_mesh "Farmer_George.001" [Vec 0 0 0]%Q] \/
   Forall (fun o => type o <> ARMATURE)
          [sample_armature "Farmer_George_Rig" None;
           sample_mesh "Farmer_George.001" [Vec 0 0 0]%Q]) /\
  exists w',
    ExportFarmersFromBlend.process_character suffixed_blend_host "john"
      (ExportFarmersFromBlend.Config "/assets/Farmer_George.blend" "Farmer_George" [])
      initial_world = (Ok tt, w') /\
    length (objects w') = 2.
Proof.
  assert (Hm : Forall (fun o => name o <> "Farmer_George")
                 [sample_armature "Farmer_George_Rig" None;
                  sample_mesh "Farmer_George.001" [Vec 0 0 0]%Q] \/
               Forall (fun o => type o <> ARMATURE)
                 [sample_armature "Farmer_George_Rig" None;
                  sample_mesh "Farmer_George.001" [Vec 0 0 0]%Q]).
  { left. by repeat constructor. }
  split; [reflexivity|]. split; [exact Hm|].
  destruct (blend_missing_elements_are_reported suffixed_blend_host "john"
              (ExportFarmersFromBlend.Config "/assets/Farmer_George.blend"
                 "Farmer_George" [])
              _ None initial_world eq_refl Hm) as (w' & E & Ho & _).
  exists w'. split; [exact E|]. by rewrite Ho.
Defined.

(** ** Where [prepare_rig] leaves the objects *)

Lemma placing_oids (l l' : list object) :
  placing <$> l' = placing <$> l -> oid <$> l' = oid <$> l.
Proof.
  intros H. apply (f_equal (fmap (fun p : nat * vec pyfloat * vec angle * vec pyfloat
                                      => p.1.1.1))) in H.
  by rewrite <- !list_fmap_compose in H.
Qed.

Lemma update_placing (i : nat) (f : object -> object) (w : world) :
  (forall o, placing (f o) = placing o) -> alive i (objects w) ->
  exists w',
    update i f w = (Ok tt, w') /\
    placing <$> objects w' = placing <$> objects w /\ selected w' = selected w.
Proof.
  intros Hf Hi. rewrite update_alive by done. eexists. split; [reflexivity|].
  cbn [objects selected set_objects]. split; [|done].
  unfold alter_object. rewrite <- list_fmap_compose.
  apply list_fmap_ext. intros k o _. simpl. by case_decide.
Qed.

Lemma on_mesh_placing (g : mesh -> mesh) (o : object) :
  placing (ExportFarmerModels.on_mesh g o) = placing o.
Proof. unfold ExportFarmerModels.on_mesh. by destruct (data o). Qed.

(** X20: where [prepare_rig] leaves the objects of the scene.  Every
    object that is selected when it runs (after an import: every imported
    object) ends at the origin, unrotated and at unit scale, whatever
    transform it was imported with; the rig ends at the origin even when it
    is not selected; an object that is neither keeps its location, rotation
    and scale.  No object is added or removed and the selection is
    unchanged. *)
Theorem prepare_rig_resets_transforms (armature mesh_obj : nat) (w : world) :
  alive armature (objects w) -> alive mesh_obj (objects w) ->
  exists w',
    ExportFarmerModels.prepare_rig armature mesh_obj w = (Ok tt, w') /\
    placing <$> objects w' = prepared_placing armature (selected w) <$> objects w /\
    selected w' = selected w.
Proof.
  intros Ha Hm. unfold ExportFarmerModels.prepare_rig.
  rewrite bind_unfold, update_alive by done. mstep.
  set (w2 := ExportFarmerModels.transform_apply _).
  assert (P2 : placing <$> objects w2
               = prepared_placing armature (selected w) <$> objects w).
  { unfold w2, ExportFarmerModels.transform_apply.
    cbn [objects selected set_objects set_active]. unfold alter_object.
    rewrite <- !list_fmap_compose. apply list_fmap_ext. intros k o _.
    unfold prepared_placing. simpl.
    destruct (decide (oid o = armature)) as [E|E].
    - rewrite (bool_decide_eq_true_2 (oid o = armature)) by done.
      cbn [oid set_location]. by case_bool_decide.
    - rewrite (bool_decide_eq_false_2 (oid o = armature)) by done.
      by case_bool_decide. }
  assert (S2 : selected w2 = selected w) by done.
  assert (O2 : oid <$> objects w2 = oid <$> objects w).
  { pose proof (f_equal (fmap (fun p : nat * vec pyfloat * vec angle * vec pyfloat
                                  => p.1.1.1)) P2) as H.
    rewrite <- !list_fmap_compose in H.
    etransitivity; [exact H|]. apply list_fmap_ext. intros k o _.
    unfold prepared_placing. simpl. by repeat case_bool_decide. }
  clearbody w2.
  destruct (update_placing mesh_obj
              (ExportFarmerModels.on_mesh ExportFarmerModels.rename_first_layer) w2)
    as (w3 & E3 & P3 & S3).
  { intros o. apply on_mesh_placing. }
  { unfold alive. by rewrite O2. }
  rewrite E3. mstep.
  set (w4 := emit (Print "  Processing Materials...") w3).
  assert (Hm4 : alive mesh_obj (objects w4)).
  { unfold alive, w4. cbn [objects emit]. rewrite (placing_oids _ _ P3), O2. exact Hm. }
  unfold deref at 1. destruct (proj1 (find_object_alive _ _) Hm4) as [mo Hmo].
  rewrite Hmo. cbv beta iota. rewrite bind_unfold.
  destruct (for_each_rel
              (fun w w' => placing <$> objects w' = placing <$> objects w /\
                           selected w' = selected w)
              (fun _ w => alive mesh_obj (objects w))
              (fun '(k, mat) =>
                 ExportFarmerModels.setup_material_vertex_color k mat mesh_obj)
              (imap (fun k mat => (k, mat)) (ExportFarmerModels.mesh_materials mo)) w4)
    as (w5 & E5 & P5 & S5).
  { done. }
  { intros w1' w2' w3' [? ?] [? ?]. split; congruence. }
  { intros x w1' w2' Hx [Hp _]. unfold alive. by rewrite (placing_oids _ _ Hp). }
  { intros [k mat] w0 Hw0. unfold ExportFarmerModels.setup_material_vertex_color.
    mstep.
    match goal with |- context [update mesh_obj ?f ?w1] =>
      destruct (update_placing mesh_obj f w1) as (w' & E & P & S)
    end.
    { intros o. apply on_mesh_placing. }
    { exact Hw0. }
    rewrite E. by exists w'. }
  { apply Forall_forall. by intros. }
  rewrite E5. mstep.
  set (w6 := emit (Print "  Importing Animations...") w5).
  destruct (update_placing armature ensure_animation_data w6) as (w7 & E7 & P7 & S7).
  { intros o. unfold ensure_animation_data. by destruct (animation_data o). }
  { unfold alive, w6. cbn [objects emit]. rewrite (placing_oids _ _ P5).
    unfold w4. cbn [objects emit]. rewrite (placing_oids _ _ P3), O2. exact Ha. }
  rewrite E7. exists w7. split; [done|]. split.
  - rewrite P7. unfold w6. cbn [objects emit]. rewrite P5. unfold w4.
    cbn [objects emit]. by rewrite P3.
  - rewrite S7. unfold w6. cbn [selected emit]. rewrite S5. unfold w4.
    cbn [selected emit]. by rewrite S3.
Qed.

Lemma prepare_rig_resets_transforms_witness :
  alive 0 (objects offset_world) /\ alive 1 (objects offset_world) /\
  exists w',
    ExportFarmerModels.prepare_rig 0 1 offset_world = (Ok tt, w') /\
    placing <$> objects w' =
      [(0, vrepeat (Fin 0), vrepeat (Rad 0), vrepeat (Fin 1));
       (1, vrepeat (Fin 0), vrepeat (Rad 0), vrepeat (Fin 1));
       (2, vrepeat (Fin 5), vrepeat (Rad 0), vrepeat (Fin 1))].
Proof.
  assert (Ha : alive 0 (objects offset_world)) by apply list_elem_of_here.
  assert (Hm : alive 1 (objects offset_world))
    by apply list_elem_of_further, list_elem_of_here.
  split; [exact Ha|]. split; [exact Hm|].
  destruct (prepare_rig_resets_transforms 0 1 offset_world Ha Hm) as (w' & E & P & _).
  exists w'. split; [exact E|]. rewrite P. reflexivity.
Defined.

(** ** The box around a model *)

Lemma mapM_find_mem (l : list object) (objs : list nat) (os : list object)
    (i : nat) (o : object) :
  mapM (fun i => find_object i l) objs = Some os ->
  i ∈ objs -> find_object i l = Some o -> o ∈ os.
Proof.
  revert os. induction objs as [|j objs IH]; intros os H Hi Ho.
  { by apply elem_of_nil in Hi. }
  cbn [mapM] in H. destruct (find_object j l) as [oj|] eqn:Hj; [|done].
  cbn [mbind option_bind] in H.
  destruct (mapM _ objs) as [os'|] eqn:E; [|done].
  cbn in H. injection H as <-.
  apply elem_of_cons in Hi as [->|Hi].
  - rewrite Hj in Ho. injection Ho as ->. apply list_elem_of_here.
  - apply list_elem_of_further. by apply IH.
Qed.

Lemma compute_bounds_inside (l : list (vec Q)) (v : vec Q) :
  v ∈ l -> inside (compute_bounds l) v.
Proof.
  intros Hv i.
  destruct (accumulate_lower sentinel l i no_nan_sentinel) as [L U].
  split.
  - by apply (proj1 (Forall_forall _ _) L).
  - by apply (proj1 (Forall_forall _ _) U).
Qed.

(** X21: the box a renderer computes contains the geometry it was
    computed from.  When [get_model_bounds] returns, every world-space
    vertex of the evaluated mesh of every listed object (for an object
    without mesh data: every corner of its box) lies between the returned
    minimum and maximum on each axis; and the same holds for the scan of
    [center_and_scale_model] over the box corners of its objects.  Both
    scans only read: the scene they return is the scene they were given. *)
Theorem model_bounds_contain_geometry :
  (forall (h : host) (objs : list nat) (w w' : world) (b : bounds)
          (i : nat) (o : object) (v : vec Q),
     RenderFarmerPortraits.get_model_bounds h objs w = (Ok b, w') ->
     i ∈ objs -> find_object i (objects w) = Some o ->
     v ∈ RenderFarmerPortraits.world_cos h w o ->
     inside b v /\ w' = w) /\
  (forall (objs : list nat) (w w' : world) (b : bounds)
          (i : nat) (o : object) (v : vec Q),
     RenderAnimalPortraits.scan_objects objs w = (Ok b, w') ->
     i ∈ objs -> find_object i (objects w) = Some o ->
     v ∈ box_corners o ->
     inside b v /\ w' = w).
Proof.
  split.
  - intros h objs w w' b i o v H Hi Ho Hv.
    rewrite get_model_bounds_scan in H.
    destruct (mapM _ objs) as [os|] eqn:E; [|done]. injection H as <- <-.
    split; [|done]. apply compute_bounds_inside.
    apply list_elem_of_bind. exists o. split; [done|].
    by eapply mapM_find_mem.
  - intros objs w w' b i o v H Hi Ho Hv.
    rewrite scan_objects_scan in H.
    destruct (mapM _ objs) as [os|] eqn:E; [|done]. injection H as <- <-.
    split; [|done]. apply compute_bounds_inside.
    apply list_elem_of_bind. exists o. split; [done|].
    by eapply mapM_find_mem.
Qed.

Lemma model_bounds_contain_geometry_witness :
  exists b,
    RenderFarmerPortraits.get_model_bounds farmer_host [1] posed_world
      = (Ok b, posed_world) /\
    1 ∈ [1] /\
    (exists o, find_object 1 (objects posed_world) = Some o /\
               (Vec 3 1 2)%Q ∈ RenderFarmerPortraits.world_cos farmer_host posed_world o) /\
    inside b (Vec 3 1 2)%Q.
Proof.
  eexists. split; [reflexivity|].
  assert (Hi : 1 ∈ [1]) by apply list_elem_of_here.
  split; [exact Hi|].
  assert (Hv : (Vec 3 1 2)%Q ∈ RenderFarmerPortraits.world_cos farmer_host posed_world
                 (set_oid 1 (Some 0)
                    (sample_mesh "Farmer" [Vec (-1) 0 0; Vec 3 1 2]%Q))).
  { apply list_elem_of_further, list_elem_of_here. }
  split; [eexists; split; [reflexivity|exact Hv]|].
  exact (proj1 (proj1 model_bounds_contain_geometry farmer_host [1] posed_world
                  posed_world _ 1 _ _ eq_refl Hi eq_refl Hv)).
Defined.

(** ** A farmer file that cannot be imported *)



